(** * Board synchronisation engine of the kanban board: a shallow embedding

    The development follows the TypeScript sources:
    - [db_disabled/types.ts], [db_disabled/services.ts] and the schema of
      the SQLite store ([DatabaseService]),
    - [server.ts] and [api/client.ts] (the request boundary, [ApiClient]),
    - [hooks/useCardActions.ts] (the action ledger, [CardActions]),
    - [components/KanbanBoard.tsx] (role filter and drag handlers,
      [KanbanBoard]),
    - the hook [useDatabaseBoardState] (module [BoardState]) and its wiring
      in [pages/Index.tsx].

    Strings are [string], SQL integers and JS numbers that hold integers
    are [Z], nullable columns and optional fields are [option].  The
    store enforces its foreign keys (the driver switches them on by
    default): a write that would leave a row without its parent throws,
    and deleting a parent deletes its children. *)

From Stdlib Require Import List String Ascii ZArith Bool Lia Permutation Sorted.
Import ListNotations.
Local Open Scope string_scope.
Local Open Scope list_scope.
Local Open Scope Z_scope.

Set Implicit Arguments.

(** ** JavaScript helpers *)

Module JS.

(** [x || null] on an optional string: the empty string is falsy. *)
Definition string_or_null (x : option string) : option string :=
  match x with
  | Some s => if String.eqb s "" then None else Some s
  | None => None
  end.

(** [x || null] on an optional number: zero is falsy. *)
Definition number_or_null (x : option Z) : option Z :=
  match x with
  | Some n => if Z.eqb n 0 then None else Some n
  | None => None
  end.

(** The time values a [Date] can hold, in milliseconds since the epoch. *)
Definition MAX_TIME : Z := 8640000000000000.

Definition valid_time (ms : Z) : bool :=
  (- MAX_TIME <=? ms) && (ms <=? MAX_TIME).

(** [new Date(x).getTime()] for a value [x] that denotes the instant
    [ms]; [None] is NaN, the time value of an Invalid Date. *)
Definition Date_getTime (ms : Z) : option Z :=
  if valid_time ms then Some ms else None.

(** [Math.floor(t / 1000)]; NaN stays NaN. *)
Definition floor_seconds (t : option Z) : option Z :=
  option_map (fun ms => ms / 1000) t.

(** [s.startsWith(p)] *)
Definition startsWith (s p : string) : bool := String.prefix p s.

(** [s.replace(p, "")] for a non-empty string pattern [p]: the first
    occurrence of [p] is removed, the rest is kept. *)
Fixpoint replace_first (p s : string) : string :=
  if String.prefix p s
  then String.substring (String.length p)
                        (String.length s - String.length p)%nat s
  else match s with
       | EmptyString => EmptyString
       | String c s' => String c (replace_first p s')
       end.

(** [array.findIndex(pred)]: the index of the first match, or -1. *)
Fixpoint findIndex {A} (pred : A -> bool) (l : list A) : Z :=
  match l with
  | [] => -1
  | x :: l' =>
      if pred x then 0
      else let i := findIndex pred l' in
           if i <? 0 then -1 else i + 1
  end.

(** [array.splice(start, 0, item)] on a copy: negative [start] counts
    from the end and is clamped at 0, a [start] past the end appends. *)
Definition splice_insert {A} (start : Z) (item : A) (l : list A) : list A :=
  let len := Z.of_nat (List.length l) in
  let s := if start <? 0 then Z.max (len + start) 0 else Z.min start len in
  firstn (Z.to_nat s) l ++ item :: skipn (Z.to_nat s) l.

(** [array.splice(start, 1)]: the removed element, if any, and the rest. *)
Definition splice_remove {A} (start : Z) (l : list A) : option A * list A :=
  let len := Z.of_nat (List.length l) in
  let s := if start <? 0 then Z.max (len + start) 0 else Z.min start len in
  (nth_error l (Z.to_nat s),
   firstn (Z.to_nat s) l ++ skipn (S (Z.to_nat s)) l).

(** A stable insertion sort: [ORDER BY key ASC] where rows with equal
    keys stay in table order. *)
Fixpoint insert_by {A} (key : A -> Z) (x : A) (l : list A) : list A :=
  match l with
  | [] => [x]
  | y :: l' => if key x <=? key y then x :: l else y :: insert_by key x l'
  end.

Definition sort_by {A} (key : A -> Z) (l : list A) : list A :=
  fold_right (insert_by key) [] l.

End JS.

(** ** Data model ([db_disabled/types.ts]) *)

Inductive ListType := open | closed | hidden.

Inductive Role := role_default | role_mod | role_admin.

Inductive ActionKind :=
| created | moved | edited | deleted | restored
| member_added | member_removed | due_date_changed
| label_added | label_removed.

(** The detail payload of an action; only the keys the modelled code
    writes are kept. *)
Record ActionDetails := {
  d_from : option string;
  d_to : option string
}.

Record CardAction := {
  a_id : string;
  a_cardId : string;
  a_userId : string;
  a_username : string;
  a_action : ActionKind;
  a_details : option ActionDetails;
  a_timestamp : Z
}.

(** Rows of the [boards], [lists] and [cards] tables.  The JSON text columns
    ([labels], [attachments], [members]) are represented by the array
    the stored text decodes to; [None] is SQL NULL.  The [created_at]
    and [updated_at] columns are not read by the modelled code and are
    left out. *)
Record BoardRow := {
  b_id : string;
  b_name : string
}.

Record ListRow := {
  l_id : string;
  l_board_id : string;
  l_title : string;
  l_type : ListType;
  l_position : Z;
  l_card_limit : option Z
}.

Record CardRow := {
  c_id : string;
  c_list_id : string;
  c_title : string;
  c_description : option string;
  c_position : Z;
  c_due_date : option Z;
  c_labels : option (list string);
  c_attachments : option (list string);
  c_members : option (list string)
}.

(** [Partial<Pick<Card, ...>>]: every field may be absent. *)
Record CardUpdates := {
  u_title : option string;
  u_description : option string;
  u_position : option Z;
  u_due_date : option Z;
  u_labels : option (list string);
  u_attachments : option (list string);
  u_members : option (list string);
  u_list_id : option string
}.

Definition no_updates : CardUpdates :=
  {| u_title := None; u_description := None; u_position := None;
     u_due_date := None; u_labels := None; u_attachments := None;
     u_members := None; u_list_id := None |}.

(** Front-end types.  A due date is a [Date], its ISO text (what a
    [Date] becomes in a JSON body) or a number; [kc_dueDate] is the
    instant the value denotes, in milliseconds since the epoch, which
    JSON keeps. *)
Inductive Priority := high | medium | low.

Record Person := {
  p_id : string;
  p_username : string;
  p_email : option string
}.

Record Checklist := {
  ck_completed : Z;
  ck_total : Z
}.

Record KanbanCardData := {
  kc_id : string;
  kc_title : string;
  kc_description : option string;
  kc_labels : list string;
  kc_assignees : option (list Person);
  kc_dueDate : option Z;
  kc_priority : option Priority;
  kc_checklist : option Checklist;
  kc_attachments : list string;
  kc_members : list string;
  kc_comments : option Z;
  kc_actions : list CardAction
}.

Record KanbanListData := {
  kl_id : string;
  kl_title : string;
  kl_type : ListType;
  kl_cards : list KanbanCardData;
  kl_cardLimit : option Z
}.

Definition ListType_eqb (a b : ListType) : bool :=
  match a, b with
  | open, open | closed, closed | hidden, hidden => true
  | _, _ => false
  end.

(** Structural equality of snapshots, the model of comparing their
    [JSON.stringify] texts. *)
Definition Board_eq_dec (x y : list KanbanListData) : {x = y} + {x <> y}.
Proof.
  repeat decide equality; try apply Z.eq_dec; try apply string_dec.
Defined.

(** ** The durable store ([db_disabled/services.ts]) *)

Module DatabaseService.

Record Database := {
  boards_tbl : list BoardRow;
  lists_tbl : list ListRow;
  cards_tbl : list CardRow;
  card_actions_tbl : list CardAction
}.

(** The parent rows the foreign keys look for. *)
Definition board_exists (db : Database) (id : string) : bool :=
  existsb (fun b => String.eqb (b_id b) id) (boards_tbl db).

Definition list_exists (db : Database) (id : string) : bool :=
  existsb (fun l => String.eqb (l_id l) id) (lists_tbl db).

Definition card_exists (db : Database) (id : string) : bool :=
  existsb (fun c => String.eqb (c_id c) id) (cards_tbl db).

(** SQL [COALESCE(?, column)] on a NOT NULL column and on a nullable
    one; a parameter bound to [undefined] or [null] is NULL. *)
Definition COALESCE {A} (param : option A) (column : A) : A :=
  match param with Some v => v | None => column end.

Definition COALESCE_null {A} (param column : option A) : option A :=
  match param with Some v => Some v | None => column end.

(** The [SET] clause of [updateCard] applied to the matching row. *)
Definition update_row (u : CardUpdates) (c : CardRow) : CardRow :=
  {| c_id := c_id c;
     c_title := COALESCE (u_title u) (c_title c);
     c_description := COALESCE_null (u_description u) (c_description c);
     c_position := COALESCE (u_position u) (c_position c);
     c_due_date := COALESCE_null (u_due_date u) (c_due_date c);
     c_labels := COALESCE_null (u_labels u) (c_labels c);
     c_attachments := COALESCE_null (u_attachments u) (c_attachments c);
     c_members := COALESCE_null (u_members u) (c_members c);
     c_list_id := COALESCE (u_list_id u) (c_list_id c) |}.

Definition getCard (db : Database) (id : string) : option CardRow :=
  find (fun c => String.eqb (c_id c) id) (cards_tbl db).

(** [UPDATE cards SET ... WHERE id = ? RETURNING *].  [None] is the
    thrown constraint error: the statement is refused, and the store
    left as it is, when it would give a stored card a [list_id] that
    is no row of [lists].  A statement that leaves [list_id] as it is
    finds the parent where the last write left it.  [Some (db, None)]
    is the statement that matched no row. *)
Definition updateCard (db : Database) (id : string) (updates : CardUpdates)
  : option (Database * option CardRow) :=
  let refused :=
    match getCard db id, u_list_id updates with
    | Some _, Some list_id => negb (list_exists db list_id)
    | _, _ => false
    end in
  if refused then None
  else
    let db' :=
      {| boards_tbl := boards_tbl db;
         lists_tbl := lists_tbl db;
         cards_tbl := map (fun c => if String.eqb (c_id c) id
                                    then update_row updates c else c)
                          (cards_tbl db);
         card_actions_tbl := card_actions_tbl db |} in
    Some (db', getCard db' id).

(** [INSERT INTO cards ... RETURNING *]: [id] is the primary key and
    [list_id] references [lists], so a second row with the same id and
    a row for a list that does not exist are refused ([None] stands
    for the thrown constraint error).  [description || null] and
    [due_date || null] store NULL for falsy values. *)
Definition createCard (db : Database) (card : CardRow) : option Database :=
  match getCard db (c_id card) with
  | Some _ => None
  | None =>
      if negb (list_exists db (c_list_id card)) then None
      else
        let row :=
          {| c_id := c_id card;
             c_list_id := c_list_id card;
             c_title := c_title card;
             c_description := JS.string_or_null (c_description card);
             c_position := c_position card;
             c_due_date := JS.number_or_null (c_due_date card);
             c_labels := c_labels card;
             c_attachments := c_attachments card;
             c_members := c_members card |} in
        Some {| boards_tbl := boards_tbl db;
                lists_tbl := lists_tbl db;
                cards_tbl := cards_tbl db ++ [row];
                card_actions_tbl := card_actions_tbl db |}
  end.

(** [DELETE FROM cards WHERE id = ?], with [changes > 0].  The rows of
    [card_actions] that reference a deleted card go with it
    ([ON DELETE CASCADE]). *)
Definition deleteCard (db : Database) (id : string) : Database * bool :=
  let found := card_exists db id in
  ({| boards_tbl := boards_tbl db;
      lists_tbl := lists_tbl db;
      cards_tbl := filter (fun c => negb (String.eqb (c_id c) id)) (cards_tbl db);
      card_actions_tbl :=
        if found
        then filter (fun a => negb (String.eqb (a_cardId a) id))
                    (card_actions_tbl db)
        else card_actions_tbl db |},
   found).

(** [INSERT INTO lists ...], refused for a duplicate primary key and
    for a [board_id] that is no row of [boards]. *)
Definition createList (db : Database) (list : ListRow) : option Database :=
  if list_exists db (l_id list)
  then None
  else if negb (board_exists db (l_board_id list)) then None
  else
    let row :=
      {| l_id := l_id list; l_board_id := l_board_id list;
         l_title := l_title list; l_type := l_type list;
         l_position := l_position list;
         l_card_limit := JS.number_or_null (l_card_limit list) |} in
    Some {| boards_tbl := boards_tbl db;
            lists_tbl := lists_tbl db ++ [row];
            cards_tbl := cards_tbl db;
            card_actions_tbl := card_actions_tbl db |}.

(** [convertCardRowToKanbanCard].  [new Date(due_date * 1000)] is an
    Invalid Date when the product is no time value; the response then
    carries null for it.  The fields that are no column (assignees,
    priority, checklist, comments, actions) are not set. *)
Definition convertCardRowToKanbanCard (cardRow : CardRow) : KanbanCardData :=
  {| kc_id := c_id cardRow;
     kc_title := c_title cardRow;
     kc_description := JS.string_or_null (c_description cardRow);
     kc_labels := match c_labels cardRow with Some l => l | None => [] end;
     kc_assignees := None;
     kc_dueDate := match JS.number_or_null (c_due_date cardRow) with
                   | Some seconds => JS.Date_getTime (seconds * 1000)
                   | None => None
                   end;
     kc_priority := None;
     kc_checklist := None;
     kc_attachments := match c_attachments cardRow with Some l => l | None => [] end;
     kc_members := match c_members cardRow with Some l => l | None => [] end;
     kc_comments := None;
     kc_actions := [] |}.

(** The board's lists by position, each with its cards by position. *)
Definition getListsByBoard (db : Database) (boardId : string)
  : list KanbanListData :=
  let lists :=
    JS.sort_by l_position
      (filter (fun l => String.eqb (l_board_id l) boardId) (lists_tbl db)) in
  let allCards :=
    JS.sort_by c_position
      (filter (fun c => existsb (fun l => String.eqb (c_list_id c) (l_id l)
                                          && String.eqb (l_board_id l) boardId)
                                (lists_tbl db))
              (cards_tbl db)) in
  map (fun list =>
         {| kl_id := l_id list;
            kl_title := l_title list;
            kl_type := l_type list;
            kl_cardLimit := JS.number_or_null (l_card_limit list);
            kl_cards :=
              map convertCardRowToKanbanCard
                  (filter (fun card => String.eqb (c_list_id card) (l_id list))
                          allCards) |})
      lists.

(** [card.dueDate ? Math.floor(new Date(card.dueDate).getTime() / 1000)
    : undefined]: the whole seconds of the instant.  A falsy due date
    (the number 0) and the instants of the first second both end as
    NULL, since [createCard] stores [due_date || null]. *)
Definition due_date_seconds (dueDate : option Z) : option Z :=
  match dueDate with
  | Some ms => JS.floor_seconds (JS.Date_getTime ms)
  | None => None
  end.

(** [list.cards.forEach((card, cardIndex) => this.createCard(...))] *)
Fixpoint insert_cards (db : Database) (listId : string)
         (cards : list KanbanCardData) (cardIndex : Z) : option Database :=
  match cards with
  | [] => Some db
  | card :: rest =>
      match createCard db
              {| c_id := kc_id card; c_list_id := listId;
                 c_title := kc_title card;
                 c_description := kc_description card;
                 c_position := cardIndex;
                 c_due_date := due_date_seconds (kc_dueDate card);
                 c_labels := Some (kc_labels card);
                 c_attachments := Some (kc_attachments card);
                 c_members := Some (kc_members card) |} with
      | Some db' => insert_cards db' listId rest (cardIndex + 1)
      | None => None
      end
  end.

(** [lists.forEach((list, listIndex) => ...)] *)
Fixpoint insert_lists (db : Database) (boardId : string)
         (lists : list KanbanListData) (listIndex : Z) : option Database :=
  match lists with
  | [] => Some db
  | list :: rest =>
      match createList db
              {| l_id := kl_id list; l_board_id := boardId;
                 l_title := kl_title list; l_type := kl_type list;
                 l_position := listIndex;
                 l_card_limit := kl_cardLimit list |} with
      | Some db1 =>
          match insert_cards db1 (kl_id list) (kl_cards list) 0 with
          | Some db2 => insert_lists db2 boardId rest (listIndex + 1)
          | None => None
          end
      | None => None
      end
  end.

(** One transaction: the board's rows are deleted and written again,
    every position taken from the index in its array.  Deleting the
    cards deletes their rows of [card_actions] with them.  [None] is
    the rolled-back transaction, which rethrows. *)
Definition saveKanbanData (db : Database) (boardId : string)
           (lists : list KanbanListData) : option Database :=
  let in_board c :=
    existsb (fun l => String.eqb (l_id l) (c_list_id c)
                      && String.eqb (l_board_id l) boardId) (lists_tbl db) in
  let of_deleted_card a :=
    existsb (fun c => String.eqb (c_id c) (a_cardId a) && in_board c)
            (cards_tbl db) in
  insert_lists
    {| boards_tbl := boards_tbl db;
       lists_tbl := filter (fun l => negb (String.eqb (l_board_id l) boardId))
                           (lists_tbl db);
       cards_tbl := filter (fun c => negb (in_board c)) (cards_tbl db);
       card_actions_tbl := filter (fun a => negb (of_deleted_card a))
                                  (card_actions_tbl db) |}
    boardId lists 0.

(** [UPDATE cards SET position = ?, list_id = COALESCE(?, list_id)
    WHERE id = ?] for every entry, in one transaction: the batch
    update written for drag and drop.  An entry that would move a
    stored card to a list that does not exist rolls the batch back
    ([None]). *)
Fixpoint updateCardsPositions (db : Database)
         (cards : list (string * option string * Z)) : option Database :=
  match cards with
  | [] => Some db
  | (id, list_id, position) :: rest =>
      let refused :=
        match getCard db id, list_id with
        | Some _, Some l => negb (list_exists db l)
        | _, _ => false
        end in
      if refused then None
      else
        updateCardsPositions
          {| boards_tbl := boards_tbl db;
             lists_tbl := lists_tbl db;
             cards_tbl :=
               map (fun c => if String.eqb (c_id c) id
                             then update_row
                                    {| u_title := None; u_description := None;
                                       u_position := Some position;
                                       u_due_date := None; u_labels := None;
                                       u_attachments := None; u_members := None;
                                       u_list_id := list_id |} c
                             else c)
                   (cards_tbl db);
             card_actions_tbl := card_actions_tbl db |}
          rest
  end.

(** [INSERT INTO card_actions ...]: the id is the primary key and
    [card_id] references [cards], so a record with a stored id and a
    record for a card that is not stored are refused. *)
Definition createCardAction (db : Database) (actionData : CardAction)
  : option Database :=
  if existsb (fun a => String.eqb (a_id a) (a_id actionData))
             (card_actions_tbl db)
  then None
  else if negb (card_exists db (a_cardId actionData)) then None
  else Some {| boards_tbl := boards_tbl db;
               lists_tbl := lists_tbl db;
               cards_tbl := cards_tbl db;
               card_actions_tbl := card_actions_tbl db ++ [actionData] |}.

(** [SELECT * FROM card_actions WHERE card_id = ? ORDER BY timestamp DESC] *)
Definition getCardActions (db : Database) (cardId : string) : list CardAction :=
  JS.sort_by (fun a => - a_timestamp a)
    (filter (fun a => String.eqb (a_cardId a) cardId) (card_actions_tbl db)).

End DatabaseService.

(** ** The request boundary ([api/client.ts] over the routes of [server.ts]) *)

Module ApiClient.
Import DatabaseService.

Inductive Request :=
| GetListsByBoard
| SaveKanbanData
| CreateCard
| UpdateCard
| DeleteCard
| CreateCardAction
| GetCardActions (cardId : string).

(** What the network does during one call of the hook: which requests
    reach the server and get their answer back, the message of the
    error [fetch] rejects with when one does not (it is the runtime's
    own text), and the [statusText] a response of status 500 arrives
    with (the reason phrase of the connection, which may be empty). *)
Record Net := {
  reaches : Request -> bool;
  fetch_failed : string;
  statusText_500 : string
}.

Coercion reaches : Net >-> Funclass.

(** The promise of [request]: its data, or the message of the thrown
    [Error]. *)
Inductive Response (A : Type) :=
| Ok (data : A)
| Err (message : string).
Arguments Ok {A} data.
Arguments Err {A} message.

(** The message [request] throws for the answer of a route that
    caught an error (status 500):
    [`API request failed: ${response.statusText}`]. *)
Definition server_error (net : Net) : string :=
  String.append "API request failed: " (statusText_500 net).

(** [GET /api/boards/:boardId/lists] *)
Definition getListsByBoard (net : Net) (db : Database) (boardId : string)
  : Response (list KanbanListData) :=
  if net GetListsByBoard
  then Ok (DatabaseService.getListsByBoard db boardId)
  else Err (fetch_failed net).

(** [POST /api/boards/:boardId/lists] *)
Definition saveKanbanData (net : Net) (db : Database) (boardId : string)
           (lists : list KanbanListData) : Response unit * Database :=
  if net SaveKanbanData
  then match DatabaseService.saveKanbanData db boardId lists with
       | Some db' => (Ok tt, db')
       | None => (Err (server_error net), db)
       end
  else (Err (fetch_failed net), db).

(** [POST /api/cards].  The route keeps the id the client sends (the
    hook always sends one), stores [description || null],
    [position || 0] and [due_date || null], and does not forward
    attachments and members. *)
Definition createCard (net : Net) (db : Database) (cardData : CardRow)
  : Response unit * Database :=
  if net CreateCard
  then
    let processedData :=
      {| c_id := c_id cardData;
         c_list_id := c_list_id cardData;
         c_title := c_title cardData;
         c_description := JS.string_or_null (c_description cardData);
         c_position := c_position cardData;
         c_due_date := JS.number_or_null (c_due_date cardData);
         c_labels := c_labels cardData;
         c_attachments := None;
         c_members := None |} in
    match DatabaseService.createCard db processedData with
    | Some db' => (Ok tt, db')
    | None => (Err (server_error net), db)
    end
  else (Err (fetch_failed net), db).

(** [PUT /api/cards/:cardId]: the body is handed to the store as it is;
    the answer is a success also when no row matched, and an error
    when the store refused the statement. *)
Definition updateCard (net : Net) (db : Database) (cardId : string)
           (updates : CardUpdates) : Response unit * Database :=
  if net UpdateCard
  then match DatabaseService.updateCard db cardId updates with
       | Some (db', _) => (Ok tt, db')
       | None => (Err (server_error net), db)
       end
  else (Err (fetch_failed net), db).

(** [DELETE /api/cards/:cardId]: the route answers [{ success }], and
    [request] throws when [success] is false. *)
Definition deleteCard (net : Net) (db : Database) (cardId : string)
  : Response unit * Database :=
  if net DeleteCard
  then let '(db', success) := DatabaseService.deleteCard db cardId in
       if success then (Ok tt, db') else (Err "API request failed", db')
  else (Err (fetch_failed net), db).

(** [POST /api/card-actions] *)
Definition createCardAction (net : Net) (db : Database)
           (actionData : CardAction) : Response unit * Database :=
  if net CreateCardAction
  then match DatabaseService.createCardAction db actionData with
       | Some db' => (Ok tt, db')
       | None => (Err (server_error net), db)
       end
  else (Err (fetch_failed net), db).

(** [GET /api/cards/:cardId/actions] *)
Definition getCardActions (net : Net) (db : Database) (cardId : string)
  : Response (list CardAction) :=
  if net (GetCardActions cardId)
  then Ok (DatabaseService.getCardActions db cardId)
  else Err (fetch_failed net).

End ApiClient.

Coercion ApiClient.reaches : ApiClient.Net >-> Funclass.

(** ** The action ledger on the client ([hooks/useCardActions.ts]) *)

Module CardActions.

Record CurrentUser := {
  user_id : string;
  username : string
}.

(** What one call of the hook reads from its surroundings: the actor
    [getCurrentUser()] resolves from the stored token (or null), the
    random parts of the generated ids, and the clock readings of
    [Date.now()] when an action is stamped, when [setLastUpdate] is
    called and when a broadcast event is built. *)
Record Env := {
  currentUser : option CurrentUser;
  card_stamp : string;
  action_stamp : string;
  t_action : Z;
  t_update : Z;
  t_event : Z
}.

Definition generateActionId (env : Env) : string :=
  String.append "action_" (action_stamp env).

Definition createAction (env : Env) (cardId : string) (action : ActionKind)
           (details : option ActionDetails) : option CardAction :=
  match currentUser env with
  | None => None
  | Some user =>
      Some {| a_id := generateActionId env;
              a_cardId := cardId;
              a_userId := user_id user;
              a_username := username user;
              a_action := action;
              a_details := details;
              a_timestamp := t_action env |}
  end.

Definition logCardCreated (env : Env) (cardId : string) : option CardAction :=
  createAction env cardId created None.

Definition logCardMoved (env : Env) (cardId fromList toList : string)
  : option CardAction :=
  createAction env cardId moved
    (Some {| d_from := Some fromList; d_to := Some toList |}).

Definition logCardDeleted (env : Env) (cardId : string) : option CardAction :=
  createAction env cardId deleted None.

End CardActions.

(** ** The board component ([components/KanbanBoard.tsx]) *)

Module KanbanBoard.

(** [arrayMove] of the sortable library the component imports:
    [newArray.splice(to < 0 ? newArray.length + to : to, 0,
    newArray.splice(from, 1)[0])].  The insertion index is computed
    before the removal.  When nothing is removed the library inserts
    [undefined]; the handlers below never call it that way, and the
    model returns the array unchanged there. *)
Definition arrayMove {A} (array : list A) (from to : Z) : list A :=
  let start := if to <? 0 then Z.of_nat (List.length array) + to else to in
  match JS.splice_remove from array with
  | (Some item, rest) => JS.splice_insert start item rest
  | (None, rest) => rest
  end.

(** The lists a viewer sees. *)
Definition visibleLists (isPublicView : bool) (userRole : Role)
           (lists : list KanbanListData) : list KanbanListData :=
  filter (fun list =>
            if isPublicView then ListType_eqb (kl_type list) open
            else match userRole with
                 | role_admin => true
                 | role_mod => true
                 | role_default => ListType_eqb (kl_type list) open
                 end)
         lists.

(** The callbacks a drag handler may invoke. *)
Inductive Callback :=
| onListsUpdate (newLists : list KanbanListData)
| onCardPositionUpdate (cardId newListId : string) (newPosition : Z).

Definition has_card (id : string) (list : KanbanListData) : bool :=
  existsb (fun card => String.eqb (kc_id card) id) (kl_cards list).

Definition find_activeList (lists : list KanbanListData) (activeId : string)
  : option KanbanListData :=
  find (has_card activeId) lists.

Definition find_overList (lists : list KanbanListData) (overId : string)
  : option KanbanListData :=
  find (fun list =>
          String.eqb (kl_id list) overId
          || String.eqb (kl_id list) (JS.replace_first "list-" overId)
          || has_card overId list)
       lists.

(** [{ ...list, cards }] *)
Definition set_cards (l : KanbanListData) (cards : list KanbanCardData)
  : KanbanListData :=
  {| kl_id := kl_id l; kl_title := kl_title l; kl_type := kl_type l;
     kl_cards := cards; kl_cardLimit := kl_cardLimit l |}.

Definition can_drag (userRole : Role) : bool :=
  match userRole with role_admin | role_mod => true | role_default => false end.

Definition is_mod (userRole : Role) : bool :=
  match userRole with role_mod => true | _ => false end.

(** The lists after the card [activeCard] left [activeList] and was
    put into [overList], before the card [overId] or at the end (the
    [lists.map] both handlers build; the ids of the lists are the
    keys of the store and taken to be distinct). *)
Definition move_between (lists : list KanbanListData)
           (activeList overList : KanbanListData) (activeId overId : string)
           (activeCard : option KanbanCardData) : list KanbanListData :=
  map (fun list =>
         if String.eqb (kl_id list) (kl_id activeList)
         then set_cards list
                (filter (fun card => negb (String.eqb (kc_id card) activeId))
                        (kl_cards list))
         else if String.eqb (kl_id list) (kl_id overList)
         then match activeCard with
              | Some card =>
                  let overIndex :=
                    JS.findIndex (fun c => String.eqb (kc_id c) overId)
                                 (kl_cards list) in
                  if overIndex <? 0
                  then set_cards list (kl_cards list ++ [card])
                  else set_cards list
                         (JS.splice_insert overIndex card (kl_cards list))
              | None => list
              end
         else list)
      lists.

Definition handleDragOver (lists : list KanbanListData) (userRole : Role)
           (activeId : string) (over : option string) : option Callback :=
  match over with
  | None => None
  | Some overId =>
      if String.eqb activeId overId then None
      else if negb (can_drag userRole) then None
      else
        match find (fun c => String.eqb (kc_id c) activeId)
                   (flat_map kl_cards lists) with
        | None => None
        | Some activeCard =>
            match find_activeList lists activeId, find_overList lists overId with
            | Some activeList, Some overList =>
                if is_mod userRole && ListType_eqb (kl_type overList) open
                then None
                else if negb (String.eqb (kl_id activeList) (kl_id overList))
                then Some (onListsUpdate
                             (move_between lists activeList overList
                                           activeId overId (Some activeCard)))
                else None
            | _, _ => None
            end
        end
  end.

(** [handleDragEnd]; [tracking] tells whether the parent passed
    [onCardPositionUpdate]. *)
Definition handleDragEnd (lists : list KanbanListData) (userRole : Role)
           (tracking : bool) (activeId : string) (over : option string)
  : option Callback :=
  match over with
  | None => None
  | Some overId =>
      if JS.startsWith activeId "list-" && JS.startsWith overId "list-"
      then
        if negb (can_drag userRole) then None
        else
          let activeListId := JS.replace_first "list-" activeId in
          let overListId := JS.replace_first "list-" overId in
          if negb (String.eqb activeListId overListId)
          then
            let activeIndex :=
              JS.findIndex (fun l => String.eqb (kl_id l) activeListId) lists in
            let overIndex :=
              JS.findIndex (fun l => String.eqb (kl_id l) overListId) lists in
            if negb (activeIndex =? overIndex)
            then Some (onListsUpdate (arrayMove lists activeIndex overIndex))
            else None
          else None
      else if negb (can_drag userRole) then None
      else
        match find_activeList lists activeId, find_overList lists overId with
        | Some activeList, Some overList =>
            if is_mod userRole && ListType_eqb (kl_type overList) open
            then None
            else if String.eqb (kl_id activeList) (kl_id overList)
            then
              let activeIndex :=
                JS.findIndex (fun c => String.eqb (kc_id c) activeId)
                             (kl_cards activeList) in
              let overIndex :=
                JS.findIndex (fun c => String.eqb (kc_id c) overId)
                             (kl_cards activeList) in
              if negb (activeIndex =? overIndex)
              then
                if tracking
                then Some (onCardPositionUpdate activeId (kl_id overList) overIndex)
                else Some (onListsUpdate
                             (map (fun list =>
                                     if String.eqb (kl_id list) (kl_id activeList)
                                     then set_cards list
                                            (arrayMove (kl_cards activeList)
                                                       activeIndex overIndex)
                                     else list)
                                  lists))
              else None
            else
              let overIndex :=
                JS.findIndex (fun c => String.eqb (kc_id c) overId)
                             (kl_cards overList) in
              let newPosition :=
                if overIndex <? 0
                then Z.of_nat (List.length (kl_cards overList))
                else overIndex in
              if tracking
              then Some (onCardPositionUpdate activeId (kl_id overList) newPosition)
              else Some (onListsUpdate
                           (move_between lists activeList overList
                              activeId overId
                              (find (fun c => String.eqb (kc_id c) activeId)
                                    (kl_cards activeList))))
        | _, _ => None
        end
  end.

End KanbanBoard.

(** ** The board state hook ([useDatabaseBoardState]) *)

Module BoardState.
Import DatabaseService CardActions.
Import ApiClient (Net, Response, Ok, Err).

Definition DEFAULT_BOARD_ID : string := "default".

(** The React state of one mounted hook. *)
Record State := {
  lists : list KanbanListData;
  lastUpdate : Z;
  error : option string
}.

(** What a call of the hook can read and write: the durable store
    behind the API, the [trello_board_state] item of [localStorage]
    (the fallback cache; the JSON text is represented by the lists it
    encodes) and the state of the hook. *)
Record World := {
  store : Database;
  trello_board_state : option (list KanbanListData);
  state : State
}.

Definition setLists (newLists : list KanbanListData) (st : State) : State :=
  {| lists := newLists; lastUpdate := lastUpdate st; error := error st |}.

Definition setLastUpdate (t : Z) (st : State) : State :=
  {| lists := lists st; lastUpdate := t; error := error st |}.

Definition setError (message : string) (st : State) : State :=
  {| lists := lists st; lastUpdate := lastUpdate st; error := Some message |}.

Definition set_actions (card : KanbanCardData) (actions : list CardAction)
  : KanbanCardData :=
  {| kc_id := kc_id card; kc_title := kc_title card;
     kc_description := kc_description card; kc_labels := kc_labels card;
     kc_assignees := kc_assignees card; kc_dueDate := kc_dueDate card;
     kc_priority := kc_priority card; kc_checklist := kc_checklist card;
     kc_attachments := kc_attachments card; kc_members := kc_members card;
     kc_comments := kc_comments card; kc_actions := actions |}.

(** The actions of every card as the API returns them; a card whose
    request fails or returns nothing keeps its own. *)
Definition loadCardActions (net : Net) (db : Database)
           (lists : list KanbanListData) : list KanbanListData :=
  map (fun list =>
         KanbanBoard.set_cards list
           (map (fun card =>
                   match ApiClient.getCardActions net db (kc_id card) with
                   | Ok actions =>
                       if 0 <? Z.of_nat (List.length actions)
                       then set_actions card actions
                       else set_actions card (kc_actions card)
                   | Err _ => set_actions card (kc_actions card)
                   end)
                (kl_cards list)))
      lists.

(** The detail of a [board-updated] event. *)
Record BoardUpdated := {
  ev_lists : list KanbanListData;
  ev_timestamp : Z
}.

(** The listener of [board-updated]; [seen] is the [lastUpdate] its
    closure holds. *)
Definition handleBoardUpdate (seen : Z) (event : BoardUpdated) (st : State)
  : State :=
  if ev_timestamp event >? seen
  then setLastUpdate (ev_timestamp event) (setLists (ev_lists event) st)
  else st.

(** [updateLists]: the whole board is saved, then the state is set and
    the event is dispatched on the [window] of this hook, whose own
    listener (holding the [lastUpdate] of the last render) runs; when
    the save fails the lists go to [localStorage] instead. *)
Definition updateLists (env : Env) (net : Net)
           (newLists : list KanbanListData) (w : World) : World :=
  match ApiClient.saveKanbanData net (store w) DEFAULT_BOARD_ID newLists with
  | (Ok _, db') =>
      let st := setLastUpdate (t_update env) (setLists newLists (state w)) in
      {| store := db';
         trello_board_state := trello_board_state w;
         state := handleBoardUpdate (lastUpdate (state w))
                    {| ev_lists := newLists; ev_timestamp := t_event env |} st |}
  | (Err _, db') =>
      {| store := db';
         trello_board_state := Some newLists;
         state := setLastUpdate (t_update env) (setLists newLists (state w)) |}
  end.

(** The promise of an async call that may reject. *)
Inductive Outcome := Resolved | Rejected.

(** [lists.map] of the success path: the move action is attached to
    the card where it is found in the destination list. *)
Definition attach_action (lists : list KanbanListData)
           (newListId cardId : string) (moveAction : option CardAction)
  : list KanbanListData :=
  map (fun list =>
         if String.eqb (kl_id list) newListId
         then KanbanBoard.set_cards list
                (map (fun card =>
                        if String.eqb (kc_id card) cardId
                        then set_actions card
                               (kc_actions card ++
                                match moveAction with
                                | Some a => [a]
                                | None => []
                                end)
                        else card)
                     (kl_cards list))
         else list)
      lists.

(** [updateCardPosition].  The [catch] block reads [oldList] and
    [newList], which are declared inside the [try] block and so are
    not bound there: evaluating its condition throws a
    [ReferenceError] and the call rejects with the state as it is at
    that point. *)
Definition updateCardPosition (env : Env) (net : Net)
           (cardId newListId : string) (newPosition : Z) (w : World)
  : Outcome * World :=
  let oldList := find (KanbanBoard.has_card cardId) (lists (state w)) in
  let newList :=
    find (fun list => String.eqb (kl_id list) newListId) (lists (state w)) in
  match ApiClient.updateCard net (store w) cardId
          {| u_title := None; u_description := None;
             u_position := Some newPosition; u_due_date := None;
             u_labels := None; u_attachments := None; u_members := None;
             u_list_id := Some newListId |} with
  | (Err _, _) => (Rejected, w)
  | (Ok _, db1) =>
      let '(db2, st1) :=
        match oldList, newList with
        | Some oldList, Some newList =>
            if negb (String.eqb (kl_id oldList) newListId)
            then
              let moveAction :=
                logCardMoved env cardId (kl_title oldList) (kl_title newList) in
              let db2 :=
                match moveAction with
                | Some a => snd (ApiClient.createCardAction net db1 a)
                | None => db1
                end in
              (db2, setLists (attach_action (lists (state w)) newListId
                                            cardId moveAction) (state w))
            else (db1, state w)
        | _, _ => (db1, state w)
        end in
      match ApiClient.getListsByBoard net db2 DEFAULT_BOARD_ID with
      | Ok finalLists =>
          (Resolved,
           {| store := db2;
              trello_board_state := trello_board_state w;
              state := setLastUpdate (t_update env)
                         (setLists (loadCardActions net db2 finalLists) st1) |})
      | Err _ =>
          (Rejected,
           {| store := db2;
              trello_board_state := trello_board_state w;
              state := st1 |})
      end
  end.

(** What [addCard] returns: the new id, [undefined] (no actor to
    attribute the creation to) or [null] (the call failed). *)
Inductive AddCardResult :=
| ReturnedId (cardId : string)
| ReturnedUndefined
| ReturnedNull.

(** [addCard(listId, cardData)]; the id of [cardData] is not read, the
    card gets the id generated here.  The due date of [cardData] is a
    [Date], as the call of [getTime] on it requires. *)
Definition addCard (env : Env) (net : Net) (listId : string)
           (cardData : KanbanCardData) (w : World) : AddCardResult * World :=
  let cardId := String.append "card_" (card_stamp env) in
  let position :=
    match find (fun l => String.eqb (kl_id l) listId) (lists (state w)) with
    | Some list => Z.of_nat (List.length (kl_cards list))
    | None => 0
    end in
  match ApiClient.createCard net (store w)
          {| c_id := cardId; c_list_id := listId;
             c_title := kc_title cardData;
             c_description := kc_description cardData;
             c_position := position;
             c_due_date := due_date_seconds (kc_dueDate cardData);
             c_labels := Some (kc_labels cardData);
             c_attachments := Some (kc_attachments cardData);
             c_members := Some (kc_members cardData) |} with
  | (Err message, db1) =>
      (ReturnedNull,
       {| store := db1;
          trello_board_state := trello_board_state w;
          state := setError message (state w) |})
  | (Ok _, db1) =>
      match logCardCreated env cardId with
      | None =>
          (ReturnedUndefined,
           {| store := db1;
              trello_board_state := trello_board_state w;
              state := state w |})
      | Some createAction =>
          let db2 := snd (ApiClient.createCardAction net db1 createAction) in
          let newCard :=
            {| kc_id := cardId; kc_title := kc_title cardData;
               kc_description := kc_description cardData;
               kc_labels := kc_labels cardData;
               kc_assignees := kc_assignees cardData;
               kc_dueDate := kc_dueDate cardData;
               kc_priority := kc_priority cardData;
               kc_checklist := kc_checklist cardData;
               kc_attachments := kc_attachments cardData;
               kc_members := kc_members cardData;
               kc_comments := kc_comments cardData;
               kc_actions := [createAction] |} in
          let updatedLists :=
            map (fun list =>
                   if String.eqb (kl_id list) listId
                   then KanbanBoard.set_cards list (kl_cards list ++ [newCard])
                   else list)
                (lists (state w)) in
          match ApiClient.getListsByBoard net db2 DEFAULT_BOARD_ID with
          | Ok finalLists =>
              (ReturnedId cardId,
               {| store := db2;
                  trello_board_state := trello_board_state w;
                  state := setLastUpdate (t_update env)
                             (setLists (loadCardActions net db2 finalLists)
                                       (state w)) |})
          | Err message =>
              (ReturnedNull,
               {| store := db2;
                  trello_board_state := trello_board_state w;
                  state := setError message (setLists updatedLists (state w)) |})
          end
      end
  end.

(** [deleteCard(cardId)].  The deletion action is put on the card
    first (a null action, when no actor is resolved, is an entry the
    model leaves out), then the row is deleted and the board pulled. *)
Definition deleteCard (env : Env) (net : Net) (cardId : string) (w : World)
  : World :=
  let deleteAction := logCardDeleted env cardId in
  let updatedLists :=
    map (fun list =>
           KanbanBoard.set_cards list
             (map (fun card =>
                     if String.eqb (kc_id card) cardId
                     then set_actions card
                            (kc_actions card ++
                             match deleteAction with
                             | Some a => [a]
                             | None => []
                             end)
                     else card)
                  (kl_cards list)))
        (lists (state w)) in
  let st1 := setLists updatedLists (state w) in
  match ApiClient.deleteCard net (store w) cardId with
  | (Err message, db1) =>
      {| store := db1; trello_board_state := trello_board_state w;
         state := setError message st1 |}
  | (Ok _, db1) =>
      match ApiClient.getListsByBoard net db1 DEFAULT_BOARD_ID with
      | Ok finalLists =>
          {| store := db1; trello_board_state := trello_board_state w;
             state := setLastUpdate (t_update env)
                        (setLists (loadCardActions net db1 finalLists) st1) |}
      | Err message =>
          {| store := db1; trello_board_state := trello_board_state w;
             state := setError message st1 |}
      end
  end.

(** One tick of the periodic sync (every 5 seconds): the board is
    pulled and replaces the lists when the two differ; a failed pull
    is ignored. *)
Definition periodicSync (env : Env) (net : Net) (w : World) : World :=
  match ApiClient.getListsByBoard net (store w) DEFAULT_BOARD_ID with
  | Ok latestLists =>
      let latestListsWithActions := loadCardActions net (store w) latestLists in
      if Board_eq_dec latestListsWithActions (lists (state w))
      then w
      else {| store := store w;
              trello_board_state := trello_board_state w;
              state := setLastUpdate (t_update env)
                         (setLists latestListsWithActions (state w)) |}
  | Err _ => w
  end.

(** The wiring of [pages/Index.tsx]: the board gets
    [onListsUpdate = handleLocalUpdate] (which calls [updateLists]) and
    [onCardPositionUpdate = updateCardPosition]. *)
Definition run_callback (env : Env) (net : Net)
           (callback : option KanbanBoard.Callback) (w : World) : World :=
  match callback with
  | None => w
  | Some (KanbanBoard.onListsUpdate newLists) => updateLists env net newLists w
  | Some (KanbanBoard.onCardPositionUpdate cardId newListId newPosition) =>
      snd (updateCardPosition env net cardId newListId newPosition w)
  end.

Definition dragOver (env : Env) (net : Net) (userRole : Role)
           (activeId : string) (over : option string) (w : World) : World :=
  run_callback env net
    (KanbanBoard.handleDragOver (lists (state w)) userRole activeId over) w.

Definition dragEnd (env : Env) (net : Net) (userRole : Role)
           (activeId : string) (over : option string) (w : World) : World :=
  run_callback env net
    (KanbanBoard.handleDragEnd (lists (state w)) userRole true activeId over) w.

(** *** Several tabs of one origin

    The tabs share the durable store and [localStorage]; each has its
    own [window], and with it its own hook state and its own
    [board-updated] listener.  A call made in one tab runs on that
    tab's state: [window.dispatchEvent] reaches the listeners of the
    dispatching [window] only. *)
Record Browser := {
  b_store : Database;
  b_trello_board_state : option (list KanbanListData);
  tab_A : State;
  tab_B : State
}.

Definition in_tab_A (call : World -> World) (b : Browser) : Browser :=
  let w := call {| store := b_store b;
                   trello_board_state := b_trello_board_state b;
                   state := tab_A b |} in
  {| b_store := store w;
     b_trello_board_state := trello_board_state w;
     tab_A := state w;
     tab_B := tab_B b |}.

Definition in_tab_B (call : World -> World) (b : Browser) : Browser :=
  let w := call {| store := b_store b;
                   trello_board_state := b_trello_board_state b;
                   state := tab_B b |} in
  {| b_store := store w;
     b_trello_board_state := trello_board_state w;
     tab_A := tab_A b;
     tab_B := state w |}.

End BoardState.

(** ** A board used in the examples *)

Module Examples.
Import DatabaseService CardActions BoardState.

Definition card (id title : string) : KanbanCardData :=
  {| kc_id := id; kc_title := title; kc_description := None;
     kc_labels := []; kc_assignees := None; kc_dueDate := None;
     kc_priority := None; kc_checklist := None; kc_attachments := [];
     kc_members := []; kc_comments := None; kc_actions := [] |}.

Definition row (id listId title : string) (position : Z) : CardRow :=
  {| c_id := id; c_list_id := listId; c_title := title;
     c_description := None; c_position := position; c_due_date := None;
     c_labels := Some []; c_attachments := Some []; c_members := Some [] |}.

Definition list_row (id title : string) (type : ListType) (position : Z)
  : ListRow :=
  {| l_id := id; l_board_id := DEFAULT_BOARD_ID; l_title := title;
     l_type := type; l_position := position; l_card_limit := None |}.

(** "To Do" (open) with three cards, "Staff Planning" (closed) with
    two, "Admin Only" (hidden) with one. *)
Definition db0 : Database :=
  {| boards_tbl := [ {| b_id := DEFAULT_BOARD_ID; b_name := "Main Board" |} ];
     lists_tbl := [ list_row "todo" "To Do" open 0;
                    list_row "staff" "Staff Planning" closed 1;
                    list_row "admin" "Admin Only" hidden 2 ];
     cards_tbl := [ row "c1" "todo" "one" 0;
                    row "c2" "todo" "two" 1;
                    row "c3" "todo" "three" 2;
                    row "c4" "staff" "four" 0;
                    row "c5" "staff" "five" 1;
                    row "c6" "admin" "six" 0 ];
     card_actions_tbl := [] |}.

Definition action (id cardId : string) (kind : ActionKind) (timestamp : Z)
  : CardAction :=
  {| a_id := id; a_cardId := cardId; a_userId := "u1"; a_username := "alice";
     a_action := kind; a_details := None; a_timestamp := timestamp |}.

(** The same board with a ledger: two records for c1, one for c4. *)
Definition db1 : Database :=
  {| boards_tbl := boards_tbl db0;
     lists_tbl := lists_tbl db0;
     cards_tbl := cards_tbl db0;
     card_actions_tbl := [ action "a1" "c1" created 10;
                           action "a2" "c1" edited 20;
                           action "a3" "c4" created 5 ] |}.

Definition todo_list : KanbanListData :=
  {| kl_id := "todo"; kl_title := "To Do"; kl_type := open;
     kl_cards := [card "c1" "one"; card "c2" "two"; card "c3" "three"];
     kl_cardLimit := None |}.

Definition staff_list : KanbanListData :=
  {| kl_id := "staff"; kl_title := "Staff Planning"; kl_type := closed;
     kl_cards := [card "c4" "four"; card "c5" "five"];
     kl_cardLimit := None |}.

Definition admin_list : KanbanListData :=
  {| kl_id := "admin"; kl_title := "Admin Only"; kl_type := hidden;
     kl_cards := [card "c6" "six"];
     kl_cardLimit := None |}.

Definition board0 : list KanbanListData :=
  [todo_list; staff_list; admin_list].

Definition state0 : State :=
  {| lists := board0; lastUpdate := 1000; error := None |}.

Definition world0 : World :=
  {| store := db0; trello_board_state := None; state := state0 |}.

Definition browser0 : Browser :=
  {| b_store := db0; b_trello_board_state := None;
     tab_A := state0; tab_B := state0 |}.

Definition net_up : ApiClient.Net :=
  {| ApiClient.reaches := fun _ => true;
     ApiClient.fetch_failed := "Failed to fetch";
     ApiClient.statusText_500 := "Internal Server Error" |}.
Definition net_down : ApiClient.Net :=
  {| ApiClient.reaches := fun _ => false;
     ApiClient.fetch_failed := "Failed to fetch";
     ApiClient.statusText_500 := "Internal Server Error" |}.

Definition alice : CurrentUser := {| user_id := "u1"; username := "alice" |}.

(** A call made by an authenticated viewer, and the same call with no
    resolvable actor. *)
Definition env0 : Env :=
  {| currentUser := Some alice; card_stamp := "1700000000000_abc";
     action_stamp := "1700000000000_x_y"; t_action := 2000;
     t_update := 2001; t_event := 2002 |}.

Definition env_anonymous : Env :=
  {| currentUser := None; card_stamp := "1700000000000_abc";
     action_stamp := "1700000000000_x_y"; t_action := 2000;
     t_update := 2001; t_event := 2002 |}.

End Examples.

(** ** Predicates of the statements *)

Module Spec.
Import DatabaseService.

(** A NOT NULL column after [COALESCE(?, column)]. *)
Definition column_after {A} (param : option A) (old new : A) : Prop :=
  match param with
  | Some v => new = v
  | None => new = old
  end.

(** A nullable column after [COALESCE(?, column)]. *)
Definition nullable_after {A} (param old new : option A) : Prop :=
  match param with
  | Some v => new = Some v
  | None => new = old
  end.

(** Field by field: an absent field keeps the stored value, a present
    one takes the value sent. *)
Definition partial_update (updates : CardUpdates) (c c' : CardRow) : Prop :=
  c_id c' = c_id c
  /\ column_after (u_title updates) (c_title c) (c_title c')
  /\ nullable_after (u_description updates) (c_description c) (c_description c')
  /\ column_after (u_position updates) (c_position c) (c_position c')
  /\ nullable_after (u_due_date updates) (c_due_date c) (c_due_date c')
  /\ nullable_after (u_labels updates) (c_labels c) (c_labels c')
  /\ nullable_after (u_attachments updates) (c_attachments c) (c_attachments c')
  /\ nullable_after (u_members updates) (c_members c) (c_members c')
  /\ column_after (u_list_id updates) (c_list_id c) (c_list_id c').

(** The drag is a drag of a card: [handleDragEnd] treats it as a drag
    of a list only when both ids start with the list prefix. *)
Definition card_drag (activeId overId : string) : Prop :=
  JS.startsWith activeId "list-" && JS.startsWith overId "list-" = false.

(** The position values of the rows of a list, in table order. *)
Definition positions_in (cards : list CardRow) (listId : string) : list Z :=
  map c_position (filter (fun c => String.eqb (c_list_id c) listId) cards).

(** The position values the store holds for the cards of a list. *)
Definition positions_of (db : Database) (listId : string) : list Z :=
  positions_in (cards_tbl db) listId.

(** The positions are exactly 0, 1, ..., N-1: sorted, they are the
    first N naturals. *)
Definition dense (positions : list Z) : bool :=
  if list_eq_dec Z.eq_dec
       (JS.sort_by (fun z => z) positions)
       (map Z.of_nat (seq 0 (List.length positions)))
  then true else false.

(** 0, 1, ..., n-1 *)
Definition range (n : nat) : list Z := map Z.of_nat (seq 0 n).

(** The positions a whole-board save writes for the list [listId]. *)
Definition contribution (lists : list KanbanListData) (listId : string) : list Z :=
  flat_map (fun l => if String.eqb (kl_id l) listId
                     then range (List.length (kl_cards l)) else [])
           lists.

(** Every card row points to a row of the lists table. *)
Definition foreign_keys_hold (db : Database) : Prop :=
  forall c, In c (cards_tbl db) ->
            exists l, In l (lists_tbl db) /\ l_id l = c_list_id c.

(** The ids of the cards the snapshot shows. *)
Definition card_ids (lists : list KanbanListData) : list string :=
  map kc_id (flat_map kl_cards lists).


(** The update of a move: the new list and the new position. *)
Definition move_update (newListId : string) (newPosition : Z) : CardUpdates :=
  {| u_title := None; u_description := None;
     u_position := Some newPosition; u_due_date := None;
     u_labels := None; u_attachments := None; u_members := None;
     u_list_id := Some newListId |}.

(** The list is a row of the lists table. *)
Definition stored_list (db : Database) (listId : string) : Prop :=
  exists l, In l (lists_tbl db) /\ l_id l = listId.

(** The board is a row of the boards table. *)
Definition stored_board (db : Database) (boardId : string) : Prop :=
  exists b, In b (boards_tbl db) /\ b_id b = boardId.

(** Every record of the ledger is about a card of the cards table. *)
Definition ledger_keys_hold (db : Database) : Prop :=
  forall a, In a (card_actions_tbl db) ->
            exists c, In c (cards_tbl db) /\ c_id c = a_cardId a.

(** The records the ledger holds for a card, newest first (records of
    the same instant in table order). *)
Definition ledger_of (db : Database) (cardId : string) : list CardAction :=
  JS.sort_by (fun a => - a_timestamp a)
    (filter (fun a => String.eqb (a_cardId a) cardId) (card_actions_tbl db)).

(** A card row as a snapshot shows it: NULL or empty text and a NULL
    or zero due date are absent, a due date is the instant of its
    seconds, the JSON columns are their arrays, and the card carries
    its records of the ledger. *)
Definition shown_card (db : Database) (row : CardRow) : KanbanCardData :=
  {| kc_id := c_id row;
     kc_title := c_title row;
     kc_description :=
       match c_description row with
       | Some text => if String.eqb text "" then None else Some text
       | None => None
       end;
     kc_labels := match c_labels row with Some l => l | None => [] end;
     kc_assignees := None;
     kc_dueDate :=
       match c_due_date row with
       | Some seconds =>
           if (seconds =? 0) || negb (JS.valid_time (seconds * 1000))
           then None else Some (seconds * 1000)
       | None => None
       end;
     kc_priority := None;
     kc_checklist := None;
     kc_attachments := match c_attachments row with Some l => l | None => [] end;
     kc_members := match c_members row with Some l => l | None => [] end;
     kc_comments := None;
     kc_actions := ledger_of db (c_id row) |}.

(** The content of the store for a board, as a snapshot: the lists of
    the board by position, each with the cards that point to it by
    position, each card with its records of the ledger. *)
Definition store_content (db : Database) (boardId : string)
  : list KanbanListData :=
  map (fun l =>
         {| kl_id := l_id l;
            kl_title := l_title l;
            kl_type := l_type l;
            kl_cards :=
              map (shown_card db)
                  (JS.sort_by c_position
                     (filter (fun c => String.eqb (c_list_id c) (l_id l))
                             (cards_tbl db)));
            kl_cardLimit :=
              match l_card_limit l with
              | Some n => if n =? 0 then None else Some n
              | None => None
              end |})
      (JS.sort_by l_position
         (filter (fun l => String.eqb (l_board_id l) boardId) (lists_tbl db))).


(** What a pull of the board returns: the lists of the store with the
    actions the API returns for each card. *)
Definition pulled (net : ApiClient.Net) (db : Database) : list KanbanListData :=
  BoardState.loadCardActions net db
    (getListsByBoard db BoardState.DEFAULT_BOARD_ID).

End Spec.

(** ** More of the store ([db_disabled/services.ts]): members, settings,
    lists *)

Module DatabaseServiceExt.
Import DatabaseService.

(** A row of the [users] table. *)
Record UserRow := {
  usr_id : string;
  usr_discord_id : option string;
  usr_username : string;
  usr_avatar : option string;
  usr_role : Role
}.

Definition getUser (users : list UserRow) (id : string) : option UserRow :=
  find (fun u => String.eqb (usr_id u) id) users.

(** The [members] of a card after [parseCardData]: the decoded array,
    or the empty array for NULL. *)
Definition parsed_members (card : CardRow) : list string :=
  match c_members card with Some l => l | None => [] end.

Definition is_staff (role : Role) : bool :=
  match role with role_mod | role_admin => true | role_default => false end.

Definition members_update (members : list string) : CardUpdates :=
  {| u_title := None; u_description := None; u_position := None;
     u_due_date := None; u_labels := None; u_attachments := None;
     u_members := Some members; u_list_id := None |}.

(** [addMemberToCard(cardId, userId)].  The update sets the members
    only, so the store does not refuse it; the branch for a refused
    update stands for the error the call would let through. *)
Definition addMemberToCard (users : list UserRow) (db : Database)
           (cardId userId : string) : Database * bool :=
  match getCard db cardId with
  | None => (db, false)
  | Some card =>
      match getUser users userId with
      | None => (db, false)
      | Some user =>
          if negb (is_staff (usr_role user)) then (db, false)
          else
            let currentMembers := parsed_members card in
            if existsb (String.eqb userId) currentMembers then (db, false)
            else
              let updatedMembers := currentMembers ++ [userId] in
              match updateCard db cardId (members_update updatedMembers) with
              | Some (db', result) =>
                  (db', match result with Some _ => true | None => false end)
              | None => (db, false)
              end
      end
  end.

(** [removeMemberFromCard(cardId, userId)] *)
Definition removeMemberFromCard (db : Database) (cardId userId : string)
  : Database * bool :=
  match getCard db cardId with
  | None => (db, false)
  | Some card =>
      let currentMembers := parsed_members card in
      if negb (existsb (String.eqb userId) currentMembers) then (db, false)
      else
        let updatedMembers :=
          filter (fun id => negb (String.eqb id userId)) currentMembers in
        match updateCard db cardId (members_update updatedMembers) with
        | Some (db', result) =>
            (db', match result with Some _ => true | None => false end)
        | None => (db, false)
        end
  end.

(** [getCardMembers(cardId)]: the users of the member ids that exist. *)
Definition getCardMembers (users : list UserRow) (db : Database)
           (cardId : string) : list UserRow :=
  match getCard db cardId with
  | None => []
  | Some card =>
      flat_map (fun id => match getUser users id with
                          | Some u => [u]
                          | None => []
                          end)
               (parsed_members card)
  end.

(** [getCardsByListId(listId)]: the rows of a list by position. *)
Definition getCardsByListId (db : Database) (listId : string) : list CardRow :=
  JS.sort_by c_position
    (filter (fun c => String.eqb (c_list_id c) listId) (cards_tbl db)).

(** A row of the [settings] table ([key] is the primary key). *)
Record SettingRow := {
  s_key : string;
  s_value : string
}.

Definition getSetting (settings : list SettingRow) (key : string)
  : option SettingRow :=
  find (fun s => String.eqb (s_key s) key) settings.

(** [INSERT ... ON CONFLICT (key) DO UPDATE SET value = excluded.value
    RETURNING *] *)
Definition setSetting (settings : list SettingRow) (key value : string)
  : list SettingRow * SettingRow :=
  let row := {| s_key := key; s_value := value |} in
  if existsb (fun s => String.eqb (s_key s) key) settings
  then (map (fun s => if String.eqb (s_key s) key then row else s) settings, row)
  else (settings ++ [row], row).

(** [DELETE FROM settings WHERE key = ?], with [changes > 0]. *)
Definition deleteSetting (settings : list SettingRow) (key : string)
  : list SettingRow * bool :=
  (filter (fun s => negb (String.eqb (s_key s) key)) settings,
   existsb (fun s => String.eqb (s_key s) key) settings).

(** [getAllSettings()]: the pairs [Object.fromEntries] is given. *)
Definition getAllSettings (settings : list SettingRow) : list (string * string) :=
  map (fun s => (s_key s, s_value s)) settings.

End DatabaseServiceExt.

(** ** The local buffer of actions ([hooks/useLocalCardActions.ts]) *)

Module LocalActionStorage.

Record CachedAction := {
  cached_action : CardAction;
  cached_timestamp : Z
}.

(** The cache object: its own keys with their arrays.  Lookups do not
    depend on the order of the keys. *)
Definition ActionsCache := list (string * list CachedAction).


(** [cache[cardId]] *)
Definition lookup (cache : ActionsCache) (cardId : string)
  : option (list CachedAction) :=
  match find (fun kv => String.eqb (fst kv) cardId) cache with
  | Some kv => Some (snd kv)
  | None => None
  end.

(** [cache[cardId] = value] *)
Definition assign (cache : ActionsCache) (cardId : string)
           (value : list CachedAction) : ActionsCache :=
  if existsb (fun kv => String.eqb (fst kv) cardId) cache
  then map (fun kv => if String.eqb (fst kv) cardId then (cardId, value) else kv)
           cache
  else cache ++ [(cardId, value)].




Definition removeAction (cache : ActionsCache) (cardId actionId : string)
  : ActionsCache :=
  match lookup cache cardId with
  | Some entries =>
      assign cache cardId
        (filter (fun cached =>
                   negb (String.eqb (a_id (cached_action cached)) actionId))
                entries)
  | None => cache
  end.

(** [delete this.cache[cardId]] *)
Definition clearCard (cache : ActionsCache) (cardId : string) : ActionsCache :=
  filter (fun kv => negb (String.eqb (fst kv) cardId)) cache.


End LocalActionStorage.

(** ** What a card and the menus offer to a role
    ([KanbanCard], context menus) *)

Module KanbanCard.

(** Mod users cannot drag cards from open lists. *)
Definition isDragDisabled (userRole : Role) (listType : ListType) : bool :=
  match userRole with
  | role_default => true
  | role_mod => ListType_eqb listType open
  | role_admin => false
  end.

Definition showDragHandle (userRole : Role) (listType : ListType) : bool :=
  match userRole with
  | role_admin => true
  | role_mod => negb (ListType_eqb listType open)
  | role_default => false
  end.

Definition canUpload (userRole : Role) (listType : ListType) : bool :=
  match userRole with
  | role_admin => true
  | role_mod => negb (ListType_eqb listType open)
  | role_default => false
  end.

End KanbanCard.

Module ContextMenu.

(** An item of a menu: its id and the flags the component reads (the
    label, the icon and the action closure are left out). *)
Record ContextMenuItem := {
  item_id : string;
  item_disabled : bool;
  item_separator : bool
}.

Definition item (id : string) (disabled : bool) : ContextMenuItem :=
  {| item_id := id; item_disabled := disabled; item_separator := false |}.

Definition separator (id : string) : ContextMenuItem :=
  {| item_id := id; item_disabled := false; item_separator := true |}.

Definition getCardContextMenuItems (userRole : Role) : list ContextMenuItem :=
  let canEdit := match userRole with
                 | role_admin | role_mod => true
                 | role_default => false
                 end in
  match userRole with
  | role_default => []
  | _ =>
      [ item "edit" (negb canEdit);
        item "copy" false;
        separator "separator1";
        item "assign" (negb canEdit);
        item "duedate" (negb canEdit);
        item "label" (negb canEdit);
        separator "separator2";
        item "archive" (negb canEdit);
        item "delete" (negb canEdit) ]
  end.

(** [getListContextMenuItems]; the booleans tell which of the optional
    callbacks ([onDelete], [onExport], [onSort], [onSetLimit]) are
    passed. *)
Definition getListContextMenuItems (listType : ListType) (userRole : Role)
           (onDelete onExport onSort onSetLimit : bool) : list ContextMenuItem :=
  let canEdit := match userRole with
                 | role_admin | role_mod => true
                 | role_default => false
                 end in
  let canChangeVisibility := match userRole with
                             | role_admin => true
                             | _ => false
                             end in
  match userRole with
  | role_default => []
  | _ =>
      [ item "edit" (negb canEdit); item "copy" false ]
      ++ (if canChangeVisibility
          then [ separator "separator1";
                 item "visibility-open" (ListType_eqb listType open);
                 item "visibility-closed" (ListType_eqb listType closed);
                 item "visibility-hidden" (ListType_eqb listType hidden) ]
          else [])
      ++ [ separator "separator2" ]
      ++ (if onExport then [ item "export" false ] else [])
      ++ (if canEdit
          then (if onSort then [ item "sort" false ] else [])
               ++ (if onSetLimit then [ item "setlimit" false ] else [])
          else [])
      ++ (if canEdit
          then [ item "archive" false ]
               ++ (if onDelete then [ item "delete" false ] else [])
          else [])
  end.

End ContextMenu.

(** ** The staff roster of a session ([hooks/useStaffUsers.ts]) *)

Module StaffUsers.

Record StaffUser := {
  su_id : string;
  su_username : string;
  su_displayName : option string;
  su_avatar : option string;
  su_role : Role;
  su_discordId : string;
  su_lastSeen : Z;
  su_isOnline : option bool;
  su_discordStatus : option string
}.

Definition set_seen (user : StaffUser) (lastSeen : Z) (isOnline : option bool)
  : StaffUser :=
  {| su_id := su_id user; su_username := su_username user;
     su_displayName := su_displayName user; su_avatar := su_avatar user;
     su_role := su_role user; su_discordId := su_discordId user;
     su_lastSeen := lastSeen; su_isOnline := isOnline;
     su_discordStatus := su_discordStatus user |}.

(** [addStaffUser(user)]: entries with the same id or the same Discord
    id are removed first. *)
Definition addStaffUser (now : Z) (user : StaffUser) (prev : list StaffUser)
  : list StaffUser :=
  let filtered :=
    filter (fun u => negb (String.eqb (su_id u) (su_id user))
                     && negb (String.eqb (su_discordId u) (su_discordId user)))
           prev in
  filtered ++ [set_seen user now (su_isOnline user)].

Definition updateUserActivity (now : Z) (discordId : string)
           (prev : list StaffUser) : list StaffUser :=
  map (fun user => if String.eqb (su_discordId user) discordId
                   then set_seen user now (Some true)
                   else user)
      prev.

Definition ONLINE_THRESHOLD : Z := 10 * 60 * 1000.

Definition updateOnlineStatus (now : Z) (prev : list StaffUser)
  : list StaffUser :=
  map (fun user =>
         set_seen user (su_lastSeen user)
                  (Some (now - su_lastSeen user <? ONLINE_THRESHOLD)))
      prev.

(** [getAvailableStaffUsers(currentUserId)]; [None] is the omitted
    argument. *)
Definition getAvailableStaffUsers (staffUsers : list StaffUser)
           (currentUserId : option string) : list StaffUser :=
  filter (fun user =>
            let differs (x : string) :=
              match currentUserId with
              | Some id => negb (String.eqb x id)
              | None => true
              end in
            differs (su_id user) && differs (su_discordId user)
            && match su_role user with
               | role_mod | role_admin => true
               | role_default => false
               end)
         staffUsers.

End StaffUsers.

(** ** Predicates of the further statements *)

Module SpecExt.
Import DatabaseService.

(** A list is in nondecreasing order of [key]. *)
Definition ascending {A} (key : A -> Z) (l : list A) : Prop :=
  StronglySorted (fun a b => key a <= key b) l.

(** The row [saveKanbanData] writes for a card at index [k] of a list. *)
Definition saved_card (listId : string) (k : Z) (card : KanbanCardData)
  : CardRow :=
  {| c_id := kc_id card; c_list_id := listId; c_title := kc_title card;
     c_description := JS.string_or_null (kc_description card);
     c_position := k;
     c_due_date := JS.number_or_null (due_date_seconds (kc_dueDate card));
     c_labels := Some (kc_labels card);
     c_attachments := Some (kc_attachments card);
     c_members := Some (kc_members card) |}.

Fixpoint saved_cards (listId : string) (cards : list KanbanCardData) (k : Z)
  : list CardRow :=
  match cards with
  | [] => []
  | card :: rest => saved_card listId k card :: saved_cards listId rest (k + 1)
  end.

(** The row [saveKanbanData] writes for the list at index [i]. *)
Definition saved_list (boardId : string) (i : Z) (l : KanbanListData) : ListRow :=
  {| l_id := kl_id l; l_board_id := boardId; l_title := kl_title l;
     l_type := kl_type l; l_position := i;
     l_card_limit := JS.number_or_null (kl_cardLimit l) |}.

Fixpoint saved_lists (boardId : string) (lists : list KanbanListData) (i : Z)
  : list ListRow :=
  match lists with
  | [] => []
  | l :: rest => saved_list boardId i l :: saved_lists boardId rest (i + 1)
  end.

(** A due date as it comes back after a save: cut to whole seconds,
    and absent when it is no time value or falls into the first
    second of the epoch. *)
Definition whole_seconds (dueDate : option Z) : option Z :=
  match dueDate with
  | Some ms =>
      if JS.valid_time ms && negb (ms / 1000 =? 0)
      then Some (ms / 1000 * 1000)
      else None
  | None => None
  end.

(** A card as a pull returns it after it was saved: the id, the
    title, the labels, the attachments and the members are kept, an
    empty description is gone, the due date is cut to whole seconds,
    and what is no column of the cards table (assignees, priority,
    checklist, comment count, action history) is gone. *)
Definition as_stored_card (card : KanbanCardData) : KanbanCardData :=
  {| kc_id := kc_id card; kc_title := kc_title card;
     kc_description := JS.string_or_null (kc_description card);
     kc_labels := kc_labels card;
     kc_assignees := None;
     kc_dueDate := whole_seconds (kc_dueDate card);
     kc_priority := None;
     kc_checklist := None;
     kc_attachments := kc_attachments card;
     kc_members := kc_members card;
     kc_comments := None;
     kc_actions := [] |}.

Definition as_stored_list (l : KanbanListData) : KanbanListData :=
  {| kl_id := kl_id l; kl_title := kl_title l; kl_type := kl_type l;
     kl_cards := map as_stored_card (kl_cards l);
     kl_cardLimit := JS.number_or_null (kl_cardLimit l) |}.


(** [cache[cardId] || []] *)
Definition entries (cache : LocalActionStorage.ActionsCache) (cardId : string)
  : list LocalActionStorage.CachedAction :=
  match LocalActionStorage.lookup cache cardId with
  | Some l => l
  | None => []
  end.



End SpecExt.

(** * Properties *)

Lemma ListType_eqb_eq a b : ListType_eqb a b = true <-> a = b.
Proof. destruct a, b; simpl; split; congruence. Qed.

(** ** The store's partial update *)

Section PartialUpdate.
Import DatabaseService Spec.

Lemma update_row_partial updates c : partial_update updates c (update_row updates c).
Proof.
  unfold partial_update, update_row, column_after, nullable_after; simpl.
  destruct updates as [t d p dd lb at_ mb li]; simpl.
  destruct t, d, p, dd, lb, at_, mb, li; simpl; repeat split; reflexivity.
Qed.

Lemma update_row_absent c : update_row no_updates c = c.
Proof. destruct c; reflexivity. Qed.

Lemma list_exists_stored db listId :
  list_exists db listId = true <-> stored_list db listId.
Proof.
  unfold list_exists, stored_list; rewrite existsb_exists.
  split; intros (l & Hl & E); exists l; split; auto;
    now apply String.eqb_eq.
Qed.

Lemma card_exists_getCard db id :
  card_exists db id = true <-> exists c, getCard db id = Some c.
Proof.
  unfold card_exists, getCard; split.
  - intro H; apply existsb_exists in H; destruct H as (c & Hc & E).
    destruct (find (fun c0 => String.eqb (c_id c0) id) (cards_tbl db)) eqn:F;
      [eauto|].
    apply (find_none _ _ F) in Hc; congruence.
  - intros (c & H); apply find_some in H; destruct H.
    apply existsb_exists; eauto.
Qed.

(** C10: [updateCard(id, updates)] is a partial update, on every
    store whose card rows all point to a list (which the enforced
    foreign key keeps true).  The store refuses the statement exactly
    when it would give a stored card a [list_id] that is no row of
    [lists]; nothing is written then.  Otherwise, row by row, the
    cards table after the call is the table before it where the row
    with the given id has every field absent from [updates] (title,
    description, position, due_date, labels, attachments, members,
    list_id) at its stored value and every present field at the value
    sent; every other row, the boards, the lists and the ledger are as
    they were, the row returned is the stored one, and every card row
    still points to a list. *)
Theorem updateCard_partial_update :
  forall (db : Database) (id : string) (updates : CardUpdates),
    foreign_keys_hold db ->
    (updateCard db id updates = None
     <-> exists c l, getCard db id = Some c
                     /\ u_list_id updates = Some l
                     /\ ~ stored_list db l)
    /\ match updateCard db id updates with
       | Some (db', returned) =>
           Forall2 (fun c c' =>
                      (c_id c = id -> partial_update updates c c')
                      /\ (c_id c <> id -> c' = c))
                   (cards_tbl db) (cards_tbl db')
           /\ boards_tbl db' = boards_tbl db
           /\ lists_tbl db' = lists_tbl db
           /\ card_actions_tbl db' = card_actions_tbl db
           /\ returned = getCard db' id
           /\ foreign_keys_hold db'
       | None => True
       end.
Proof.
  intros db id updates Hfk; unfold updateCard.
  split.
  - destruct (getCard db id) as [c|]; [destruct (u_list_id updates) as [l|]|].
    + destruct (list_exists db l) eqn:E; simpl; split.
      * discriminate.
      * intros (c' & l' & _ & Hl & Hn); inversion Hl; subst l'.
        exfalso; apply Hn, list_exists_stored; exact E.
      * intros _; exists c, l; repeat split.
        intro H; apply list_exists_stored in H; congruence.
      * reflexivity.
    + split; [discriminate | intros (c' & l' & _ & Hl & _); discriminate].
    + split; [destruct (u_list_id updates); discriminate
             | intros (c' & l' & Hc & _); discriminate].
  - destruct (match getCard db id with
              | Some _ => match u_list_id updates with
                          | Some list_id => negb (list_exists db list_id)
                          | None => false
                          end
              | None => false
              end) eqn:Hrefused; [exact I|].
    cbn [boards_tbl lists_tbl cards_tbl card_actions_tbl].
    split; [|repeat split].
    + clear Hrefused Hfk.
      induction (cards_tbl db) as [|c cards IH]; simpl; constructor; auto.
      destruct (String.eqb_spec (c_id c) id) as [E|E]; split; intro H;
        try congruence.
      apply update_row_partial.
    + intros c' Hc'; simpl in Hc' |- *.
      apply in_map_iff in Hc'; destruct Hc' as (c & Ec & Hc).
      destruct (String.eqb_spec (c_id c) id) as [E|E];
        [|subst c'; apply Hfk; exact Hc].
      subst c'; unfold update_row; cbn [c_list_id].
      destruct (u_list_id updates) as [l|]; simpl; [|apply Hfk; exact Hc].
      destruct (getCard db id) as [c0|] eqn:Hget.
      * apply negb_false_iff in Hrefused.
        apply list_exists_stored in Hrefused; exact Hrefused.
      * exfalso; unfold getCard in Hget.
        apply (find_none _ _ Hget) in Hc.
        rewrite E, String.eqb_refl in Hc; discriminate.
Qed.

End PartialUpdate.

(** ** Who sees which list *)

Section Visibility.
Import KanbanBoard.

(** C4: for a viewer of role default the visible lists are exactly
    the lists of type open, in board order, whatever [isPublicView]
    is; no closed or hidden list is among them. *)
Theorem visibleLists_default_open :
  forall (isPublicView : bool) (lists : list KanbanListData),
    visibleLists isPublicView role_default lists
    = filter (fun l => ListType_eqb (kl_type l) open) lists
    /\ (forall l, In l (visibleLists isPublicView role_default lists)
                  <-> In l lists /\ kl_type l = open).
Proof.
  intros isPublicView lists.
  assert (E : visibleLists isPublicView role_default lists
              = filter (fun l => ListType_eqb (kl_type l) open) lists).
  { unfold visibleLists; destruct isPublicView; reflexivity. }
  split; [exact E|].
  intro l; rewrite E, filter_In, ListType_eqb_eq; tauto.
Qed.

End Visibility.

(** ** The role gate of the drag handlers *)

Section DragPermissions.
Import KanbanBoard BoardState Spec.

Lemma example_pull :
  DatabaseService.getListsByBoard Examples.db0 DEFAULT_BOARD_ID = Examples.board0.
Proof. reflexivity. Qed.

(** C3: a drag of a card by a moderator whose destination list is of
    type open is denied, whatever the source list is: neither drag
    handler invokes a callback, so the state of the hook, the fallback
    cache and the store are what they were. *)
Theorem mod_open_destination_denied :
  forall env net (w : World) (activeId overId : string) tracking overList,
    card_drag activeId overId ->
    find_overList (lists (state w)) overId = Some overList ->
    kl_type overList = open ->
    handleDragEnd (lists (state w)) role_mod tracking activeId (Some overId) = None
    /\ handleDragOver (lists (state w)) role_mod activeId (Some overId) = None
    /\ dragEnd env net role_mod activeId (Some overId) w = w
    /\ dragOver env net role_mod activeId (Some overId) w = w.
Proof.
  intros env net w activeId overId tracking overList Hcard Hover Hopen.
  assert (Hend : forall t,
             handleDragEnd (lists (state w)) role_mod t activeId (Some overId) = None).
  { intro t; unfold handleDragEnd, card_drag in *.
    rewrite Hcard, Hover, Hopen; simpl.
    destruct (find_activeList (lists (state w)) activeId); reflexivity. }
  assert (Hov : handleDragOver (lists (state w)) role_mod activeId (Some overId) = None).
  { unfold handleDragOver; rewrite Hover, Hopen; simpl.
    destruct (String.eqb activeId overId); [reflexivity|].
    destruct (find _ (flat_map kl_cards (lists (state w)))); [|reflexivity].
    destruct (find_activeList (lists (state w)) activeId); reflexivity. }
  unfold dragEnd, dragOver; rewrite (Hend tracking), (Hend true), Hov.
  repeat split.
Qed.

Lemma mod_open_destination_denied_witness :
  (card_drag "c4" "c1"
   /\ find_overList (lists (state Examples.world0)) "c1" = Some Examples.todo_list
   /\ kl_type Examples.todo_list = open)
  /\ handleDragEnd Examples.board0 role_mod true "c4" (Some "c1") = None
  /\ dragEnd Examples.env0 Examples.net_up role_mod "c4" (Some "c1") Examples.world0
     = Examples.world0.
Proof.
  split; [repeat split|].
  destruct (@mod_open_destination_denied Examples.env0 Examples.net_up
              Examples.world0 "c4" "c1" true Examples.todo_list)
    as (H1 & _ & H3 & _); try reflexivity.
  split; [exact H1 | exact H3].
Defined.

(** C5 as stated fails: a moderator sees the open list "To Do" and
    drags its card c1 onto c3 of the same list; the handler returns
    before the reorder and nothing changes. *)
Lemma mod_reorder_in_open_list_denied :
  In Examples.todo_list (visibleLists false role_mod Examples.board0)
  /\ find_activeList Examples.board0 "c1" = Some Examples.todo_list
  /\ find_overList Examples.board0 "c3" = Some Examples.todo_list
  /\ JS.findIndex (fun c => String.eqb (kc_id c) "c1") (kl_cards Examples.todo_list)
     <> JS.findIndex (fun c => String.eqb (kc_id c) "c3") (kl_cards Examples.todo_list)
  /\ handleDragEnd Examples.board0 role_mod true "c1" (Some "c3") = None
  /\ dragEnd Examples.env0 Examples.net_up role_mod "c1" (Some "c3") Examples.world0
     = Examples.world0.
Proof.
  repeat split; try reflexivity.
  - simpl; auto.
  - vm_compute; discriminate.
Qed.

(** C5, amended: for a moderator, a drag of a card onto another index
    of the same list is accepted exactly when the list is not of type
    open (closed or hidden).  It is then handed to the position update
    of the engine with the index of the card it was dropped on (or,
    without that callback, the reordered lists are handed to
    [onListsUpdate]); in an open list the handler invokes nothing. *)
Theorem mod_reorder_within_list :
  forall (lists : list KanbanListData) tracking (activeId overId : string)
         activeList overList,
    card_drag activeId overId ->
    find_activeList lists activeId = Some activeList ->
    find_overList lists overId = Some overList ->
    kl_id activeList = kl_id overList ->
    JS.findIndex (fun c => String.eqb (kc_id c) activeId) (kl_cards activeList)
    <> JS.findIndex (fun c => String.eqb (kc_id c) overId) (kl_cards activeList) ->
    handleDragEnd lists role_mod tracking activeId (Some overId)
    = if ListType_eqb (kl_type overList) open then None
      else if tracking
           then Some (onCardPositionUpdate activeId (kl_id overList)
                        (JS.findIndex (fun c => String.eqb (kc_id c) overId)
                                      (kl_cards activeList)))
           else Some (onListsUpdate
                        (map (fun list =>
                                if String.eqb (kl_id list) (kl_id activeList)
                                then set_cards list
                                       (arrayMove (kl_cards activeList)
                                          (JS.findIndex
                                             (fun c => String.eqb (kc_id c) activeId)
                                             (kl_cards activeList))
                                          (JS.findIndex
                                             (fun c => String.eqb (kc_id c) overId)
                                             (kl_cards activeList)))
                                else list)
                             lists)).
Proof.
  intros lists tracking activeId overId activeList overList
         Hcard Hact Hover Hsame Hidx.
  unfold handleDragEnd, card_drag in *.
  rewrite Hcard, Hact, Hover; simpl.
  destruct (ListType_eqb (kl_type overList) open); [reflexivity|].
  rewrite Hsame, String.eqb_refl.
  apply Z.eqb_neq in Hidx; rewrite Hidx; simpl.
  destruct tracking; reflexivity.
Qed.

Lemma mod_reorder_within_list_witness :
  (card_drag "c4" "c5"
   /\ find_activeList Examples.board0 "c4" = Some Examples.staff_list
   /\ find_overList Examples.board0 "c5" = Some Examples.staff_list)
  /\ handleDragEnd Examples.board0 role_mod true "c4" (Some "c5")
     = Some (onCardPositionUpdate "c4" "staff" 1).
Proof.
  split; [repeat split|].
  apply (@mod_reorder_within_list Examples.board0 true "c4" "c5"
           Examples.staff_list Examples.staff_list);
    try reflexivity.
  vm_compute; discriminate.
Defined.

End DragPermissions.

(** ** The engine: store failures, the ledger, the periodic pull *)

Section Engine.
Import DatabaseService CardActions BoardState Spec.
Import ApiClient (Net, Ok, Err).

Lemma getCard_app_fresh (cards : list CardRow) (r : CardRow) :
  find (fun c => String.eqb (c_id c) (c_id r)) cards = None ->
  find (fun c => String.eqb (c_id c) (c_id r)) (cards ++ [r]) = Some r.
Proof.
  induction cards as [|c cards IH]; simpl; intro H.
  - now rewrite String.eqb_refl.
  - destruct (String.eqb (c_id c) (c_id r)); [discriminate | auto].
Qed.

Lemma createCardAction_cards net db a :
  cards_tbl (snd (ApiClient.createCardAction net db a)) = cards_tbl db.
Proof.
  unfold ApiClient.createCardAction, DatabaseService.createCardAction.
  destruct (net ApiClient.CreateCardAction); [|reflexivity].
  destruct (existsb _ _); [reflexivity|].
  destruct (negb _); reflexivity.
Qed.






(** C2 as stated fails: with the store unreachable, [addCard] returns
    null; the new card is not in the snapshot, and the fallback cache
    holds nothing. *)
Lemma addCard_unreachable_store_no_card :
  let r := addCard Examples.env0 Examples.net_down "todo"
                   (Examples.card "" "new") Examples.world0 in
  fst r = ReturnedNull
  /\ ~ In "card_1700000000000_abc" (card_ids (lists (state (snd r))))
  /\ lists (state (snd r)) = Examples.board0
  /\ trello_board_state (snd r) = None.
Proof.
  vm_compute; repeat split.
  intro H; repeat (destruct H as [H|H]; [discriminate H|]); exact H.
Qed.

(** C2, amended: when the write of the card fails, [addCard] returns
    null and records the error, and the snapshot, the fallback cache
    and the store are what they were, so the card is neither shown
    nor cached.  The write fails when the request does not reach the
    store (the error is the one of [fetch]) and when the store refuses
    the row, because the generated id is taken or the list is no row
    of the lists table (the error is the one of the route).  When the
    request goes through, the generated id is not taken and the list
    is a row of the lists table, the card is stored under the id
    generated on the client, in the list asked for. *)
Theorem addCard_store_write :
  forall env net (listId : string) (cardData : KanbanCardData) (w : World),
    let cardId := String.append "card_" (card_stamp env) in
    let r := addCard env net listId cardData w in
    (net ApiClient.CreateCard = false
     \/ getCard (store w) cardId <> None
     \/ ~ stored_list (store w) listId ->
     fst r = ReturnedNull
     /\ lists (state (snd r)) = lists (state w)
     /\ trello_board_state (snd r) = trello_board_state w
     /\ store (snd r) = store w
     /\ error (state (snd r))
        = Some (if net ApiClient.CreateCard
                then ApiClient.server_error net
                else ApiClient.fetch_failed net))
    /\ (net ApiClient.CreateCard = true ->
        getCard (store w) cardId = None ->
        stored_list (store w) listId ->
        exists row,
          getCard (store (snd r)) cardId = Some row
          /\ c_id row = cardId
          /\ c_list_id row = listId
          /\ c_title row = kc_title cardData).
Proof.
  intros env net listId cardData w cardId r; subst r; split.
  - intro Hfail.
    unfold addCard, ApiClient.createCard, DatabaseService.createCard.
    cbn [c_id c_list_id]; fold cardId.
    destruct (net ApiClient.CreateCard); [|simpl; repeat split].
    destruct (getCard (store w) cardId) as [c|] eqn:Hget;
      [simpl; repeat split|].
    destruct (list_exists (store w) listId) eqn:Hl; [|simpl; repeat split].
    exfalso; destruct Hfail as [H|[H|H]];
      [discriminate | now apply H | apply H, list_exists_stored, Hl].
  - intros Hnet Hfresh Hlist.
    apply list_exists_stored in Hlist.
    unfold addCard, ApiClient.createCard, DatabaseService.createCard.
    rewrite Hnet; cbn [c_id c_list_id]; fold cardId; rewrite Hfresh, Hlist.
    cbn [negb].
    match goal with
    | |- context [cards_tbl (store w) ++ [?r0]] => set (row := r0)
    end.
    exists row.
    assert (Hget : forall db,
               cards_tbl db = cards_tbl (store w) ++ [row] ->
               getCard db cardId = Some row).
    { intros db E; unfold getCard; rewrite E.
      apply (getCard_app_fresh (cards_tbl (store w)) row); exact Hfresh. }
    repeat split.
    destruct (logCardCreated env cardId) as [a|]; simpl.
    + destruct (ApiClient.getListsByBoard net _ DEFAULT_BOARD_ID); simpl;
        apply Hget; rewrite createCardAction_cards; reflexivity.
    + apply Hget; reflexivity.
Qed.

Lemma addCard_store_write_witness :
  (Examples.net_down ApiClient.CreateCard = false
   /\ ~ stored_list Examples.db0 "nowhere"
   /\ stored_list Examples.db0 "todo")
  /\ fst (addCard Examples.env0 Examples.net_down "todo"
                  (Examples.card "" "new") Examples.world0) = ReturnedNull
  /\ store (snd (addCard Examples.env0 Examples.net_up "nowhere"
                         (Examples.card "" "new") Examples.world0))
     = Examples.db0
  /\ exists row,
      getCard (store (snd (addCard Examples.env0 Examples.net_up "todo"
                                   (Examples.card "" "new") Examples.world0)))
              "card_1700000000000_abc" = Some row
      /\ c_list_id row = "todo".
Proof.
  assert (Hno : ~ stored_list Examples.db0 "nowhere").
  { intros (l & Hl & E); simpl in Hl.
    repeat (destruct Hl as [<-|Hl]; [discriminate E|]); exact Hl. }
  assert (Hyes : stored_list Examples.db0 "todo").
  { eexists; split; [left; reflexivity | reflexivity]. }
  split; [repeat split; assumption|].
  split; [|split].
  - destruct (@addCard_store_write Examples.env0 Examples.net_down "todo"
                (Examples.card "" "new") Examples.world0) as [H _].
    destruct (H (or_introl eq_refl)) as [H1 _]; exact H1.
  - destruct (@addCard_store_write Examples.env0 Examples.net_up "nowhere"
                (Examples.card "" "new") Examples.world0) as [H _].
    destruct (H (or_intror (or_intror Hno))) as (_ & _ & _ & H4 & _); exact H4.
  - destruct (@addCard_store_write Examples.env0 Examples.net_up "todo"
                (Examples.card "" "new") Examples.world0) as [_ H].
    destruct (H eq_refl eq_refl Hyes) as (row & H1 & _ & H3 & _).
    exists row; split; [exact H1 | exact H3].
Defined.




Lemma periodicSync_unreachable env (net : Net) w :
  net ApiClient.GetListsByBoard = false -> periodicSync env net w = w.
Proof.
  intro H; unfold periodicSync, ApiClient.getListsByBoard; now rewrite H.
Qed.

(** The listener replaces the snapshot exactly when the timestamp of
    the event is newer than the one it holds. *)
Lemma handleBoardUpdate_newer seen event st :
  (ev_timestamp event > seen ->
   handleBoardUpdate seen event st
   = setLastUpdate (ev_timestamp event) (setLists (ev_lists event) st))
  /\ (ev_timestamp event <= seen -> handleBoardUpdate seen event st = st).
Proof.
  unfold handleBoardUpdate; split; intro H.
  - apply Z.gt_lt, Z.gtb_lt in H; now rewrite H.
  - destruct (ev_timestamp event >? seen) eqn:E; [|reflexivity].
    apply Z.gtb_lt in E; lia.
Qed.

(** Whatever a call does in one tab, the hook state of the other tab
    is untouched. *)
Lemma in_tab_A_other_tab call b : tab_B (in_tab_A call b) = tab_B b.
Proof. reflexivity. Qed.

(** C9 fails on the code: two tabs show the same board.  Tab A moves
    a card (the position update of the engine), and tab A reorders the
    lists through [updateLists], which dispatches [board-updated].
    Either way tab A has a new snapshot, while tab B still has the old
    one: its listener was never run. *)
Theorem second_tab_not_updated :
  let moved_in_A :=
    in_tab_A (dragEnd Examples.env0 Examples.net_up role_admin "c1" (Some "c3"))
             Examples.browser0 in
  let reordered_in_A :=
    in_tab_A (updateLists Examples.env0 Examples.net_up
                [Examples.staff_list; Examples.todo_list; Examples.admin_list])
             Examples.browser0 in
  card_ids (lists (tab_A moved_in_A)) = ["c2"; "c1"; "c3"; "c4"; "c5"; "c6"]
  /\ card_ids (lists (tab_B moved_in_A)) = ["c1"; "c2"; "c3"; "c4"; "c5"; "c6"]
  /\ tab_B moved_in_A = Examples.state0
  /\ lists (tab_A moved_in_A) <> lists (tab_B moved_in_A)
  /\ lists (tab_A reordered_in_A)
     = [Examples.staff_list; Examples.todo_list; Examples.admin_list]
  /\ lastUpdate (tab_A reordered_in_A) = t_event Examples.env0
  /\ tab_B reordered_in_A = Examples.state0
  /\ lists (tab_A reordered_in_A) <> lists (tab_B reordered_in_A).
Proof. vm_compute; repeat split; discriminate. Qed.

Lemma update_same_place_cards (cards : list CardRow) id listId position :
  (forall c, In c cards -> c_id c = id ->
             c_list_id c = listId /\ c_position c = position) ->
  map (fun c => if String.eqb (c_id c) id
                then update_row
                       {| u_title := None; u_description := None;
                          u_position := Some position; u_due_date := None;
                          u_labels := None; u_attachments := None;
                          u_members := None; u_list_id := Some listId |} c
                else c) cards
  = cards.
Proof.
  induction cards as [|c cards IH]; simpl; intro H; [reflexivity|].
  rewrite IH by (intros; apply H; auto).
  destruct (String.eqb_spec (c_id c) id) as [E|E]; [|reflexivity].
  destruct (H c (or_introl eq_refl) E) as [Hl Hp].
  destruct c; simpl in *; subst; reflexivity.
Qed.

(** The engine called directly with the list the card is in and the
    position the card is stored at: the store is what it was, with no
    position value changed and no record added. *)
Lemma updateCardPosition_same_place env net cardId newListId newPosition w oldList :
  find (KanbanBoard.has_card cardId) (lists (state w)) = Some oldList ->
  kl_id oldList = newListId ->
  (forall c, In c (cards_tbl (store w)) -> c_id c = cardId ->
             c_list_id c = newListId /\ c_position c = newPosition) ->
  store (snd (updateCardPosition env net cardId newListId newPosition w)) = store w.
Proof.
  intros Hold Hid Hrow.
  unfold updateCardPosition, ApiClient.updateCard, DatabaseService.updateCard.
  rewrite Hold, Hid, String.eqb_refl.
  destruct (net ApiClient.UpdateCard); [|reflexivity].
  cbn [u_list_id].
  destruct (match getCard (store w) cardId with
            | Some _ => negb (list_exists (store w) newListId)
            | None => false
            end); [reflexivity|].
  rewrite (update_same_place_cards _ Hrow).
  assert (E : {| boards_tbl := boards_tbl (store w);
                 lists_tbl := lists_tbl (store w);
                 cards_tbl := cards_tbl (store w);
                 card_actions_tbl := card_actions_tbl (store w) |} = store w)
    by (destruct (store w); reflexivity).
  rewrite E; clear Hold.
  destruct (find (fun l => String.eqb (kl_id l) newListId) (lists (state w)));
    simpl;
    destruct (ApiClient.getListsByBoard net (store w) DEFAULT_BOARD_ID);
    reflexivity.
Qed.

(** C1 fails on the code.  In the store, "To Do" holds c1, c2, c3 at
    positions 0, 1, 2.  Dropping c3 on c1 makes the handler ask for
    position 0, and the engine writes that one value: the positions
    are then 0, 1, 0 and the pulled order is c1, c3, c2.  Deleting c1
    instead leaves 1, 2, and a card created after that gets the
    position 2 a second time.  A move to another list leaves a gap in
    the source and a duplicate in the destination. *)
Theorem positions_not_renumbered :
  let moved :=
    dragEnd Examples.env0 Examples.net_up role_admin "c3" (Some "c1")
            Examples.world0 in
  let deleted := deleteCard Examples.env0 Examples.net_up "c1" Examples.world0 in
  let added :=
    snd (addCard Examples.env0 Examples.net_up "todo"
                 (Examples.card "" "new") deleted) in
  let crossed :=
    dragEnd Examples.env0 Examples.net_up role_admin "c1" (Some "c4")
            Examples.world0 in
  (positions_of (store Examples.world0) "todo" = [0; 1; 2]
   /\ dense (positions_of (store Examples.world0) "todo") = true)
  /\ (KanbanBoard.handleDragEnd Examples.board0 role_admin true "c3" (Some "c1")
      = Some (KanbanBoard.onCardPositionUpdate "c3" "todo" 0)
      /\ positions_of (store moved) "todo" = [0; 1; 0]
      /\ dense (positions_of (store moved) "todo") = false
      /\ card_ids (lists (state moved)) = ["c1"; "c3"; "c2"; "c4"; "c5"; "c6"])
  /\ (positions_of (store deleted) "todo" = [1; 2]
      /\ dense (positions_of (store deleted) "todo") = false)
  /\ (positions_of (store added) "todo" = [1; 2; 2]
      /\ dense (positions_of (store added) "todo") = false)
  /\ (positions_of (store crossed) "todo" = [1; 2]
      /\ positions_of (store crossed) "staff" = [0; 0; 1]
      /\ dense (positions_of (store crossed) "staff") = false).
Proof. vm_compute; repeat split. Qed.

(** The same drag without the tracking callback goes through
    [updateLists], which saves the whole board: there the positions
    are renumbered and the card is where it was dropped. *)
Lemma reorder_through_updateLists_renumbers :
  let w :=
    run_callback Examples.env0 Examples.net_up
      (KanbanBoard.handleDragEnd Examples.board0 role_admin false "c3" (Some "c1"))
      Examples.world0 in
  map c_id (filter (fun c => String.eqb (c_list_id c) "todo") (cards_tbl (store w)))
  = ["c3"; "c1"; "c2"]
  /\ positions_of (store w) "todo" = [0; 1; 2]
  /\ dense (positions_of (store w) "todo") = true.
Proof. vm_compute; repeat split. Qed.

End Engine.

(** ** Dropping a card where it is *)

Section SamePlace.
Import KanbanBoard BoardState Spec.

(** C6: a move of a card to the list it is in, at the index it has, is
    a no-op for every role.  The drag handler invokes no callback, so
    the state of the hook, the fallback cache and the store (every
    position value, the ledger) are what they were.  And if the engine
    is called directly with that list and the position the card is
    stored at, it leaves the store as it is as well: the value written
    is the value held, and no action is recorded for a move within one
    list. *)
Theorem move_to_same_place_noop :
  forall env net (userRole : Role) (w : World) (activeId overId : string)
         activeList overList,
    card_drag activeId overId ->
    find_activeList (lists (state w)) activeId = Some activeList ->
    find_overList (lists (state w)) overId = Some overList ->
    kl_id activeList = kl_id overList ->
    JS.findIndex (fun c => String.eqb (kc_id c) activeId) (kl_cards activeList)
    = JS.findIndex (fun c => String.eqb (kc_id c) overId) (kl_cards activeList) ->
    (forall tracking,
        handleDragEnd (lists (state w)) userRole tracking activeId (Some overId)
        = None)
    /\ dragEnd env net userRole activeId (Some overId) w = w
    /\ (forall position,
          (forall c, In c (DatabaseService.cards_tbl (store w)) ->
                     c_id c = activeId ->
                     c_list_id c = kl_id overList /\ c_position c = position) ->
          store (snd (updateCardPosition env net activeId (kl_id overList)
                                         position w))
          = store w).
Proof.
  intros env net userRole w activeId overId activeList overList
         Hcard Hact Hover Hsame Hidx.
  assert (Hend : forall tracking,
             handleDragEnd (lists (state w)) userRole tracking activeId
                           (Some overId) = None).
  { intro tracking; unfold handleDragEnd, card_drag in *.
    rewrite Hcard, Hact, Hover, Hsame, String.eqb_refl, Hidx, Z.eqb_refl; simpl.
    destruct (can_drag userRole); simpl; [|reflexivity].
    destruct (is_mod userRole && ListType_eqb (kl_type overList) open);
      reflexivity. }
  split; [exact Hend|]; split.
  - unfold dragEnd; rewrite Hend; reflexivity.
  - intros position Hrow.
    apply updateCardPosition_same_place with (oldList := activeList);
      [exact Hact | exact Hsame | exact Hrow].
Qed.

Lemma move_to_same_place_noop_witness :
  (card_drag "c2" "c2"
   /\ find_activeList Examples.board0 "c2" = Some Examples.todo_list
   /\ find_overList Examples.board0 "c2" = Some Examples.todo_list)
  /\ dragEnd Examples.env0 Examples.net_up role_admin "c2" (Some "c2")
       Examples.world0 = Examples.world0
  /\ store (snd (updateCardPosition Examples.env0 Examples.net_up "c2" "todo" 1
                                    Examples.world0))
     = Examples.db0.
Proof.
  split; [repeat split|].
  destruct (@move_to_same_place_noop Examples.env0 Examples.net_up role_admin
              Examples.world0 "c2" "c2" Examples.todo_list Examples.todo_list)
    as (_ & H2 & H3); try reflexivity.
  split; [exact H2|].
  apply (H3 1); simpl.
  intros c Hc E.
  repeat (destruct Hc as [Hc|Hc]; [subst c; try discriminate E; split; reflexivity|]).
  contradiction.
Defined.

End SamePlace.

(** ** The whole-board save renumbers every list *)

Section StoreRenumbering.
Import DatabaseService Spec.

Lemma positions_in_app cards rows listId :
  positions_in (cards ++ rows) listId
  = positions_in cards listId ++ positions_in rows listId.
Proof. unfold positions_in; now rewrite filter_app, map_app. Qed.

Lemma positions_in_same rows listId id :
  Forall (fun r => c_list_id r = listId) rows ->
  positions_in rows id
  = if String.eqb listId id then map c_position rows else [].
Proof.
  unfold positions_in; induction 1 as [|r rows Hr _ IH]; simpl.
  - now destruct (String.eqb listId id).
  - rewrite Hr; destruct (String.eqb listId id) eqn:E; simpl;
      rewrite IH; reflexivity.
Qed.

Lemma shifted_range k n :
  k :: map (fun i => k + 1 + Z.of_nat i) (seq 0 n)
  = map (fun i => k + Z.of_nat i) (seq 0 (S n)).
Proof.
  simpl; f_equal; [lia|].
  rewrite <- seq_shift, map_map.
  apply map_ext; intro i; lia.
Qed.

Lemma insert_cards_rows :
  forall cards db listId k db',
    insert_cards db listId cards k = Some db' ->
    lists_tbl db' = lists_tbl db
    /\ exists rows,
        cards_tbl db' = cards_tbl db ++ rows
        /\ Forall (fun r => c_list_id r = listId) rows
        /\ map c_position rows
           = map (fun i => k + Z.of_nat i) (seq 0 (List.length cards)).
Proof.
  induction cards as [|card cards IH]; simpl; intros db listId k db' H.
  - inversion H; subst; split; [reflexivity|].
    exists []; now rewrite app_nil_r.
  - unfold createCard in H at 1; cbn [c_id c_list_id] in H.
    destruct (getCard db (kc_id card)); [discriminate|].
    destruct (list_exists db listId); cbn [negb] in H; [|discriminate].
    apply IH in H; simpl in H.
    destruct H as (Hl & rows & Hc & Hrows & Hpos).
    split; [exact Hl|].
    eexists (_ :: rows); split; [rewrite Hc, <- app_assoc; reflexivity|].
    split; [constructor; [reflexivity | exact Hrows]|].
    simpl map at 1; rewrite Hpos; apply shifted_range.
Qed.

Lemma insert_lists_positions :
  forall lists db boardId i db',
    insert_lists db boardId lists i = Some db' ->
    (forall id, positions_in (cards_tbl db') id
                = positions_in (cards_tbl db) id ++ contribution lists id)
    /\ (forall l, In l lists -> ~ In (kl_id l) (map l_id (lists_tbl db)))
    /\ NoDup (map kl_id lists).
Proof.
  induction lists as [|h lists IH]; simpl; intros db boardId i db' H.
  - inversion H; subst; repeat split.
    + intro id; now rewrite app_nil_r.
    + intros l [].
    + constructor.
  - unfold createList in H at 1; unfold list_exists in H at 1;
      cbn [l_id l_board_id] in H.
    destruct (existsb _ (lists_tbl db)) eqn:Hex; [discriminate|].
    destruct (board_exists db boardId); cbn [negb] in H; [|discriminate].
    match type of H with
    | match insert_cards ?d _ _ _ with _ => _ end = _ =>
        destruct (insert_cards d (kl_id h) (kl_cards h) 0) as [db2|] eqn:Hins;
        [|discriminate]
    end.
    apply insert_cards_rows in Hins; simpl in Hins.
    destruct Hins as (Hl & rows & Hc & Hrows & Hpos).
    apply IH in H; destruct H as (Hp & Hfresh & Hnd).
    assert (Hh : ~ In (kl_id h) (map l_id (lists_tbl db))).
    { intro Hin; apply in_map_iff in Hin; destruct Hin as (l & El & Hin).
      assert (existsb (fun l0 => String.eqb (l_id l0) (kl_id h)) (lists_tbl db) = true)
        by (apply existsb_exists; exists l; split; [exact Hin|];
            now rewrite El, String.eqb_refl).
      congruence. }
    assert (Hrest : forall l, In l lists ->
                              ~ In (kl_id l) (map l_id (lists_tbl db))
                              /\ kl_id l <> kl_id h).
    { intros l Hin; specialize (Hfresh l Hin).
      rewrite Hl, map_app, in_app_iff in Hfresh; simpl in Hfresh.
      split; intro; apply Hfresh; auto. }
    repeat split.
    + intro id; rewrite Hp, Hc, positions_in_app, <- app_assoc; f_equal.
      rewrite (positions_in_same id Hrows), Hpos; unfold contribution; simpl.
      reflexivity.
    + intros l [E|Hin]; [subst; exact Hh | apply Hrest; exact Hin].
    + constructor; [|exact Hnd].
      intro Hin; apply in_map_iff in Hin; destruct Hin as (l & El & Hin).
      apply (proj2 (Hrest l Hin)); exact El.
Qed.

Lemma contribution_unique lists l :
  NoDup (map kl_id lists) -> In l lists ->
  contribution lists (kl_id l) = range (List.length (kl_cards l)).
Proof.
  unfold contribution; induction lists as [|h lists IH]; simpl; intros Hnd Hin;
    [contradiction|].
  inversion Hnd as [|? ? Hh Hnd']; subst.
  destruct Hin as [E|Hin].
  - subst; rewrite String.eqb_refl.
    assert (E : flat_map (fun l0 => if String.eqb (kl_id l0) (kl_id l)
                                    then range (List.length (kl_cards l0)) else [])
                         lists = []).
    { clear IH Hnd Hnd'; induction lists as [|x lists IH]; simpl; [reflexivity|].
      destruct (String.eqb_spec (kl_id x) (kl_id l)) as [E|E].
      - exfalso; apply Hh; left; exact E.
      - apply IH; intro; apply Hh; right; assumption. }
    rewrite E; apply app_nil_r.
  - destruct (String.eqb_spec (kl_id h) (kl_id l)) as [E|E].
    + exfalso; apply Hh; rewrite E; apply in_map; exact Hin.
    + simpl; apply IH; assumption.
Qed.

Lemma insert_by_least x l :
  (forall y, In y l -> x <= y) -> JS.insert_by (fun z => z) x l = x :: l.
Proof.
  destruct l as [|y l]; simpl; intro H; [reflexivity|].
  assert (Hle : (x <=? y) = true) by (apply Z.leb_le, H; auto).
  now rewrite Hle.
Qed.

Lemma sort_range_from k n :
  JS.sort_by (fun z => z) (map Z.of_nat (seq k n)) = map Z.of_nat (seq k n).
Proof.
  revert k; induction n as [|n IH]; intro k; simpl; [reflexivity|].
  unfold JS.sort_by in *; rewrite IH.
  apply insert_by_least.
  intros y Hy; apply in_map_iff in Hy; destruct Hy as (j & <- & Hj).
  apply in_seq in Hj; lia.
Qed.

Lemma dense_range n : dense (range n) = true.
Proof.
  unfold dense, range.
  rewrite sort_range_from, length_map, length_seq.
  destruct (list_eq_dec _ _ _); [reflexivity | contradiction].
Qed.

(** The rows the save keeps belong to lists of other boards, and a list
    that could be created has the id of none of them. *)
Lemma kept_rows_of_other_lists db boardId id :
  foreign_keys_hold db ->
  ~ In id (map l_id (filter (fun l => negb (String.eqb (l_board_id l) boardId))
                            (lists_tbl db))) ->
  positions_in
    (filter (fun c =>
               negb (existsb (fun l => String.eqb (l_id l) (c_list_id c)
                                       && String.eqb (l_board_id l) boardId)
                             (lists_tbl db)))
            (cards_tbl db)) id
  = [].
Proof.
  intros Hfk Hfresh; unfold positions_in, foreign_keys_hold in *.
  match goal with
  | |- map _ ?f = [] => assert (Hf : f = []); [|now rewrite Hf]
  end.
  revert Hfk; generalize (cards_tbl db) as cards.
  induction cards as [|c cards IH]; simpl; intro Hfk; [reflexivity|].
  assert (Hfk' : forall c0, In c0 cards ->
                   exists l, In l (lists_tbl db) /\ l_id l = c_list_id c0)
    by (intros; apply Hfk; auto).
  destruct (existsb _ (lists_tbl db)) eqn:Hex; simpl.
  - apply IH; exact Hfk'.
  - destruct (String.eqb_spec (c_list_id c) id) as [E|E]; [|apply IH; exact Hfk'].
    exfalso; apply Hfresh.
    destruct (Hfk c (or_introl eq_refl)) as (l & Hl & El).
    apply in_map_iff; exists l; split; [congruence|].
    apply filter_In; split; [exact Hl|].
    destruct (String.eqb (l_board_id l) boardId) eqn:Hb; [|reflexivity].
    assert (Hin : existsb (fun l0 => String.eqb (l_id l0) (c_list_id c)
                                     && String.eqb (l_board_id l0) boardId)
                          (lists_tbl db) = true)
      by (apply existsb_exists; exists l; split; [exact Hl|];
          now rewrite El, String.eqb_refl, Hb).
    congruence.
Qed.

(** X29: the path [updateLists] takes: after a successful [saveKanbanData]
    on a store whose card rows all point to a list, every list saved
    holds its cards at positions 0, 1, ..., N-1. *)
Theorem saveKanbanData_renumbers :
  forall db boardId lists db',
    foreign_keys_hold db ->
    saveKanbanData db boardId lists = Some db' ->
    forall l, In l lists ->
              positions_of db' (kl_id l) = range (List.length (kl_cards l))
              /\ dense (positions_of db' (kl_id l)) = true.
Proof.
  intros db boardId lists db' Hfk Hsave l Hin.
  unfold saveKanbanData in Hsave.
  apply insert_lists_positions in Hsave; simpl in Hsave.
  destruct Hsave as (Hp & Hfresh & Hnd).
  specialize (Hfresh l Hin).
  assert (E : positions_of db' (kl_id l) = range (List.length (kl_cards l))).
  { unfold positions_of; rewrite Hp, (@contribution_unique lists l Hnd Hin).
    rewrite kept_rows_of_other_lists; [reflexivity | exact Hfk | exact Hfresh]. }
  rewrite E; split; [reflexivity | apply dense_range].
Qed.

End StoreRenumbering.

(** ** The order of the rows a query returns *)

Section SortFacts.
Import SpecExt.
Context {A : Type} (key : A -> Z).

Lemma insert_by_perm x l : Permutation (JS.insert_by key x l) (x :: l).
Proof.
  induction l as [|y l IH]; simpl; [reflexivity|].
  destruct (key x <=? key y); [reflexivity|].
  rewrite IH; apply perm_swap.
Qed.

Lemma sort_by_perm l : Permutation (JS.sort_by key l) l.
Proof.
  induction l as [|x l IH]; simpl; [reflexivity|].
  unfold JS.sort_by in *; simpl.
  rewrite insert_by_perm; now constructor.
Qed.

Lemma sort_by_In x l : In x (JS.sort_by key l) <-> In x l.
Proof.
  split; apply Permutation_in;
    [apply sort_by_perm | apply Permutation_sym, sort_by_perm].
Qed.

Lemma insert_by_first x l :
  Forall (fun y => key x <= key y) l -> JS.insert_by key x l = x :: l.
Proof.
  destruct l as [|y l]; simpl; intro H; [reflexivity|].
  inversion H; subst.
  assert (E : (key x <=? key y) = true) by now apply Z.leb_le.
  now rewrite E.
Qed.

Lemma insert_by_ascending x l :
  ascending key l -> ascending key (JS.insert_by key x l).
Proof.
  unfold ascending; induction 1 as [|y l Hs IH Hy]; simpl.
  - repeat constructor.
  - destruct (key x <=? key y) eqn:E.
    + apply Z.leb_le in E.
      constructor; [constructor; assumption|].
      constructor; [exact E|].
      eapply Forall_impl; [|exact Hy]; simpl; intros; lia.
    + apply Z.leb_gt in E.
      constructor; [exact IH|].
      eapply Permutation_Forall; [apply Permutation_sym, insert_by_perm|].
      constructor; [lia | exact Hy].
Qed.

Lemma sort_by_ascending l : ascending key (JS.sort_by key l).
Proof.
  induction l as [|x l IH]; [constructor|].
  unfold JS.sort_by in *; simpl; now apply insert_by_ascending.
Qed.

(** Rows that are in order already come back as they are. *)
Lemma sort_by_fixed l : ascending key l -> JS.sort_by key l = l.
Proof.
  unfold ascending; induction 1 as [|x l Hs IH Hx]; [reflexivity|].
  unfold JS.sort_by in *; simpl; rewrite IH.
  now apply insert_by_first.
Qed.

Lemma filter_insert_by (p : A -> bool) x l :
  ascending key l ->
  filter p (JS.insert_by key x l)
  = if p x then JS.insert_by key x (filter p l) else filter p l.
Proof.
  unfold ascending; induction 1 as [|y l Hs IH Hy]; simpl.
  - destruct (p x); reflexivity.
  - destruct (key x <=? key y) eqn:E; simpl.
    + destruct (p x); [|reflexivity].
      symmetry; apply insert_by_first.
      apply Z.leb_le in E.
      assert (Hall : Forall (fun z => key x <= key z) (y :: l)).
      { constructor; [exact E|].
        eapply Forall_impl; [|exact Hy]; simpl; intros; lia. }
      exact (incl_Forall (incl_filter p (y :: l)) Hall).
    + rewrite IH; destruct (p y), (p x); simpl; try reflexivity.
      now rewrite E.
Qed.

(** Selecting rows after the sort is sorting the selected rows. *)
Lemma filter_sort_by (p : A -> bool) l :
  filter p (JS.sort_by key l) = JS.sort_by key (filter p l).
Proof.
  induction l as [|x l IH]; [reflexivity|].
  unfold JS.sort_by in *; simpl.
  rewrite filter_insert_by by apply sort_by_ascending.
  rewrite IH; destruct (p x); reflexivity.
Qed.

End SortFacts.

(** ** Queries and single-row writes of the store *)

Section StoreQueries.
Import DatabaseService DatabaseServiceExt SpecExt.

Lemma filter_all {B} (f : B -> bool) l :
  Forall (fun x => f x = true) l -> filter f l = l.
Proof.
  induction 1 as [|x l Hx _ IH]; simpl; [reflexivity|].
  now rewrite Hx, IH.
Qed.

Lemma filter_none {B} (f : B -> bool) l :
  Forall (fun x => f x = false) l -> filter f l = [].
Proof.
  induction 1 as [|x l Hx _ IH]; simpl; [reflexivity|].
  now rewrite Hx.
Qed.

Lemma getCardsByListId_In db listId c :
  In c (getCardsByListId db listId)
  <-> In c (cards_tbl db) /\ c_list_id c = listId.
Proof.
  unfold getCardsByListId; rewrite sort_by_In, filter_In, String.eqb_eq; tauto.
Qed.

(** X1: [getCardsByListId] returns every stored card of the list
    exactly once (a rearrangement of the rows with that [list_id]) and
    no other row, in nondecreasing order of position. *)
Theorem getCardsByListId_complete_ordered :
  forall db listId,
    Permutation (getCardsByListId db listId)
                (filter (fun c => String.eqb (c_list_id c) listId) (cards_tbl db))
    /\ ascending c_position (getCardsByListId db listId)
    /\ (forall c, In c (getCardsByListId db listId)
                  <-> In c (cards_tbl db) /\ c_list_id c = listId).
Proof.
  intros db listId; unfold getCardsByListId.
  split; [apply sort_by_perm|].
  split; [apply sort_by_ascending|].
  intro c; rewrite sort_by_In, filter_In, String.eqb_eq; tauto.
Qed.

Lemma joined_cards_of_list db boardId row :
  In row (lists_tbl db) -> l_board_id row = boardId ->
  filter (fun card => String.eqb (c_list_id card) (l_id row))
         (filter (fun c => existsb (fun l => String.eqb (c_list_id c) (l_id l)
                                             && String.eqb (l_board_id l) boardId)
                                   (lists_tbl db))
                 (cards_tbl db))
  = filter (fun card => String.eqb (c_list_id card) (l_id row)) (cards_tbl db).
Proof.
  intros Hin Hb.
  induction (cards_tbl db) as [|c cards IH]; simpl; [reflexivity|].
  destruct (String.eqb (c_list_id c) (l_id row)) eqn:E.
  - assert (Hex : existsb (fun l => String.eqb (c_list_id c) (l_id l)
                                    && String.eqb (l_board_id l) boardId)
                          (lists_tbl db) = true).
    { apply existsb_exists; exists row; split; [exact Hin|].
      rewrite E, Hb, String.eqb_refl; reflexivity. }
    rewrite Hex; simpl; rewrite E, IH; reflexivity.
  - destruct (existsb _ (lists_tbl db)); simpl; rewrite ?E; exact IH.
Qed.

Lemma board_rows_In db boardId row :
  In row (JS.sort_by l_position
            (filter (fun l => String.eqb (l_board_id l) boardId) (lists_tbl db)))
  <-> In row (lists_tbl db) /\ l_board_id row = boardId.
Proof.
  rewrite sort_by_In, filter_In, String.eqb_eq; tauto.
Qed.

Lemma getListsByBoard_rows db boardId :
  getListsByBoard db boardId
  = map (fun row =>
           {| kl_id := l_id row; kl_title := l_title row;
              kl_type := l_type row;
              kl_cards := map convertCardRowToKanbanCard
                              (getCardsByListId db (l_id row));
              kl_cardLimit := JS.number_or_null (l_card_limit row) |})
        (JS.sort_by l_position
           (filter (fun l => String.eqb (l_board_id l) boardId) (lists_tbl db))).
Proof.
  unfold getListsByBoard, getCardsByListId.
  apply map_ext_in; intros row Hrow.
  apply board_rows_In in Hrow; destruct Hrow as [Hin Hb].
  rewrite filter_sort_by, (@joined_cards_of_list db boardId row Hin Hb); reflexivity.
Qed.

(** X2: the board view is built from the lists of the board, in
    position order, and each of them holds exactly what
    [getCardsByListId] returns for it, converted for the front end; a
    card of a list of another board, or of no list, is in no list of
    the view. *)
Theorem getListsByBoard_lists_and_cards :
  forall db boardId,
    let rows :=
      JS.sort_by l_position
        (filter (fun l => String.eqb (l_board_id l) boardId) (lists_tbl db)) in
    getListsByBoard db boardId
    = map (fun row =>
             {| kl_id := l_id row; kl_title := l_title row;
                kl_type := l_type row;
                kl_cards := map convertCardRowToKanbanCard
                                (getCardsByListId db (l_id row));
                kl_cardLimit := JS.number_or_null (l_card_limit row) |})
          rows
    /\ ascending l_position rows
    /\ (forall row, In row rows
                    <-> In row (lists_tbl db) /\ l_board_id row = boardId).
Proof.
  intros db boardId rows; subst rows.
  split; [|split].
  - apply getListsByBoard_rows.
  - apply sort_by_ascending.
  - intro row; apply board_rows_In.
Qed.

(** X3: [getCardActions] returns the stored actions of the card, each
    once and no other, newest first. *)
Theorem getCardActions_newest_first :
  forall db cardId,
    Permutation (getCardActions db cardId)
                (filter (fun a => String.eqb (a_cardId a) cardId)
                        (card_actions_tbl db))
    /\ StronglySorted (fun a b => a_timestamp a >= a_timestamp b)
                      (getCardActions db cardId)
    /\ (forall a, In a (getCardActions db cardId) -> a_cardId a = cardId).
Proof.
  intros db cardId; unfold getCardActions.
  split; [|split].
  - apply sort_by_perm.
  - assert (H := sort_by_ascending (fun a => - a_timestamp a)
                   (filter (fun a => String.eqb (a_cardId a) cardId)
                           (card_actions_tbl db))).
    unfold ascending in H.
    induction H as [|a l Hs IH Ha]; constructor; [exact IH|].
    eapply Forall_impl; [|exact Ha]; simpl; intros; lia.
  - intros a H; apply sort_by_In, filter_In in H.
    now apply String.eqb_eq.
Qed.




Lemma find_filter_other {B} (f g : B -> bool) l :
  (forall x, f x = true -> g x = true) ->
  find f (filter g l) = find f l.
Proof.
  intro H; induction l as [|x l IH]; simpl; [reflexivity|].
  destruct (g x) eqn:G; simpl.
  - destruct (f x); [reflexivity | exact IH].
  - destruct (f x) eqn:F; [|exact IH].
    apply H in F; congruence.
Qed.

Lemma deleteCard_getCard_gone db id :
  getCard (fst (DatabaseService.deleteCard db id)) id = None.
Proof.
  unfold getCard; simpl.
  destruct (find _ (filter _ (cards_tbl db))) as [c|] eqn:E; [|reflexivity].
  apply find_some in E; destruct E as [Hin Hc].
  apply filter_In in Hin; destruct Hin as [_ Hn].
  rewrite Hc in Hn; discriminate.
Qed.

(** X5: after [deleteCard] no card is found under the id, every other
    card is found as before, and the call reports a change exactly
    when the id was stored.  The records of the ledger about a deleted
    card are deleted with it, those about other cards are kept. *)
Theorem deleteCard_then_getCard :
  forall db id,
    let r := DatabaseService.deleteCard db id in
    getCard (fst r) id = None
    /\ (forall other, other <> id -> getCard (fst r) other = getCard db other)
    /\ (snd r = true <-> exists c, getCard db id = Some c)
    /\ lists_tbl (fst r) = lists_tbl db
    /\ (snd r = true -> getCardActions (fst r) id = [])
    /\ (forall other, other <> id ->
                      getCardActions (fst r) other = getCardActions db other).
Proof.
  intros db id; simpl.
  split; [apply deleteCard_getCard_gone|].
  unfold getCard; simpl.
  split; [|split; [split|split; [reflexivity|split]]].
  - intros other Hne; apply find_filter_other.
    intros c Hc; apply String.eqb_eq in Hc.
    destruct (String.eqb_spec (c_id c) id); [congruence | reflexivity].
  - intro H; apply existsb_exists in H; destruct H as (c & Hin & Hc).
    destruct (find (fun c0 => String.eqb (c_id c0) id) (cards_tbl db)) eqn:E;
      [eauto|].
    exfalso; apply (find_none _ _ E) in Hin; congruence.
  - intros (c & H); apply find_some in H; destruct H as [Hin Hc].
    apply existsb_exists; eauto.
  - intro H; unfold getCardActions; simpl; rewrite H.
    rewrite filter_none; [reflexivity|].
    apply Forall_forall; intros a Ha; apply filter_In in Ha.
    destruct Ha as [_ Ha]; now apply negb_true_iff in Ha.
  - intros other Hne; unfold getCardActions; simpl.
    destruct (card_exists db id); [|reflexivity].
    f_equal.
    induction (card_actions_tbl db) as [|a l IH]; simpl; [reflexivity|].
    destruct (String.eqb_spec (a_cardId a) id) as [E|E]; simpl.
    + destruct (String.eqb_spec (a_cardId a) other); [congruence | exact IH].
    + now rewrite IH.
Qed.

End StoreQueries.

(** ** What is saved is what the next pull returns *)

Section SaveAndPull.
Import DatabaseService DatabaseServiceExt Spec SpecExt.

Lemma string_or_null_idem x :
  JS.string_or_null (JS.string_or_null x) = JS.string_or_null x.
Proof.
  destruct x as [s|]; simpl; [|reflexivity].
  destruct (String.eqb s "") eqn:E; simpl; [reflexivity | now rewrite E].
Qed.

Lemma number_or_null_idem x :
  JS.number_or_null (JS.number_or_null x) = JS.number_or_null x.
Proof.
  destruct x as [n|]; simpl; [|reflexivity].
  destruct (n =? 0) eqn:E; simpl; [reflexivity | now rewrite E].
Qed.

Lemma insert_cards_exact :
  forall cards db listId k db',
    insert_cards db listId cards k = Some db' ->
    lists_tbl db' = lists_tbl db
    /\ card_actions_tbl db' = card_actions_tbl db
    /\ cards_tbl db' = cards_tbl db ++ saved_cards listId cards k.
Proof.
  induction cards as [|card cards IH]; simpl; intros db listId k db' H.
  - inversion H; subst; now rewrite app_nil_r.
  - unfold createCard in H at 1; cbn [c_id c_list_id] in H.
    destruct (getCard db (kc_id card)); [discriminate|].
    destruct (list_exists db listId); cbn [negb] in H; [|discriminate].
    apply IH in H; simpl in H.
    destruct H as (Hl & Ha & Hc).
    repeat split; try assumption.
    rewrite Hc, <- app_assoc; reflexivity.
Qed.

Lemma find_app_prefix_none {B} (f : B -> bool) l1 l2 :
  find f (l1 ++ l2) = None -> find f l1 = None.
Proof.
  induction l1 as [|x l1 IH]; simpl; [reflexivity|].
  destruct (f x); [discriminate | exact IH].
Qed.

(** A card that could be inserted has the id of no row that was there. *)
Lemma insert_cards_fresh :
  forall cards db listId k db',
    insert_cards db listId cards k = Some db' ->
    forall card, In card cards -> getCard db (kc_id card) = None.
Proof.
  induction cards as [|card0 cards IH]; simpl; intros db listId k db' H card Hin;
    [contradiction|].
  unfold createCard in H at 1; cbn [c_id c_list_id] in H.
  destruct (getCard db (kc_id card0)) eqn:Hget; [discriminate|].
  destruct (list_exists db listId); cbn [negb] in H; [|discriminate].
  destruct Hin as [<-|Hin]; [exact Hget|].
  specialize (IH _ _ _ _ H card Hin).
  unfold getCard in *; simpl in IH.
  exact (find_app_prefix_none _ _ _ IH).
Qed.

Lemma insert_lists_exact :
  forall lists db boardId i db',
    insert_lists db boardId lists i = Some db' ->
    lists_tbl db' = lists_tbl db ++ saved_lists boardId lists i
    /\ cards_tbl db'
       = cards_tbl db
         ++ flat_map (fun l => saved_cards (kl_id l) (kl_cards l) 0) lists
    /\ card_actions_tbl db' = card_actions_tbl db.
Proof.
  induction lists as [|h lists IH]; simpl; intros db boardId i db' H.
  - inversion H; subst; now rewrite !app_nil_r.
  - unfold createList in H at 1; cbn [l_id l_board_id] in H.
    destruct (list_exists db (kl_id h)); [discriminate|].
    destruct (board_exists db boardId); cbn [negb] in H; [|discriminate].
    match type of H with
    | match insert_cards ?d _ _ _ with _ => _ end = _ =>
        destruct (insert_cards d (kl_id h) (kl_cards h) 0) as [db2|] eqn:Hins;
        [|discriminate]
    end.
    apply insert_cards_exact in Hins; simpl in Hins.
    destruct Hins as (Hl & Ha & Hc).
    apply IH in H; destruct H as (Hl' & Hc' & Ha').
    rewrite Hl', Hc', Ha', Hl, Hc, Ha, <- !app_assoc; repeat split.
Qed.

Lemma insert_cards_boards :
  forall cards db listId k db',
    insert_cards db listId cards k = Some db' -> boards_tbl db' = boards_tbl db.
Proof.
  induction cards as [|card cards IH]; simpl; intros db listId k db' H.
  - now inversion H.
  - unfold createCard in H at 1; cbn [c_id c_list_id] in H.
    destruct (getCard db (kc_id card)); [discriminate|].
    destruct (list_exists db listId); cbn [negb] in H; [|discriminate].
    now apply IH in H.
Qed.

(** Lists can be written for a board of the boards table only. *)
Lemma insert_lists_boards :
  forall lists db boardId i db',
    insert_lists db boardId lists i = Some db' ->
    boards_tbl db' = boards_tbl db
    /\ (lists <> [] -> stored_board db boardId).
Proof.
  induction lists as [|h lists IH]; simpl; intros db boardId i db' H.
  - inversion H; split; [reflexivity | intro E; now contradiction E].
  - unfold createList in H at 1; cbn [l_id l_board_id] in H.
    destruct (list_exists db (kl_id h)); [discriminate|].
    destruct (board_exists db boardId) eqn:Hb; cbn [negb] in H; [|discriminate].
    match type of H with
    | match insert_cards ?d _ _ _ with _ => _ end = _ =>
        destruct (insert_cards d (kl_id h) (kl_cards h) 0) as [db2|] eqn:Hins;
        [|discriminate]
    end.
    apply insert_cards_boards in Hins; simpl in Hins.
    apply IH in H; destruct H as [H _].
    split; [congruence|].
    intros _; unfold board_exists in Hb; apply existsb_exists in Hb.
    destruct Hb as (b & Hin & E); exists b; split; [exact Hin|].
    now apply String.eqb_eq.
Qed.

Lemma insert_lists_fresh :
  forall lists db boardId i db',
    insert_lists db boardId lists i = Some db' ->
    forall l card, In l lists -> In card (kl_cards l) ->
                   getCard db (kc_id card) = None.
Proof.
  induction lists as [|h lists IH]; simpl; intros db boardId i db' H l card Hl Hc;
    [contradiction|].
  unfold createList in H at 1; cbn [l_id l_board_id] in H.
  destruct (list_exists db (kl_id h)); [discriminate|].
  destruct (board_exists db boardId); cbn [negb] in H; [|discriminate].
  match type of H with
  | match insert_cards ?d _ _ _ with _ => _ end = _ =>
      destruct (insert_cards d (kl_id h) (kl_cards h) 0) as [db2|] eqn:Hins;
      [|discriminate]
  end.
  destruct Hl as [<-|Hl].
  - exact (insert_cards_fresh _ _ _ _ Hins card Hc).
  - specialize (IH _ _ _ _ H l card Hl Hc).
    destruct (insert_cards_exact _ _ _ _ Hins) as (_ & _ & E).
    unfold getCard in *; rewrite E in IH; simpl in IH.
    exact (find_app_prefix_none _ _ _ IH).
Qed.

Lemma saved_cards_ascending listId cards k :
  ascending c_position (saved_cards listId cards k)
  /\ Forall (fun r => k <= c_position r /\ c_list_id r = listId)
            (saved_cards listId cards k).
Proof.
  revert k; induction cards as [|card cards IH]; intro k; simpl.
  - split; constructor.
  - destruct (IH (k + 1)) as [Hs Hf]; split.
    + constructor; [exact Hs|].
      eapply Forall_impl; [|exact Hf]; simpl; intros; lia.
    + constructor; [simpl; split; [lia | reflexivity]|].
      eapply Forall_impl; [|exact Hf]; simpl; intros r [H1 H2]; split;
        [lia | exact H2].
Qed.

Lemma saved_lists_ascending boardId lists i :
  ascending l_position (saved_lists boardId lists i)
  /\ Forall (fun r => i <= l_position r /\ l_board_id r = boardId)
            (saved_lists boardId lists i).
Proof.
  revert i; induction lists as [|l lists IH]; intro i; simpl.
  - split; constructor.
  - destruct (IH (i + 1)) as [Hs Hf]; split.
    + constructor; [exact Hs|].
      eapply Forall_impl; [|exact Hf]; simpl; intros; lia.
    + constructor; [simpl; split; [lia | reflexivity]|].
      eapply Forall_impl; [|exact Hf]; simpl; intros r [H1 H2]; split;
        [lia | exact H2].
Qed.

Lemma saved_cards_of_list lists l :
  NoDup (map kl_id lists) -> In l lists ->
  filter (fun c => String.eqb (c_list_id c) (kl_id l))
         (flat_map (fun l0 => saved_cards (kl_id l0) (kl_cards l0) 0) lists)
  = saved_cards (kl_id l) (kl_cards l) 0.
Proof.
  induction lists as [|h lists IH]; simpl; intros Hnd Hin; [contradiction|].
  inversion Hnd as [|? ? Hh Hnd']; subst.
  rewrite filter_app.
  destruct Hin as [E|Hin].
  - subst h.
    rewrite filter_all.
    + rewrite filter_none; [apply app_nil_r|].
      apply Forall_forall; intros c Hc.
      apply in_flat_map in Hc; destruct Hc as (l0 & Hl0 & Hc).
      destruct (saved_cards_ascending (kl_id l0) (kl_cards l0) 0) as [_ Hf].
      rewrite Forall_forall in Hf; destruct (Hf c Hc) as [_ E].
      rewrite E; apply String.eqb_neq; intro E'.
      apply Hh; rewrite <- E'; now apply in_map.
    + destruct (saved_cards_ascending (kl_id l) (kl_cards l) 0) as [_ Hf].
      eapply Forall_impl; [|exact Hf]; simpl; intros r [_ E].
      now apply String.eqb_eq.
  - rewrite filter_none; [simpl; now apply IH|].
    destruct (saved_cards_ascending (kl_id h) (kl_cards h) 0) as [_ Hf].
    eapply Forall_impl; [|exact Hf]; simpl; intros r [_ E].
    rewrite E; apply String.eqb_neq; intro E'.
    apply Hh; rewrite E'; now apply in_map.
Qed.

(** The due date a saved card comes back with. *)
Lemma whole_seconds_stored dueDate :
  match JS.number_or_null (JS.number_or_null (due_date_seconds dueDate)) with
  | Some seconds => JS.Date_getTime (seconds * 1000)
  | None => None
  end
  = whole_seconds dueDate.
Proof.
  destruct dueDate as [ms|]; [|reflexivity].
  unfold due_date_seconds, whole_seconds, JS.Date_getTime, JS.floor_seconds.
  destruct (JS.valid_time ms) eqn:V; simpl; [|reflexivity].
  destruct (ms / 1000 =? 0) eqn:E; simpl; [reflexivity|].
  rewrite E.
  assert (V' : JS.valid_time (ms / 1000 * 1000) = true).
  { unfold JS.valid_time, JS.MAX_TIME in *.
    apply andb_true_iff in V; destruct V as [V1 V2].
    apply Z.leb_le in V1, V2.
    pose proof (Z.div_mod ms 1000 ltac:(lia)).
    pose proof (Z.mod_pos_bound ms 1000 ltac:(lia)).
    apply andb_true_iff; split; apply Z.leb_le; lia. }
  now rewrite V'.
Qed.

Lemma convert_saved_cards listId cards k :
  map convertCardRowToKanbanCard (saved_cards listId cards k)
  = map as_stored_card cards.
Proof.
  revert k; induction cards as [|card cards IH]; intro k; simpl; [reflexivity|].
  rewrite IH; f_equal.
  unfold convertCardRowToKanbanCard, saved_card, as_stored_card;
    cbn [c_id c_title c_description c_labels c_due_date c_attachments c_members].
  now rewrite string_or_null_idem, whole_seconds_stored.
Qed.

Lemma map_saved_lists {B} (F : ListRow -> B) (G : KanbanListData -> B)
      boardId lists :
  (forall l i, In l lists -> F (saved_list boardId i l) = G l) ->
  forall i, map F (saved_lists boardId lists i) = map G lists.
Proof.
  induction lists as [|l lists IH]; simpl; intros H i; [reflexivity|].
  rewrite H by auto; rewrite IH by auto; reflexivity.
Qed.

(** X6: a whole-board save and the pull that follows.  When
    [saveKanbanData] succeeds on a store whose card rows all point to
    a list, [getListsByBoard] returns the lists that were saved, in
    the order given, each with its cards in the order given, and of
    each card what the cards table holds: the id, the title, the
    labels, the attachments and the members as they were, a
    description unless it is empty, and the due date cut to whole
    seconds (none when it is no time value or lies in the first
    second of the epoch).  The assignees, the priority, the checklist,
    the comment count and the action history of a card do not come
    back, and a card limit of zero is absent.  The save adds no record
    to the ledger; and when every record of the ledger was about a
    stored card, no saved card has a record left after it, since the
    cards of the board were deleted and with them their records.  A
    save of one list or more succeeds only for a board that is a row
    of the boards table, which it leaves as it is. *)
Theorem saveKanbanData_then_getListsByBoard :
  forall db boardId lists db',
    foreign_keys_hold db ->
    saveKanbanData db boardId lists = Some db' ->
    getListsByBoard db' boardId = map as_stored_list lists
    /\ incl (card_actions_tbl db') (card_actions_tbl db)
    /\ (ledger_keys_hold db ->
        forall l card, In l lists -> In card (kl_cards l) ->
                       getCardActions db' (kc_id card) = [])
    /\ boards_tbl db' = boards_tbl db
    /\ (lists <> [] -> stored_board db boardId).
Proof.
  intros db boardId lists db' Hfk Hsave.
  unfold saveKanbanData in Hsave.
  destruct (insert_lists_exact _ _ _ _ Hsave) as (Hl & Hc & Ha).
  destruct (insert_lists_positions _ _ _ _ Hsave) as (_ & Hfresh & Hnd).
  assert (Hnew := insert_lists_fresh _ _ _ _ Hsave).
  destruct (insert_lists_boards _ _ _ _ Hsave) as (Hboards & Hboard_row).
  simpl in Hl, Hc, Ha, Hfresh, Hnew, Hboards.
  split; [|split; [|split; [|split; [exact Hboards | exact Hboard_row]]]].
  - rewrite (getListsByBoard_rows db' boardId).
    destruct (saved_lists_ascending boardId lists 0) as [Hasc Hrows].
    assert (Hboard :
              filter (fun l => String.eqb (l_board_id l) boardId) (lists_tbl db')
              = saved_lists boardId lists 0).
    { rewrite Hl, filter_app, filter_none, filter_all; [reflexivity| |].
      - eapply Forall_impl; [|exact Hrows]; simpl; intros r [_ Hb].
        now apply String.eqb_eq.
      - apply Forall_forall; intros r Hr; apply filter_In in Hr.
        destruct Hr as [_ Hr]; now apply negb_true_iff in Hr. }
    rewrite Hboard, (sort_by_fixed Hasc).
    apply map_saved_lists; intros l i Hin.
    unfold as_stored_list; simpl; rewrite number_or_null_idem; f_equal.
    unfold getCardsByListId; rewrite Hc, filter_app.
    assert (Hkept : forall cards,
               map c_position cards = [] -> cards = [])
      by (intros cards; apply map_eq_nil).
    rewrite (Hkept _ (@kept_rows_of_other_lists db boardId (kl_id l) Hfk
                        (Hfresh l Hin)));
      simpl.
    rewrite (@saved_cards_of_list lists l Hnd Hin).
    rewrite (sort_by_fixed (proj1 (saved_cards_ascending (kl_id l) (kl_cards l) 0))).
    apply convert_saved_cards.
  - rewrite Ha; apply incl_filter.
  - intros Hkeys l card Hin Hcard.
    unfold getCardActions; rewrite Ha.
    rewrite filter_none; [reflexivity|].
    apply Forall_forall; intros a Hin_a.
    apply filter_In in Hin_a; destruct Hin_a as [Hin_a Hkeep].
    apply String.eqb_neq; intro E.
    destruct (Hkeys a Hin_a) as (c & Hc_in & Hc_id).
    specialize (Hnew l card Hin Hcard).
    unfold getCard in Hnew; simpl in Hnew.
    destruct (existsb (fun l0 => String.eqb (l_id l0) (c_list_id c)
                                 && String.eqb (l_board_id l0) boardId)
                      (lists_tbl db)) eqn:Hboard.
    + apply negb_true_iff in Hkeep.
      assert (Hdel : existsb
                       (fun c0 =>
                          String.eqb (c_id c0) (a_cardId a)
                          && existsb
                               (fun l0 => String.eqb (l_id l0) (c_list_id c0)
                                          && String.eqb (l_board_id l0) boardId)
                               (lists_tbl db))
                       (cards_tbl db) = true).
      { apply existsb_exists; exists c; split; [exact Hc_in|].
        now rewrite Hc_id, String.eqb_refl, Hboard. }
      congruence.
    + assert (Hkept : In c (filter
                              (fun c0 =>
                                 negb (existsb
                                         (fun l0 =>
                                            String.eqb (l_id l0) (c_list_id c0)
                                            && String.eqb (l_board_id l0) boardId)
                                         (lists_tbl db)))
                              (cards_tbl db))).
      { apply filter_In; split; [exact Hc_in | now rewrite Hboard]. }
      apply (find_none _ _ Hnew) in Hkept.
      rewrite Hc_id, E, String.eqb_refl in Hkept; discriminate.
Qed.

End SaveAndPull.

(** ** The hook: what its calls leave behind *)

Section HookCalls.
Import DatabaseService DatabaseServiceExt CardActions BoardState Spec SpecExt.
Import ApiClient (Net, Ok, Err).

(** X7: [updateLists] always shows the new lists at once, and writes
    them to exactly one place: to the store when the save goes through
    (the fallback cache is then left alone), and otherwise to the
    fallback cache, with the store left as it was. *)
Theorem updateLists_store_or_cache :
  forall env net (newLists : list KanbanListData) (w : World),
    let w' := updateLists env net newLists w in
    lists (state w') = newLists
    /\ error (state w') = error (state w)
    /\ ((exists db',
            net ApiClient.SaveKanbanData = true
            /\ saveKanbanData (store w) DEFAULT_BOARD_ID newLists = Some db'
            /\ store w' = db'
            /\ trello_board_state w' = trello_board_state w)
        \/ ((net ApiClient.SaveKanbanData = false
             \/ saveKanbanData (store w) DEFAULT_BOARD_ID newLists = None)
            /\ store w' = store w
            /\ trello_board_state w' = Some newLists
            /\ lastUpdate (state w') = t_update env)).
Proof.
  intros env net newLists w; simpl.
  unfold updateLists, ApiClient.saveKanbanData.
  destruct (net ApiClient.SaveKanbanData) eqn:Hnet.
  - destruct (saveKanbanData (store w) DEFAULT_BOARD_ID newLists) as [db'|] eqn:Hs;
      simpl.
    + split; [|split].
      * unfold handleBoardUpdate; destruct (_ >? _); reflexivity.
      * unfold handleBoardUpdate; destruct (_ >? _); reflexivity.
      * left; exists db'; repeat split.
    + split; [reflexivity|]; split; [reflexivity|].
      right; repeat split; right; reflexivity.
  - simpl; split; [reflexivity|]; split; [reflexivity|].
    right; repeat split; left; reflexivity.
Qed.

(** X8: [updateCardPosition] never writes the fallback cache and never
    sets the error state, whatever fails: its [catch] block throws
    before the fallback can run.  When the update request itself fails
    the call rejects and nothing at all has changed. *)
Theorem updateCardPosition_no_fallback :
  forall env net (cardId newListId : string) (newPosition : Z) (w : World),
    let r := updateCardPosition env net cardId newListId newPosition w in
    trello_board_state (snd r) = trello_board_state w
    /\ error (state (snd r)) = error (state w)
    /\ (net ApiClient.UpdateCard = false -> r = (Rejected, w))
    /\ (fst r = Resolved ->
        net ApiClient.UpdateCard = true
        /\ net ApiClient.GetListsByBoard = true
        /\ lists (state (snd r)) = pulled net (store (snd r))).
Proof.
  intros env net cardId newListId newPosition w; simpl.
  unfold updateCardPosition, ApiClient.updateCard.
  destruct (net ApiClient.UpdateCard) eqn:Hu.
  - destruct (DatabaseService.updateCard (store w) cardId _) as [[db1 returned]|];
      [|simpl; repeat split; discriminate].
    match goal with
    | |- context [let '(db2, st1) := ?X in _] =>
        destruct X as [db2 st1] eqn:Hpair
    end.
    assert (Hst : error st1 = error (state w)).
    { destruct (find (KanbanBoard.has_card cardId) (lists (state w)));
        [|inversion Hpair; reflexivity].
      destruct (find (fun l => String.eqb (kl_id l) newListId) (lists (state w)));
        [|inversion Hpair; reflexivity].
      destruct (negb _); inversion Hpair; reflexivity. }
    unfold ApiClient.getListsByBoard, pulled.
    destruct (net ApiClient.GetListsByBoard); simpl;
      repeat split; try assumption; discriminate.
  - simpl; repeat split; discriminate.
Qed.

Lemma loadCardActions_ids net db lists :
  map (fun l => (kl_id l, map kc_id (kl_cards l))) (loadCardActions net db lists)
  = map (fun l => (kl_id l, map kc_id (kl_cards l))) lists.
Proof.
  unfold loadCardActions; rewrite map_map; apply map_ext; intro l; simpl.
  f_equal; rewrite map_map; apply map_ext; intro c.
  destruct (ApiClient.getCardActions net db (kc_id c)) as [actions|];
    [destruct (0 <? _)|]; reflexivity.
Qed.

Lemma card_ids_flat lists :
  card_ids lists = flat_map (fun l => map kc_id (kl_cards l)) lists.
Proof.
  unfold card_ids; induction lists as [|l lists IH]; simpl; [reflexivity|].
  now rewrite map_app, IH.
Qed.

Lemma loadCardActions_card_ids net db lists :
  card_ids (loadCardActions net db lists) = card_ids lists.
Proof.
  rewrite !card_ids_flat.
  assert (H := loadCardActions_ids net db lists).
  revert H; generalize (loadCardActions net db lists) as lists'.
  induction lists as [|l lists IH]; intros [|l' lists'] H; simpl in *;
    try discriminate; [reflexivity|].
  inversion H; f_equal; auto.
Qed.

Lemma pulled_shows_stored_card net db c row :
  In c (cards_tbl db) -> In row (lists_tbl db) ->
  l_id row = c_list_id c -> l_board_id row = DEFAULT_BOARD_ID ->
  exists l, In l (pulled net db)
            /\ kl_id l = c_list_id c
            /\ In (c_id c) (map kc_id (kl_cards l)).
Proof.
  intros Hc Hrow Hid Hb.
  assert (E := getListsByBoard_rows db DEFAULT_BOARD_ID).
  assert (Hrows := board_rows_In db DEFAULT_BOARD_ID).
  set (f := fun l : KanbanListData => (kl_id l, map kc_id (kl_cards l))).
  assert (Hin : In (c_list_id c,
                    map kc_id (map convertCardRowToKanbanCard
                                   (getCardsByListId db (l_id row))))
                   (map f (getListsByBoard db DEFAULT_BOARD_ID))).
  { rewrite E; apply in_map_iff; eexists; split; cycle 1.
    - eapply in_map; apply Hrows; split; [exact Hrow | exact Hb].
    - simpl; now rewrite Hid. }
  unfold f in Hin; rewrite <- (loadCardActions_ids net db) in Hin.
  apply in_map_iff in Hin; destruct Hin as (l & El & Hl).
  inversion El as [[E1 E2]].
  exists l; split; [exact Hl|]; split; [reflexivity|].
  rewrite E2, map_map; apply in_map_iff; exists c; split; [reflexivity|].
  apply getCardsByListId_In; auto.
Qed.

Lemma pulled_card_is_stored net db id :
  In id (card_ids (pulled net db)) ->
  exists c l,
    In c (cards_tbl db) /\ c_id c = id
    /\ In l (lists_tbl db) /\ l_id l = c_list_id c
    /\ l_board_id l = DEFAULT_BOARD_ID.
Proof.
  intro H; unfold pulled in H.
  rewrite loadCardActions_card_ids, card_ids_flat in H.
  assert (Hrows := board_rows_In db DEFAULT_BOARD_ID).
  rewrite (getListsByBoard_rows db DEFAULT_BOARD_ID) in H.
  apply in_flat_map in H; destruct H as (l & Hl & Hid).
  apply in_map_iff in Hl; destruct Hl as (row & <- & Hrow); simpl in Hid.
  rewrite map_map in Hid; apply in_map_iff in Hid; destruct Hid as (c & <- & Hc).
  apply Hrows in Hrow; destruct Hrow as [Hrow Hb].
  apply getCardsByListId_In in Hc; destruct Hc as [Hc Hlist].
  exists c, row; repeat split; auto.
Qed.

(** X9: the pulled board shows exactly the stored cards whose list is
    a list of the board: a card id is among the cards of the pull if
    and only if a stored row has that id and points to a list row of
    the board.  A pull never shows a card the store does not hold. *)
Theorem pulled_cards_are_stored :
  forall net db id,
    In id (card_ids (pulled net db))
    <-> exists c l,
        In c (cards_tbl db) /\ c_id c = id
        /\ In l (lists_tbl db) /\ l_id l = c_list_id c
        /\ l_board_id l = DEFAULT_BOARD_ID.
Proof.
  intros net db id; split.
  - apply pulled_card_is_stored.
  - intros (c & row & Hc & <- & Hrow & Hid & Hb).
    destruct (pulled_shows_stored_card net db c row Hc Hrow Hid Hb)
      as (l & Hl & _ & Hin).
    rewrite card_ids_flat; apply in_flat_map; exists l; auto.
Qed.

End HookCalls.

(** ** The periodic pull *)

Section PeriodicPull.
Import DatabaseService DatabaseServiceExt CardActions BoardState Spec SpecExt.
Import ApiClient (Net, Ok, Err).

(** A card row as the pull delivers it, when the request for its
    records goes through. *)
Lemma pulled_card_shown (net : Net) db row :
  net (ApiClient.GetCardActions (c_id row)) = true ->
  match ApiClient.getCardActions net db
          (kc_id (convertCardRowToKanbanCard row)) with
  | Ok actions =>
      if 0 <? Z.of_nat (List.length actions)
      then set_actions (convertCardRowToKanbanCard row) actions
      else set_actions (convertCardRowToKanbanCard row)
                       (kc_actions (convertCardRowToKanbanCard row))
  | Err _ => set_actions (convertCardRowToKanbanCard row)
                         (kc_actions (convertCardRowToKanbanCard row))
  end
  = shown_card db row.
Proof.
  intro Hnet; unfold ApiClient.getCardActions; cbn [kc_id convertCardRowToKanbanCard].
  rewrite Hnet.
  assert (Hfields : forall actions,
             set_actions (convertCardRowToKanbanCard row) actions
             = {| kc_id := c_id row;
                  kc_title := c_title row;
                  kc_description := kc_description (shown_card db row);
                  kc_labels := kc_labels (shown_card db row);
                  kc_assignees := None;
                  kc_dueDate := kc_dueDate (shown_card db row);
                  kc_priority := None;
                  kc_checklist := None;
                  kc_attachments := kc_attachments (shown_card db row);
                  kc_members := kc_members (shown_card db row);
                  kc_comments := None;
                  kc_actions := actions |}).
  { intro actions; unfold set_actions, convertCardRowToKanbanCard, shown_card; simpl.
    f_equal.
    destruct (c_due_date row) as [seconds|]; simpl; [|reflexivity].
    destruct (seconds =? 0); simpl; [reflexivity|].
    unfold JS.Date_getTime; destruct (JS.valid_time (seconds * 1000));
      reflexivity. }
  assert (Hledger : getCardActions db (c_id row) = ledger_of db (c_id row))
    by reflexivity.
  rewrite Hledger.
  destruct (ledger_of db (c_id row)) as [|a actions] eqn:E.
  - cbn [List.length Z.of_nat Z.ltb Z.compare]; rewrite Hfields.
    unfold shown_card; rewrite E; reflexivity.
  - replace (0 <? Z.of_nat (List.length (a :: actions))) with true
      by (symmetry; apply Z.ltb_lt; simpl; lia).
    rewrite Hfields; unfold shown_card; rewrite E; reflexivity.
Qed.

(** A pull whose requests all go through delivers the content of the
    store. *)
Lemma pulled_store_content (net : Net) db :
  (forall cardId, net (ApiClient.GetCardActions cardId) = true) ->
  pulled net db = store_content db DEFAULT_BOARD_ID.
Proof.
  intro Hnet; unfold pulled, loadCardActions, store_content.
  rewrite (getListsByBoard_rows db DEFAULT_BOARD_ID), map_map.
  apply map_ext; intro l; unfold KanbanBoard.set_cards; simpl.
  f_equal.
  unfold getCardsByListId; rewrite map_map.
  apply map_ext; intro row.
  apply pulled_card_shown, Hnet.
Qed.

(** C8: whatever the store holds (changed by anyone, since the
    session last looked) and whatever the session's snapshot is, one
    periodic pull whose requests reach the store leaves the session
    with the content of the store as its snapshot: the lists of the
    board by position, each with the cards that point to it by
    position, each card with the values of its row and with its
    records of the ledger, newest first.  The pulled lists replace the
    local ones as a whole when the two differ, and when they do not
    the snapshot already is the content of the store and nothing is
    set.  The pull writes nothing to the store or the fallback cache,
    and a further pull of the same store changes nothing. *)
Theorem periodicSync_converges :
  forall env (net : Net) (w : World),
    net ApiClient.GetListsByBoard = true ->
    (forall cardId, net (ApiClient.GetCardActions cardId) = true) ->
    lists (state (periodicSync env net w))
    = store_content (store w) DEFAULT_BOARD_ID
    /\ store (periodicSync env net w) = store w
    /\ trello_board_state (periodicSync env net w) = trello_board_state w
    /\ (lists (state w) <> store_content (store w) DEFAULT_BOARD_ID ->
        state (periodicSync env net w)
        = setLastUpdate (t_update env)
            (setLists (store_content (store w) DEFAULT_BOARD_ID) (state w)))
    /\ (lists (state w) = store_content (store w) DEFAULT_BOARD_ID ->
        periodicSync env net w = w)
    /\ forall env', periodicSync env' net (periodicSync env net w)
                    = periodicSync env net w.
Proof.
  intros env net w Hnet Hactions.
  set (content := store_content (store w) DEFAULT_BOARD_ID).
  assert (Hstep : forall e v,
             store v = store w ->
             periodicSync e net v
             = if Board_eq_dec content (lists (state v))
               then v
               else {| store := store v;
                       trello_board_state := trello_board_state v;
                       state := setLastUpdate (t_update e)
                                  (setLists content (state v)) |}).
  { intros e v Hv; unfold periodicSync, ApiClient.getListsByBoard.
    rewrite Hnet, Hv.
    change (loadCardActions net (store w)
              (DatabaseService.getListsByBoard (store w) DEFAULT_BOARD_ID))
      with (pulled net (store w)).
    rewrite (pulled_store_content net (store w) Hactions); reflexivity. }
  rewrite (Hstep env w eq_refl).
  destruct (Board_eq_dec content (lists (state w))) as [E|E].
  - repeat split; auto.
    + intro H; now symmetry in E.
    + intro env'; rewrite (Hstep env' w eq_refl).
      destruct (Board_eq_dec _ _); [reflexivity | contradiction].
  - simpl; repeat split.
    + intro H; now symmetry in H.
    + intro env'; rewrite Hstep by reflexivity; simpl.
      destruct (Board_eq_dec _ _); [reflexivity | contradiction].
Qed.

Lemma periodicSync_converges_witness :
  Examples.net_up ApiClient.GetListsByBoard = true
  /\ lists (state (periodicSync Examples.env0 Examples.net_up
                     {| store := Examples.db1;
                        trello_board_state := None;
                        state := Examples.state0 |}))
     = store_content Examples.db1 DEFAULT_BOARD_ID
  /\ map (fun card => (kc_id card, map a_id (kc_actions card)))
         (flat_map kl_cards
            (lists (state (periodicSync Examples.env0 Examples.net_up
                             {| store := Examples.db1;
                                trello_board_state := None;
                                state := Examples.state0 |}))))
     = [ ("c1", ["a2"; "a1"]); ("c2", []); ("c3", []);
         ("c4", ["a3"]); ("c5", []); ("c6", []) ].
Proof.
  split; [reflexivity|].
  assert (H := proj1 (@periodicSync_converges Examples.env0 Examples.net_up
                        {| store := Examples.db1;
                           trello_board_state := None;
                           state := Examples.state0 |}
                        eq_refl (fun _ => eq_refl))).
  split; [exact H|].
  rewrite H; reflexivity.
Defined.

End PeriodicPull.

(** ** Creating and deleting a card through the hook *)

Section CardLifecycle.
Import DatabaseService DatabaseServiceExt CardActions BoardState Spec SpecExt.
Import ApiClient (Net, Ok, Err).

Lemma createCardAction_lists net db a :
  lists_tbl (snd (ApiClient.createCardAction net db a)) = lists_tbl db.
Proof.
  unfold ApiClient.createCardAction, DatabaseService.createCardAction.
  destruct (net ApiClient.CreateCardAction); [|reflexivity].
  destruct (existsb _ _); [reflexivity|].
  destruct (negb _); reflexivity.
Qed.

(** X10: a card created by an authenticated viewer shows up in its
    list.  When the create request and the pull go through, the
    generated id is free and the list is a list of the board in the
    store, [addCard] returns the generated id, and the snapshot it
    leaves has the card under that id in the list asked for; no error
    is set. *)
Theorem addCard_shows_card :
  forall env net (listId : string) (cardData : KanbanCardData) (w : World)
         user row,
    let cardId := String.append "card_" (card_stamp env) in
    let r := addCard env net listId cardData w in
    net ApiClient.CreateCard = true ->
    net ApiClient.GetListsByBoard = true ->
    currentUser env = Some user ->
    getCard (store w) cardId = None ->
    In row (lists_tbl (store w)) ->
    l_id row = listId ->
    l_board_id row = DEFAULT_BOARD_ID ->
    fst r = ReturnedId cardId
    /\ (exists l, In l (lists (state (snd r)))
                  /\ kl_id l = listId
                  /\ In cardId (map kc_id (kl_cards l)))
    /\ lastUpdate (state (snd r)) = t_update env
    /\ error (state (snd r)) = error (state w)
    /\ trello_board_state (snd r) = trello_board_state w.
Proof.
  intros env net listId cardData w user row cardId r
         Hc Hg Hu Hfresh Hrow Hid Hb; subst r.
  assert (Hlist : list_exists (store w) listId = true)
    by (apply list_exists_stored; exists row; split; assumption).
  unfold addCard, ApiClient.createCard, DatabaseService.createCard.
  rewrite Hc; cbn [c_id c_list_id]; fold cardId; rewrite Hfresh, Hlist.
  cbn [negb].
  unfold logCardCreated, createAction; rewrite Hu.
  unfold ApiClient.getListsByBoard; rewrite Hg; simpl.
  split; [reflexivity|]; split; [|repeat split].
  match goal with
  | |- context [cards_tbl (store w) ++ [?r0]] => set (row0 := r0) in *
  end.
  match goal with
  | |- context [ApiClient.createCardAction net ?d ?a] =>
      set (db2 := snd (ApiClient.createCardAction net d a))
  end.
  assert (Hcards : In row0 (cards_tbl db2)).
  { unfold db2; rewrite createCardAction_cards; simpl.
    apply in_or_app; right; left; reflexivity. }
  assert (Hlists : In row (lists_tbl db2)).
  { unfold db2; rewrite createCardAction_lists; exact Hrow. }
  destruct (pulled_shows_stored_card net db2 row0 row Hcards Hlists Hid Hb)
    as (l & Hl & El & Hin).
  exists l; repeat split; assumption.
Qed.

(** X11: with no resolvable actor [addCard] still creates the card in
    the store, when the store takes it (the request goes through, the
    generated id is free and the list is a row of the lists table),
    but it returns [undefined] and leaves the snapshot, the error
    state and the fallback cache as they were: the new card is stored
    and not shown, and the ledger gets no record. *)
Theorem addCard_without_actor :
  forall env net (listId : string) (cardData : KanbanCardData) (w : World),
    let cardId := String.append "card_" (card_stamp env) in
    let r := addCard env net listId cardData w in
    net ApiClient.CreateCard = true ->
    currentUser env = None ->
    getCard (store w) cardId = None ->
    stored_list (store w) listId ->
    fst r = ReturnedUndefined
    /\ state (snd r) = state w
    /\ trello_board_state (snd r) = trello_board_state w
    /\ (exists stored, getCard (store (snd r)) cardId = Some stored
                       /\ c_list_id stored = listId)
    /\ card_actions_tbl (store (snd r)) = card_actions_tbl (store w).
Proof.
  intros env net listId cardData w cardId r Hc Hu Hfresh Hlist; subst r.
  apply list_exists_stored in Hlist.
  unfold addCard, ApiClient.createCard, DatabaseService.createCard.
  rewrite Hc; cbn [c_id c_list_id]; fold cardId; rewrite Hfresh, Hlist.
  cbn [negb].
  unfold logCardCreated, createAction; rewrite Hu; simpl.
  repeat split.
  match goal with
  | |- context [cards_tbl (store w) ++ [?r0]] => set (row0 := r0)
  end.
  exists row0; split; [|reflexivity].
  apply (getCard_app_fresh (cards_tbl (store w)) row0); exact Hfresh.
Qed.

Lemma filter_not_found {B} (f : B -> bool) l :
  find f l = None -> filter (fun x => negb (f x)) l = l.
Proof.
  induction l as [|x l IH]; simpl; [reflexivity|].
  destruct (f x); simpl; [discriminate | intro H; now rewrite IH].
Qed.

(** X12: [deleteCard] of the hook, when the delete request reaches the
    server.  If no card has the id, the cards table is left as it is
    and the error state is set to "API request failed".  If the card
    is stored and the pull goes through, the card is gone from the
    store and is not among the cards of the snapshot. *)
Theorem deleteCard_removes_card :
  forall env net (cardId : string) (w : World),
    let w' := BoardState.deleteCard env net cardId w in
    net ApiClient.DeleteCard = true ->
    (getCard (store w) cardId = None ->
     cards_tbl (store w') = cards_tbl (store w)
     /\ error (state w') = Some "API request failed")
    /\ (forall c, getCard (store w) cardId = Some c ->
                  net ApiClient.GetListsByBoard = true ->
                  getCard (store w') cardId = None
                  /\ ~ In cardId (card_ids (lists (state w')))
                  /\ error (state w') = error (state w))
    /\ trello_board_state w' = trello_board_state w.
Proof.
  intros env net cardId w w' Hd; subst w'.
  assert (Hgone := deleteCard_getCard_gone (store w) cardId).
  unfold BoardState.deleteCard, ApiClient.deleteCard; rewrite Hd.
  unfold DatabaseService.deleteCard in *.
  split; [|split].
  - intro Hnone.
    assert (Hex : card_exists (store w) cardId = false).
    { destruct (card_exists (store w) cardId) eqn:E; [|reflexivity].
      apply card_exists_getCard in E; destruct E as (c & E); congruence. }
    rewrite Hex; simpl; split; [|reflexivity].
    apply filter_not_found; exact Hnone.
  - intros c Hsome Hg.
    assert (Hex : card_exists (store w) cardId = true)
      by (apply card_exists_getCard; eauto).
    rewrite Hex in *.
    unfold ApiClient.getListsByBoard; rewrite Hg; simpl.
    simpl in Hgone.
    split; [exact Hgone|]; split; [|reflexivity].
    intro Hin.
    apply (pulled_card_is_stored net) in Hin.
    destruct Hin as (c' & _ & Hc' & Hid & _).
    unfold getCard in Hgone; apply (find_none _ _ Hgone) in Hc'.
    rewrite Hid, String.eqb_refl in Hc'; discriminate.
  - destruct (card_exists (store w) cardId); simpl; [|reflexivity].
    destruct (ApiClient.getListsByBoard net _ DEFAULT_BOARD_ID); reflexivity.
Qed.

(** X13: the guard of the [board-updated] listener.  The [lastUpdate]
    of a tab never goes back when an event is handled, and once an
    event was applied, an event that is not newer changes nothing
    (events arriving out of order do not bring an older board back). *)
Theorem handleBoardUpdate_monotone :
  forall (st : State) (e1 e2 : BoardUpdated),
    let st1 := handleBoardUpdate (lastUpdate st) e1 st in
    lastUpdate st <= lastUpdate st1
    /\ (ev_timestamp e1 > lastUpdate st ->
        lists st1 = ev_lists e1 /\ lastUpdate st1 = ev_timestamp e1)
    /\ (ev_timestamp e2 <= lastUpdate st1 ->
        handleBoardUpdate (lastUpdate st1) e2 st1 = st1).
Proof.
  intros st e1 e2; simpl; unfold handleBoardUpdate.
  destruct (ev_timestamp e1 >? lastUpdate st) eqn:E1; simpl.
  - apply Z.gtb_lt in E1; split; [lia|]; split; [auto|].
    intro H; destruct (ev_timestamp e2 >? ev_timestamp e1) eqn:E2;
      [apply Z.gtb_lt in E2; lia | reflexivity].
  - split; [lia|]; split.
    + intro H; apply Z.gt_lt, Z.gtb_lt in H; congruence.
    + intro H; destruct (ev_timestamp e2 >? lastUpdate st) eqn:E2;
        [apply Z.gtb_lt in E2; lia | reflexivity].
Qed.

End CardLifecycle.

(** ** The drag handlers beyond the moderator gate *)

Section DragHandlers.
Import KanbanBoard Spec.

Lemma findIndex_bounds {B} (p : B -> bool) l :
  -1 <= JS.findIndex p l < Z.of_nat (List.length l).
Proof.
  induction l as [|x l IH]; simpl; [lia|].
  destruct (p x); [lia|].
  destruct (JS.findIndex p l <? 0) eqn:E; [lia|].
  apply Z.ltb_ge in E; lia.
Qed.

Lemma findIndex_found {B} (p : B -> bool) l :
  existsb p l = true -> 0 <= JS.findIndex p l.
Proof.
  induction l as [|x l IH]; simpl; [discriminate|].
  destruct (p x); simpl; [lia|].
  intro H; specialize (IH H).
  destruct (JS.findIndex p l <? 0) eqn:E; [apply Z.ltb_lt in E; lia | lia].
Qed.

Lemma findIndex_not_found {B} (p : B -> bool) l :
  existsb p l = false -> JS.findIndex p l = -1.
Proof.
  induction l as [|x l IH]; simpl; [reflexivity|].
  destruct (p x); simpl; [discriminate|].
  intro H; rewrite (IH H); reflexivity.
Qed.

Lemma findIndex_nth {B} (p : B -> bool) l :
  0 <= JS.findIndex p l ->
  exists x, nth_error l (Z.to_nat (JS.findIndex p l)) = Some x /\ p x = true.
Proof.
  induction l as [|x l IH]; simpl; [lia|].
  destruct (p x) eqn:Hp; [intros _; exists x; auto|].
  destruct (JS.findIndex p l <? 0) eqn:E; [lia|].
  apply Z.ltb_ge in E; intros _.
  destruct (IH E) as (y & Hy & Hpy); exists y; split; [|exact Hpy].
  replace (Z.to_nat (JS.findIndex p l + 1)) with (S (Z.to_nat (JS.findIndex p l)))
    by lia.
  exact Hy.
Qed.

Lemma nth_error_split_at {B} (l : list B) n x :
  nth_error l n = Some x -> l = firstn n l ++ x :: skipn (S n) l.
Proof.
  revert l; induction n as [|n IH]; intros [|y l] H; simpl in *;
    try discriminate.
  - now inversion H.
  - f_equal; now apply IH.
Qed.

(** Moving an item between two valid indices rearranges the array and
    puts the item at the index asked for. *)
Lemma arrayMove_in_range {B} (l : list B) (from to : Z) :
  0 <= from < Z.of_nat (List.length l) ->
  0 <= to < Z.of_nat (List.length l) ->
  Permutation (arrayMove l from to) l
  /\ nth_error (arrayMove l from to) (Z.to_nat to)
     = nth_error l (Z.to_nat from).
Proof.
  intros Hf Ht; unfold arrayMove, JS.splice_remove, JS.splice_insert.
  assert (E1 : (from <? 0) = false) by (apply Z.ltb_ge; lia).
  assert (E2 : (to <? 0) = false) by (apply Z.ltb_ge; lia).
  rewrite E1, E2.
  replace (Z.min from (Z.of_nat (List.length l))) with from by lia.
  destruct (nth_error l (Z.to_nat from)) as [item|] eqn:Hn.
  2:{ apply nth_error_None in Hn; lia. }
  assert (Hlen : S (List.length
                      (firstn (Z.to_nat from) l ++ skipn (S (Z.to_nat from)) l))
                 = List.length l).
  { rewrite (nth_error_split_at _ _ Hn) at 3.
    rewrite !length_app; cbn [List.length].
    now rewrite Nat.add_succ_r. }
  assert (Hperm : Permutation
                    (item :: firstn (Z.to_nat from) l ++ skipn (S (Z.to_nat from)) l)
                    l).
  { rewrite (nth_error_split_at _ _ Hn) at 3.
    apply Permutation_middle. }
  revert Hlen Hperm.
  generalize (firstn (Z.to_nat from) l ++ skipn (S (Z.to_nat from)) l) as rest.
  intros rest Hlen Hperm.
  rewrite E2.
  assert (Hto : to <= Z.of_nat (List.length rest)) by lia.
  rewrite (Z.min_l _ _ Hto).
  split.
  - rewrite <- Hperm, <- Permutation_middle.
    constructor; now rewrite firstn_skipn.
  - rewrite nth_error_app2; rewrite length_firstn; [|lia].
    replace (Z.to_nat to - Nat.min (Z.to_nat to) (List.length rest))%nat
      with 0%nat by lia.
    reflexivity.
Qed.

(** X14: a viewer of role default cannot change anything by dragging:
    for every board and every pair of ids, neither handler invokes a
    callback, with or without the tracking callback. *)
Theorem default_role_cannot_drag :
  forall (lists : list KanbanListData) tracking (activeId : string)
         (over : option string),
    handleDragEnd lists role_default tracking activeId over = None
    /\ handleDragOver lists role_default activeId over = None.
Proof.
  intros lists tracking activeId [overId|]; [|split; reflexivity].
  unfold handleDragEnd, handleDragOver; simpl.
  split.
  - destruct (JS.startsWith activeId "list-" && JS.startsWith overId "list-");
      reflexivity.
  - destruct (String.eqb activeId overId); reflexivity.
Qed.

(** X15: reordering the lists.  When an admin or a moderator drags the
    list [a] onto another list [b] of the board (both ids carry the
    list prefix), the handler hands [onListsUpdate] a rearrangement of
    the lists, none lost and none added, in which the dragged list is
    at the index the target list had. *)
Theorem list_drag_reorders_lists :
  forall (lists : list KanbanListData) (userRole : Role) tracking
         (activeId overId : string),
    let activeListId := JS.replace_first "list-" activeId in
    let overListId := JS.replace_first "list-" overId in
    let activeIndex :=
      JS.findIndex (fun l => String.eqb (kl_id l) activeListId) lists in
    let overIndex :=
      JS.findIndex (fun l => String.eqb (kl_id l) overListId) lists in
    can_drag userRole = true ->
    JS.startsWith activeId "list-" = true ->
    JS.startsWith overId "list-" = true ->
    activeListId <> overListId ->
    existsb (fun l => String.eqb (kl_id l) activeListId) lists = true ->
    existsb (fun l => String.eqb (kl_id l) overListId) lists = true ->
    exists newLists,
      handleDragEnd lists userRole tracking activeId (Some overId)
      = Some (onListsUpdate newLists)
      /\ Permutation newLists lists
      /\ nth_error newLists (Z.to_nat overIndex)
         = nth_error lists (Z.to_nat activeIndex)
      /\ (exists l, nth_error lists (Z.to_nat activeIndex) = Some l
                    /\ kl_id l = activeListId).
Proof.
  intros lists userRole tracking activeId overId activeListId overListId
         activeIndex overIndex Hrole Ha Ho Hne Hfa Hfo.
  assert (Hai := findIndex_found _ _ Hfa); fold activeIndex in Hai.
  assert (Hoi := findIndex_found _ _ Hfo); fold overIndex in Hoi.
  destruct (findIndex_nth _ _ Hai) as (la & Hla & Ela).
  destruct (findIndex_nth _ _ Hoi) as (lo & Hlo & Elo).
  fold activeIndex in Hla; fold overIndex in Hlo.
  apply String.eqb_eq in Ela, Elo.
  assert (Hidx : activeIndex <> overIndex).
  { intro E; rewrite E, Hlo in Hla; inversion Hla; subst; congruence. }
  assert (Hba := findIndex_bounds (fun l => String.eqb (kl_id l) activeListId) lists).
  assert (Hbo := findIndex_bounds (fun l => String.eqb (kl_id l) overListId) lists).
  fold activeIndex in Hba; fold overIndex in Hbo.
  exists (arrayMove lists activeIndex overIndex).
  destruct (@arrayMove_in_range _ lists activeIndex overIndex) as [Hp Hn];
    [split; [exact Hai | apply Hba] | split; [exact Hoi | apply Hbo] |].
  split; [|split; [exact Hp|split; [exact Hn|exists la; auto]]].
  unfold handleDragEnd; rewrite Ha, Ho, Hrole; simpl.
  fold activeListId overListId.
  apply String.eqb_neq in Hne; rewrite Hne; simpl.
  fold activeIndex overIndex.
  apply Z.eqb_neq in Hidx; rewrite Hidx; reflexivity.
Qed.

End DragHandlers.

(** ** The position a drop asks for *)

Section DropPosition.
Import KanbanBoard Spec.

(** X16: a card dropped on another list.  When the role may drag, the
    drag is a card drag between two different lists of the board and
    the restriction for moderators does not apply, [handleDragEnd] asks the
    engine to put the card into the list it was dropped on, at a
    position between 0 and the number of cards of that list: the index
    of the card it was dropped on, or the end of the list when it was
    not dropped on one of its cards. *)
Theorem cross_list_drop_position :
  forall (lists : list KanbanListData) (userRole : Role)
         (activeId overId : string) activeList overList,
    can_drag userRole = true ->
    card_drag activeId overId ->
    find_activeList lists activeId = Some activeList ->
    find_overList lists overId = Some overList ->
    kl_id activeList <> kl_id overList ->
    is_mod userRole && ListType_eqb (kl_type overList) open = false ->
    exists position,
      handleDragEnd lists userRole true activeId (Some overId)
      = Some (onCardPositionUpdate activeId (kl_id overList) position)
      /\ 0 <= position <= Z.of_nat (List.length (kl_cards overList))
      /\ (has_card overId overList = true ->
          exists card, nth_error (kl_cards overList) (Z.to_nat position) = Some card
                       /\ kc_id card = overId)
      /\ (has_card overId overList = false ->
          position = Z.of_nat (List.length (kl_cards overList))).
Proof.
  intros lists userRole activeId overId activeList overList
         Hrole Hcard Hact Hover Hne Hgate.
  unfold handleDragEnd, card_drag in *.
  rewrite Hcard, Hrole, Hact, Hover, Hgate; simpl.
  apply String.eqb_neq in Hne; rewrite Hne.
  set (overIndex := JS.findIndex (fun c => String.eqb (kc_id c) overId)
                                 (kl_cards overList)).
  assert (Hb := findIndex_bounds (fun c => String.eqb (kc_id c) overId)
                                 (kl_cards overList)).
  fold overIndex in Hb.
  eexists; split; [reflexivity|].
  unfold has_card.
  destruct (overIndex <? 0) eqn:E.
  - apply Z.ltb_lt in E; split; [lia|]; split; [|reflexivity].
    intro H; apply findIndex_found in H; fold overIndex in H; lia.
  - apply Z.ltb_ge in E; split; [lia|]; split.
    + intros _; destruct (findIndex_nth _ _ E) as (card & Hn & Hc).
      exists card; split; [exact Hn | now apply String.eqb_eq].
    + intro H; apply findIndex_not_found in H; fold overIndex in H; lia.
Qed.

Lemma cross_list_drop_position_witness :
  (can_drag role_mod = true
   /\ card_drag "c1" "c5"
   /\ find_activeList Examples.board0 "c1" = Some Examples.todo_list
   /\ find_overList Examples.board0 "c5" = Some Examples.staff_list)
  /\ exists position,
      handleDragEnd Examples.board0 role_mod true "c1" (Some "c5")
      = Some (onCardPositionUpdate "c1" "staff" position)
      /\ 0 <= position <= 2.
Proof.
  split; [repeat split|].
  destruct (@cross_list_drop_position Examples.board0 role_mod "c1" "c5"
              Examples.todo_list Examples.staff_list)
    as (position & H1 & H2 & _); try reflexivity.
  - discriminate.
  - exists position; split; [exact H1 | exact H2].
Defined.

(** X17: a card dropped on its own list but on none of its cards (on
    the list area, whose id is the id of the list).  The handler still
    takes it for a reorder and asks the engine for position -1. *)
Theorem own_list_area_drop_position :
  forall (lists : list KanbanListData) (userRole : Role)
         (activeId overId : string) activeList overList,
    can_drag userRole = true ->
    card_drag activeId overId ->
    find_activeList lists activeId = Some activeList ->
    find_overList lists overId = Some overList ->
    kl_id activeList = kl_id overList ->
    is_mod userRole && ListType_eqb (kl_type overList) open = false ->
    has_card overId activeList = false ->
    handleDragEnd lists userRole true activeId (Some overId)
    = Some (onCardPositionUpdate activeId (kl_id overList) (-1)).
Proof.
  intros lists userRole activeId overId activeList overList
         Hrole Hcard Hact Hover Hsame Hgate Hnone.
  unfold handleDragEnd, card_drag in *.
  rewrite Hcard, Hrole, Hact, Hover, Hgate, Hsame, String.eqb_refl; simpl.
  unfold has_card in Hnone; rewrite (findIndex_not_found _ _ Hnone).
  assert (Hai : 0 <= JS.findIndex (fun c => String.eqb (kc_id c) activeId)
                                  (kl_cards activeList)).
  { apply findIndex_found.
    unfold find_activeList in Hact; apply find_some in Hact; apply Hact. }
  destruct (_ =? -1) eqn:E; [apply Z.eqb_eq in E; lia | reflexivity].
Qed.

Lemma own_list_area_drop_position_witness :
  (card_drag "c4" "staff"
   /\ find_activeList Examples.board0 "c4" = Some Examples.staff_list
   /\ find_overList Examples.board0 "staff" = Some Examples.staff_list
   /\ has_card "staff" Examples.staff_list = false)
  /\ handleDragEnd Examples.board0 role_admin true "c4" (Some "staff")
     = Some (onCardPositionUpdate "c4" "staff" (-1)).
Proof.
  split; [repeat split|].
  apply (@own_list_area_drop_position Examples.board0 role_admin "c4" "staff"
           Examples.staff_list Examples.staff_list); reflexivity.
Defined.

(** X18: who sees what.  In the public view only the open lists are
    shown, to every role, an admin included; outside it an admin and a
    moderator see every list.  What is shown is always a selection of
    the lists in board order, and every open list is shown to
    everybody. *)
Theorem visibleLists_by_role :
  forall (lists : list KanbanListData),
    (forall userRole,
        visibleLists true userRole lists
        = filter (fun l => ListType_eqb (kl_type l) open) lists)
    /\ visibleLists false role_admin lists = lists
    /\ visibleLists false role_mod lists = lists
    /\ (forall isPublicView userRole l,
           In l (visibleLists isPublicView userRole lists) -> In l lists)
    /\ (forall isPublicView userRole l,
           In l lists -> kl_type l = open ->
           In l (visibleLists isPublicView userRole lists)).
Proof.
  intro lists.
  assert (Hall : filter (fun _ : KanbanListData => true) lists = lists)
    by (induction lists as [|x l IH]; simpl; [|rewrite IH]; reflexivity).
  split; [reflexivity|]; split; [exact Hall|]; split; [exact Hall|]; split.
  - intros isPublicView userRole l H; unfold visibleLists in H.
    apply filter_In in H; tauto.
  - intros isPublicView userRole l Hin Hopen; unfold visibleLists.
    apply filter_In; split; [exact Hin|].
    rewrite Hopen; destruct isPublicView, userRole; reflexivity.
Qed.

End DropPosition.

(** ** Members of a card and the settings table *)

Section MembersAndSettings.
Import DatabaseService DatabaseServiceExt.

Lemma update_row_id u c : c_id (update_row u c) = c_id c.
Proof. reflexivity. Qed.

Lemma map_update_absent (cards : list CardRow) id u :
  find (fun c => String.eqb (c_id c) id) cards = None ->
  map (fun c => if String.eqb (c_id c) id then update_row u c else c) cards
  = cards.
Proof.
  induction cards as [|c cards IH]; simpl; [reflexivity|].
  destruct (String.eqb (c_id c) id); [discriminate|].
  intro H; now rewrite IH.
Qed.

(** An update that leaves [list_id] as it is is never refused. *)
Lemma updateCard_keeps_list db id u :
  u_list_id u = None ->
  exists db',
    updateCard db id u = Some (db', option_map (update_row u) (getCard db id))
    /\ getCard db' id = option_map (update_row u) (getCard db id)
    /\ lists_tbl db' = lists_tbl db
    /\ card_actions_tbl db' = card_actions_tbl db
    /\ (getCard db id = None -> db' = db).
Proof.
  intro Hu; unfold updateCard; rewrite Hu.
  assert (Hrefused : match getCard db id with
                     | Some _ => false
                     | None => false
                     end = false) by (destruct (getCard db id); reflexivity).
  rewrite Hrefused.
  assert (H : getCard {| boards_tbl := boards_tbl db;
                         lists_tbl := lists_tbl db;
                         cards_tbl :=
                           map (fun c => if String.eqb (c_id c) id
                                         then update_row u c else c)
                               (cards_tbl db);
                         card_actions_tbl := card_actions_tbl db |} id
              = option_map (update_row u) (getCard db id)).
  { unfold getCard; simpl.
    induction (cards_tbl db) as [|c cards IH]; simpl; [reflexivity|].
    destruct (String.eqb (c_id c) id) eqn:E; simpl.
    - now rewrite E.
    - rewrite E; exact IH. }
  eexists; split; [rewrite H; reflexivity|].
  split; [exact H|]; split; [reflexivity|]; split; [reflexivity|].
  intro Hnone; clear H Hrefused.
  rewrite (map_update_absent _ _ u Hnone); destruct db; reflexivity.
Qed.

Lemma existsb_eqb_In (x : string) l : existsb (String.eqb x) l = true <-> In x l.
Proof.
  rewrite existsb_exists; split.
  - intros (y & Hy & E); apply String.eqb_eq in E; now subst.
  - intro H; exists x; split; [exact H | apply String.eqb_refl].
Qed.

Lemma addMemberToCard_added users db cardId userId db1 card :
  getCard db cardId = Some card ->
  addMemberToCard users db cardId userId = (db1, true) ->
  ~ In userId (parsed_members card)
  /\ getCard db1 cardId
     = Some (update_row (members_update (parsed_members card ++ [userId])) card).
Proof.
  intros Hc; unfold addMemberToCard; rewrite Hc.
  destruct (getUser users userId) as [user|]; [|discriminate].
  destruct (is_staff (usr_role user)); simpl; [|discriminate].
  destruct (existsb (String.eqb userId) (parsed_members card)) eqn:Hm;
    [discriminate|].
  destruct (updateCard_keeps_list db cardId
              (members_update (parsed_members card ++ [userId])) eq_refl)
    as (db' & Hup & Hg & _).
  rewrite Hup, Hc; cbn [option_map]; intro H; inversion H; subst db1.
  split; [|rewrite Hg, Hc; reflexivity].
  intro Hin; apply existsb_eqb_In in Hin; congruence.
Qed.

(** X19: [addMemberToCard] adds a member exactly when the card exists,
    the user exists with role mod or admin, and the user is not a
    member yet.  It then appends the user id to the members of the card
    and changes nothing else of the card; in every other case it
    returns false and the store is left as it is. *)
Theorem addMemberToCard_outcome :
  forall users db (cardId userId : string),
    let r := addMemberToCard users db cardId userId in
    (snd r = true <->
     exists card user,
       getCard db cardId = Some card
       /\ getUser users userId = Some user
       /\ is_staff (usr_role user) = true
       /\ ~ In userId (parsed_members card))
    /\ (snd r = false -> fst r = db)
    /\ (forall card,
           snd r = true -> getCard db cardId = Some card ->
           getCard (fst r) cardId
           = Some (update_row (members_update (parsed_members card ++ [userId]))
                              card)
           /\ lists_tbl (fst r) = lists_tbl db
           /\ card_actions_tbl (fst r) = card_actions_tbl db).
Proof.
  intros users db cardId userId; simpl; unfold addMemberToCard.
  destruct (getCard db cardId) as [card|] eqn:Hc.
  2:{ split; [split; [discriminate | intros (c & u & H & _); discriminate]|].
      split; [reflexivity | discriminate]. }
  destruct (getUser users userId) as [user|] eqn:Hu.
  2:{ split; [split; [discriminate | intros (c & u & _ & H & _); discriminate]|].
      split; [reflexivity | discriminate]. }
  destruct (is_staff (usr_role user)) eqn:Hs; simpl.
  2:{ split; [split; [discriminate|]|split; [reflexivity | discriminate]].
      intros (c & u & _ & H & Hs' & _); inversion H; subst; congruence. }
  destruct (existsb (String.eqb userId) (parsed_members card)) eqn:Hm.
  - split; [split; [discriminate|]|split; [reflexivity | discriminate]].
    intros (c & u & H & _ & _ & Hn); inversion H; subst.
    apply existsb_eqb_In in Hm; contradiction.
  - destruct (updateCard_keeps_list db cardId
                (members_update (parsed_members card ++ [userId])) eq_refl)
      as (db' & Hup & Hg & Hl & Ha & _).
    rewrite Hup, Hc; cbn [option_map fst snd].
    split; [split; [|reflexivity]|split; [discriminate|]].
    + intros _; exists card, user; repeat split; auto.
      intro Hin; apply existsb_eqb_In in Hin; congruence.
    + intros c _ Hcard; inversion Hcard; subst c.
      rewrite Hg, Hc; split; [reflexivity | split; assumption].
Qed.

Lemma filter_remove_appended (x : string) l :
  ~ In x l -> filter (fun id => negb (String.eqb id x)) (l ++ [x]) = l.
Proof.
  intro H; rewrite filter_app; simpl; rewrite String.eqb_refl; simpl.
  rewrite app_nil_r.
  induction l as [|y l IH]; simpl; [reflexivity|].
  destruct (String.eqb_spec y x) as [E|E]; simpl.
  - exfalso; apply H; left; exact E.
  - rewrite IH; [reflexivity | intro; apply H; right; assumption].
Qed.

(** X20: removing a member that was just added gives the members back
    as they were; and [removeMemberFromCard] for a user who is not a
    member, or for a card that does not exist, returns false and leaves
    the store as it is. *)
Theorem removeMemberFromCard_after_add :
  forall users db (cardId userId : string),
    (forall card db1,
        getCard db cardId = Some card ->
        addMemberToCard users db cardId userId = (db1, true) ->
        exists card2,
          snd (removeMemberFromCard db1 cardId userId) = true
          /\ getCard (fst (removeMemberFromCard db1 cardId userId)) cardId
             = Some card2
          /\ parsed_members card2 = parsed_members card)
    /\ ((forall card, getCard db cardId = Some card ->
                      ~ In userId (parsed_members card)) ->
        removeMemberFromCard db cardId userId = (db, false)).
Proof.
  intros users db cardId userId; split.
  - intros card db1 Hc Hadd.
    destruct (@addMemberToCard_added users db cardId userId db1 card Hc Hadd)
      as (Hnot & Hg1).
    unfold removeMemberFromCard; rewrite Hg1.
    set (card1 := update_row (members_update (parsed_members card ++ [userId])) card)
      in *.
    assert (Hm1 : parsed_members card1 = parsed_members card ++ [userId])
      by reflexivity.
    rewrite Hm1.
    assert (Hex : existsb (String.eqb userId) (parsed_members card ++ [userId])
                  = true)
      by (apply existsb_eqb_In, in_or_app; right; left; reflexivity).
    rewrite Hex; simpl negb; cbv iota.
    rewrite (@filter_remove_appended userId (parsed_members card) Hnot).
    destruct (updateCard_keeps_list db1 cardId
                (members_update (parsed_members card)) eq_refl)
      as (db2 & Hup & Hg & _).
    rewrite Hup, Hg1; cbn [option_map fst snd].
    rewrite Hg, Hg1; cbn [option_map].
    eexists; split; [reflexivity|]; split; reflexivity.
  - intro Hnot; unfold removeMemberFromCard.
    destruct (getCard db cardId) as [card|] eqn:Hc; [|reflexivity].
    destruct (existsb (String.eqb userId) (parsed_members card)) eqn:E;
      [|reflexivity].
    apply existsb_eqb_In in E; exfalso; exact (Hnot card eq_refl E).
Qed.

Lemma getSetting_app settings row key :
  getSetting (settings ++ [row]) key
  = match getSetting settings key with
    | Some s => Some s
    | None => if String.eqb (s_key row) key then Some row else None
    end.
Proof.
  unfold getSetting; induction settings as [|s settings IH]; simpl.
  - destruct (String.eqb (s_key row) key); reflexivity.
  - destruct (String.eqb (s_key s) key); [reflexivity | exact IH].
Qed.

(** X21: the settings table is a map with upsert.  After
    [setSetting(key, value)] the key is found with that value and every
    other key is found as before, whether the key was new or not; the
    keys stay distinct; after [deleteSetting(key)] the key is not
    found, and the call reports a change exactly when it was there. *)
Theorem settings_upsert_and_delete :
  forall settings (key value : string),
    let settings' := fst (setSetting settings key value) in
    getSetting settings' key = Some {| s_key := key; s_value := value |}
    /\ snd (setSetting settings key value) = {| s_key := key; s_value := value |}
    /\ (forall other, other <> key ->
                      getSetting settings' other = getSetting settings other)
    /\ (NoDup (map s_key settings) -> NoDup (map s_key settings'))
    /\ getSetting (fst (deleteSetting settings key)) key = None
    /\ (snd (deleteSetting settings key) = true
        <-> exists s, getSetting settings key = Some s).
Proof.
  intros settings key value; simpl.
  set (row := {| s_key := key; s_value := value |}).
  unfold setSetting; fold row.
  destruct (existsb (fun s => String.eqb (s_key s) key) settings) eqn:Hex;
    cbn [fst snd].
  - split; [|split; [reflexivity|split; [|split; [|split]]]].
    + unfold getSetting.
      induction settings as [|s settings IH]; simpl in *; [discriminate|].
      destruct (String.eqb (s_key s) key) eqn:E; simpl.
      * now rewrite String.eqb_refl.
      * rewrite E; apply IH; exact Hex.
    + intros other Hne; unfold getSetting; clear Hex.
      induction settings as [|s settings IH]; simpl; [reflexivity|].
      destruct (String.eqb_spec (s_key s) key) as [E|E]; simpl.
      * destruct (String.eqb_spec key other); [congruence|].
        destruct (String.eqb_spec (s_key s) other); [congruence | exact IH].
      * destruct (String.eqb (s_key s) other); [reflexivity | exact IH].
    + intro Hnd.
      assert (E : map s_key (map (fun s => if String.eqb (s_key s) key
                                           then row else s) settings)
                  = map s_key settings).
      { rewrite map_map; apply map_ext; intro s.
        destruct (String.eqb_spec (s_key s) key); [now subst | reflexivity]. }
      now rewrite E.
    + unfold getSetting, deleteSetting; simpl.
      destruct (find _ (filter _ settings)) as [s|] eqn:E; [|reflexivity].
      apply find_some in E; destruct E as [Hin Hs].
      apply filter_In in Hin; destruct Hin as [_ Hn].
      rewrite Hs in Hn; discriminate.
    + split; [intros _|reflexivity].
      unfold getSetting.
      apply existsb_exists in Hex; destruct Hex as (s & Hin & Hs).
      destruct (find (fun s0 => String.eqb (s_key s0) key) settings) eqn:E;
        [eauto|].
      apply (find_none _ _ E) in Hin; congruence.
  - assert (Hnone : getSetting settings key = None).
    { unfold getSetting.
      destruct (find _ settings) as [s|] eqn:E; [|reflexivity].
      apply find_some in E.
      assert (existsb (fun s => String.eqb (s_key s) key) settings = true)
        by (apply existsb_exists; eauto).
      congruence. }
    split; [|split; [reflexivity|split; [|split; [|split]]]].
    + rewrite getSetting_app, Hnone; simpl; now rewrite String.eqb_refl.
    + intros other Hne; rewrite getSetting_app; simpl.
      destruct (getSetting settings other); [reflexivity|].
      destruct (String.eqb_spec key other); [congruence | reflexivity].
    + intro Hnd; rewrite map_app; simpl.
      apply NoDup_app; [exact Hnd | repeat constructor; auto |].
      intros k Hk [<-|[]].
      apply in_map_iff in Hk; destruct Hk as (s & Es & Hin).
      assert (existsb (fun s => String.eqb (s_key s) key) settings = true)
        by (apply existsb_exists; exists s; split;
            [exact Hin | now apply String.eqb_eq]).
      congruence.
    + unfold getSetting, deleteSetting; simpl.
      destruct (find _ (filter _ settings)) as [s|] eqn:E; [|reflexivity].
      apply find_some in E; destruct E as [Hin Hs].
      apply filter_In in Hin; destruct Hin as [_ Hn].
      rewrite Hs in Hn; discriminate.
    + rewrite Hnone.
      split; [discriminate | intros (s & H); discriminate].
Qed.

End MembersAndSettings.

(** ** The local buffer of actions *)

Section LocalBuffer.
Import LocalActionStorage SpecExt.






End LocalBuffer.

Section BufferExpiry.
Import LocalActionStorage SpecExt.






End BufferExpiry.

(** ** The staff roster *)

Section Roster.
Import StaffUsers.

Lemma filter_filter_same {A} (p : A -> bool) (l : list A) :
  filter p (filter p l) = filter p l.
Proof.
  induction l as [|x l IH]; simpl; [reflexivity|].
  destruct (p x) eqn:E; simpl; rewrite ?E, IH; reflexivity.
Qed.

Lemma filter_negb_filter {A} (p : A -> bool) (l : list A) :
  filter (fun x => negb (p x)) (filter p l) = [].
Proof.
  induction l as [|x l IH]; simpl; [reflexivity|].
  destruct (p x) eqn:E; simpl; rewrite ?E; exact IH.
Qed.

(** X25: [addStaffUser] keeps one entry per user.  After it the roster
    holds exactly one entry that has the id or the Discord id of the
    user, the user as passed with [lastSeen] set to now, at the end;
    the entries of the other users are kept in their order; adding the
    user once more gives the roster it would have given at first; and
    ids that were distinct stay distinct. *)
Theorem addStaffUser_one_entry :
  forall (now : Z) (user : StaffUser) (prev : list StaffUser),
    let same u := String.eqb (su_id u) (su_id user)
                  || String.eqb (su_discordId u) (su_discordId user) in
    let next := addStaffUser now user prev in
    filter same next = [set_seen user now (su_isOnline user)]
    /\ filter (fun u => negb (same u)) next
       = filter (fun u => negb (same u)) prev
    /\ next = filter (fun u => negb (same u)) prev
              ++ [set_seen user now (su_isOnline user)]
    /\ (forall now', addStaffUser now' user next = addStaffUser now' user prev)
    /\ (NoDup (map su_id prev) -> NoDup (map su_id next)).
Proof.
  intros now user prev same next.
  set (keep := fun u => negb (String.eqb (su_id u) (su_id user))
                        && negb (String.eqb (su_discordId u) (su_discordId user))).
  assert (Hk : forall u, keep u = negb (same u))
    by (intro u; unfold keep, same; now rewrite negb_orb).
  assert (Hs : forall u, same u = negb (keep u))
    by (intro u; rewrite Hk; now rewrite negb_involutive).
  assert (Hentry : keep (set_seen user now (su_isOnline user)) = false)
    by (unfold keep; simpl; now rewrite String.eqb_refl).
  assert (Hnext : next = filter keep prev ++ [set_seen user now (su_isOnline user)])
    by reflexivity.
  assert (Hext : forall l, filter (fun u => negb (same u)) l = filter keep l)
    by (intro l; apply filter_ext; intro u; now rewrite Hk).
  assert (Hext' : forall l, filter same l = filter (fun u => negb (keep u)) l)
    by (intro l; apply filter_ext; intro u; now rewrite Hs).
  split; [|split; [|split; [|split]]].
  - rewrite Hext', Hnext, filter_app, filter_negb_filter; simpl.
    now rewrite Hentry.
  - rewrite !Hext, Hnext, filter_app, filter_filter_same; simpl.
    now rewrite Hentry, app_nil_r.
  - now rewrite Hext.
  - intro now'; unfold addStaffUser; fold keep; fold next.
    rewrite Hnext, filter_app, filter_filter_same; simpl.
    now rewrite Hentry, app_nil_r.
  - intro Hnd; rewrite Hnext, map_app; simpl.
    apply NoDup_app.
    + revert Hnd; generalize prev as l; induction l as [|u l IH]; simpl;
        intro Hnd; [constructor|].
      inversion Hnd; subst.
      destruct (keep u); simpl; [|auto].
      constructor; [|auto].
      intro Hin; apply in_map_iff in Hin; destruct Hin as (v & Ev & Hv).
      apply filter_In in Hv; destruct Hv as [Hv _].
      apply H1; rewrite <- Ev; now apply in_map.
    + repeat constructor; auto.
    + intros id Hid [<-|[]].
      apply in_map_iff in Hid; destruct Hid as (v & Ev & Hv).
      apply filter_In in Hv; destruct Hv as [_ Hv].
      unfold keep in Hv; rewrite Ev, String.eqb_refl in Hv; discriminate.
Qed.

(** X26: a heartbeat keeps a user online for ten minutes.  After
    [updateUserActivity] at time [now], the status update run at time
    [later] marks the entries of that Discord id online exactly when
    less than ten minutes have passed; the other entries are judged by
    their own [lastSeen]; neither call adds, drops or reorders
    entries. *)
Theorem heartbeat_keeps_online :
  forall (now later : Z) (discordId : string) (prev : list StaffUser),
    let next := updateOnlineStatus later (updateUserActivity now discordId prev) in
    map su_id next = map su_id prev
    /\ map su_discordId next = map su_discordId prev
    /\ (forall u, In u next -> su_discordId u = discordId ->
                  su_lastSeen u = now
                  /\ su_isOnline u = Some (later - now <? ONLINE_THRESHOLD))
    /\ (forall u, In u next -> su_discordId u <> discordId ->
                  exists u0, In u0 prev
                             /\ u = set_seen u0 (su_lastSeen u0)
                                      (Some (later - su_lastSeen u0
                                             <? ONLINE_THRESHOLD))).
Proof.
  intros now later discordId prev next; unfold next, updateOnlineStatus,
    updateUserActivity.
  rewrite !map_map.
  split; [|split; [|split]].
  - apply map_ext; intro u; destruct (String.eqb _ _); reflexivity.
  - apply map_ext; intro u; destruct (String.eqb _ _); reflexivity.
  - intros u Hu Ed; apply in_map_iff in Hu; destruct Hu as (u0 & Eu & Hu0).
    subst u; destruct (String.eqb_spec (su_discordId u0) discordId) as [E|E];
      simpl in *; [split; reflexivity | contradiction].
  - intros u Hu Nd; apply in_map_iff in Hu; destruct Hu as (u0 & Eu & Hu0).
    exists u0; split; [exact Hu0|].
    subst u; destruct (String.eqb_spec (su_discordId u0) discordId) as [E|E];
      simpl in *; [contradiction | reflexivity].
Qed.

End Roster.

(** ** What the card and the menus offer *)

Section Controls.
Import KanbanCard ContextMenu KanbanBoard.

(** X27: the three permission flags of a card agree.  The drag handle
    is shown exactly when dragging is enabled, uploading is allowed
    exactly then, and a card that can be dragged belongs to a role the
    drag handlers of the board accept. *)
Theorem card_controls_agree :
  forall (userRole : Role) (listType : ListType),
    showDragHandle userRole listType = negb (isDragDisabled userRole listType)
    /\ canUpload userRole listType = showDragHandle userRole listType
    /\ (isDragDisabled userRole listType = false -> can_drag userRole = true)
    /\ (isDragDisabled userRole listType = true <->
        userRole = role_default \/ (userRole = role_mod /\ listType = open)).
Proof.
  intros [] []; simpl; repeat split; try tauto; try discriminate;
    intros [H|[H1 H2]]; discriminate.
Qed.

(** X28: the context menus by role.  A viewer of role default gets no
    item in either menu, the others always get some.  No item of the
    card menu is ever disabled.  In the list menu the items that
    change the visibility are there for an admin only, and the single
    disabled item is the one of the visibility the list has already.
    No id occurs twice in the list menu. *)
Theorem context_menus_by_role :
  forall (listType : ListType) (userRole : Role)
         (onDelete onExport onSort onSetLimit : bool),
    let cardItems := getCardContextMenuItems userRole in
    let listItems := getListContextMenuItems listType userRole
                       onDelete onExport onSort onSetLimit in
    (cardItems = [] <-> userRole = role_default)
    /\ (listItems = [] <-> userRole = role_default)
    /\ Forall (fun i => item_disabled i = false) cardItems
    /\ (forall i, In i listItems ->
                  (item_disabled i = true <->
                   item_id i = match listType with
                               | open => "visibility-open"
                               | closed => "visibility-closed"
                               | hidden => "visibility-hidden"
                               end))
    /\ (In "visibility-open" (map item_id listItems) <-> userRole = role_admin)
    /\ NoDup (map item_id listItems).
Proof.
  intros listType userRole onDelete onExport onSort onSetLimit.
  destruct userRole, listType, onDelete, onExport, onSort, onSetLimit;
    cbv zeta; cbn;
    (split; [split; intro; discriminate || reflexivity|]);
    (split; [split; intro; discriminate || reflexivity|]);
    (split; [repeat constructor|]);
    (split; [intros i Hi; repeat (destruct Hi as [<-|Hi]; [cbn; split; intro; discriminate || reflexivity|]); destruct Hi|]);
    (split; [split; [intro Hi; repeat (destruct Hi as [Hi|Hi]; [discriminate Hi || reflexivity|]); destruct Hi || reflexivity | intro; discriminate || (simpl; tauto)]|]);
    repeat (constructor; [simpl; intuition discriminate|]); constructor.
Qed.

End Controls.

(** ** The statements above on the example board *)

Section Scenarios.
Import DatabaseService BoardState KanbanBoard Spec SpecExt.

Lemma db0_foreign_keys : foreign_keys_hold Examples.db0.
Proof.
  intros c Hc; simpl in Hc.
  repeat (destruct Hc as [<-|Hc];
          [first [ exists (Examples.list_row "todo" "To Do" open 0);
                   split; [simpl; tauto | reflexivity]
                 | exists (Examples.list_row "staff" "Staff Planning" closed 1);
                   split; [simpl; tauto | reflexivity]
                 | exists (Examples.list_row "admin" "Admin Only" hidden 2);
                   split; [simpl; tauto | reflexivity] ]|]).
  destruct Hc.
Qed.

Lemma updateCard_partial_update_witness :
  foreign_keys_hold Examples.db0
  /\ updateCard Examples.db0 "c1" (move_update "nowhere" 0) = None
  /\ match updateCard Examples.db0 "c1" (move_update "staff" 0) with
     | Some (db', returned) =>
         returned = getCard db' "c1" /\ lists_tbl db' = lists_tbl Examples.db0
     | None => False
     end.
Proof.
  split; [exact db0_foreign_keys|].
  split.
  - apply (proj1 (@updateCard_partial_update Examples.db0 "c1"
                    (move_update "nowhere" 0) db0_foreign_keys)).
    exists (Examples.row "c1" "todo" "one" 0), "nowhere".
    split; [reflexivity|]; split; [reflexivity|].
    intros (l & Hl & E); simpl in Hl.
    repeat (destruct Hl as [<-|Hl]; [discriminate E|]); exact Hl.
  - pose proof (@updateCard_partial_update Examples.db0 "c1"
                  (move_update "staff" 0) db0_foreign_keys) as [_ H].
    revert H.
    destruct (updateCard Examples.db0 "c1" (move_update "staff" 0))
      as [[db' returned]|] eqn:E; [|vm_compute in E; discriminate].
    intros (_ & _ & Hl & _ & Hr & _); split; [exact Hr | exact Hl].
Defined.

Lemma saveKanbanData_renumbers_witness :
  foreign_keys_hold Examples.db0
  /\ match saveKanbanData Examples.db0 DEFAULT_BOARD_ID
             [Examples.staff_list; Examples.todo_list; Examples.admin_list] with
     | Some db' => positions_of db' "todo" = range 3
     | None => False
     end.
Proof.
  split; [exact db0_foreign_keys|].
  destruct (saveKanbanData Examples.db0 DEFAULT_BOARD_ID
              [Examples.staff_list; Examples.todo_list; Examples.admin_list])
    as [db'|] eqn:E; [|vm_compute in E; discriminate].
  exact (proj1 (@saveKanbanData_renumbers Examples.db0 DEFAULT_BOARD_ID
                  [Examples.staff_list; Examples.todo_list; Examples.admin_list]
                  db' db0_foreign_keys E Examples.todo_list
                  (or_intror (or_introl eq_refl)))).
Defined.

Lemma saveKanbanData_then_getListsByBoard_witness :
  foreign_keys_hold Examples.db0
  /\ match saveKanbanData Examples.db0 DEFAULT_BOARD_ID
             [Examples.admin_list; Examples.todo_list] with
     | Some db' =>
         getListsByBoard db' DEFAULT_BOARD_ID
         = map as_stored_list [Examples.admin_list; Examples.todo_list]
     | None => False
     end.
Proof.
  split; [exact db0_foreign_keys|].
  destruct (saveKanbanData Examples.db0 DEFAULT_BOARD_ID
              [Examples.admin_list; Examples.todo_list])
    as [db'|] eqn:E; [|vm_compute in E; discriminate].
  exact (proj1 (@saveKanbanData_then_getListsByBoard Examples.db0
                  DEFAULT_BOARD_ID [Examples.admin_list; Examples.todo_list]
                  db' db0_foreign_keys E)).
Defined.

Lemma addCard_shows_card_witness :
  (Examples.net_up ApiClient.CreateCard = true
   /\ getCard Examples.db0 "card_1700000000000_abc" = None)
  /\ fst (addCard Examples.env0 Examples.net_up "todo"
                  (Examples.card "" "new") Examples.world0)
     = ReturnedId "card_1700000000000_abc"
  /\ exists l,
      In l (lists (state (snd (addCard Examples.env0 Examples.net_up "todo"
                                       (Examples.card "" "new") Examples.world0))))
      /\ kl_id l = "todo"
      /\ In "card_1700000000000_abc" (map kc_id (kl_cards l)).
Proof.
  split; [split; reflexivity|].
  destruct (@addCard_shows_card Examples.env0 Examples.net_up "todo"
              (Examples.card "" "new") Examples.world0 Examples.alice
              (Examples.list_row "todo" "To Do" open 0)
              eq_refl eq_refl eq_refl eq_refl (or_introl eq_refl)
              eq_refl eq_refl) as (H1 & H2 & _).
  split; [exact H1 | exact H2].
Defined.

Lemma addCard_without_actor_witness :
  (CardActions.currentUser Examples.env_anonymous = None
   /\ getCard Examples.db0 "card_1700000000000_abc" = None
   /\ stored_list Examples.db0 "todo")
  /\ fst (addCard Examples.env_anonymous Examples.net_up "todo"
                  (Examples.card "" "new") Examples.world0)
     = ReturnedUndefined
  /\ state (snd (addCard Examples.env_anonymous Examples.net_up "todo"
                         (Examples.card "" "new") Examples.world0))
     = Examples.state0.
Proof.
  assert (Hlist : stored_list Examples.db0 "todo")
    by (eexists; split; [left; reflexivity | reflexivity]).
  split; [split; [reflexivity | split; [reflexivity | exact Hlist]]|].
  destruct (@addCard_without_actor Examples.env_anonymous Examples.net_up "todo"
              (Examples.card "" "new") Examples.world0
              eq_refl eq_refl eq_refl Hlist) as (H1 & H2 & _).
  split; [exact H1 | exact H2].
Defined.

Lemma deleteCard_removes_card_witness :
  Examples.net_up ApiClient.DeleteCard = true
  /\ getCard (store (BoardState.deleteCard Examples.env0 Examples.net_up "c2"
                       Examples.world0)) "c2" = None
  /\ ~ In "c2" (card_ids (lists (state (BoardState.deleteCard Examples.env0
                                          Examples.net_up "c2"
                                          Examples.world0)))).
Proof.
  split; [reflexivity|].
  destruct (@deleteCard_removes_card Examples.env0 Examples.net_up "c2"
              Examples.world0 eq_refl) as (_ & H & _).
  destruct (H (Examples.row "c2" "todo" "two" 1) eq_refl eq_refl)
    as (H1 & H2 & _).
  split; [exact H1 | exact H2].
Defined.

Lemma list_drag_reorders_lists_witness :
  (can_drag role_mod = true
   /\ JS.startsWith "list-todo" "list-" = true
   /\ JS.startsWith "list-admin" "list-" = true)
  /\ exists newLists,
      handleDragEnd Examples.board0 role_mod true "list-todo"
                    (Some "list-admin")
      = Some (onListsUpdate newLists)
      /\ Permutation newLists Examples.board0
      /\ nth_error newLists 2 = Some Examples.todo_list.
Proof.
  split; [repeat split|].
  destruct (@list_drag_reorders_lists Examples.board0 role_mod true
              "list-todo" "list-admin")
    as (newLists & H1 & H2 & H3 & _); try reflexivity.
  - discriminate.
  - exists newLists; split; [exact H1|]; split; [exact H2 | exact H3].
Defined.

End Scenarios.
